(** * The layer list model of Tiled and its undo commands

    A shallow embedding of [src/tiled/layermodel.cpp]: the two undo commands
    of the anonymous namespace ([SetLayerVisible], [SetLayerOpacity]) and the
    methods of [LayerModel].  Objects reached through pointers live in a
    store; every method is a function from the store to an outcome, which is
    either a result with the new store or a fault (a null or dangling pointer
    was followed, or [QList::at] was called out of range). *)

From Stdlib Require Import ZArith String List Bool Lia.
From Stdlib Require Import Floats.SpecFloat.
From stdpp Require Import base option gmap list.

Local Open Scope Z_scope.

(** ** Machine integers

    [int] is a 32-bit two's complement integer, kept as a [Z] with the
    wrap-around of each operation written out. *)

Module Int.

Definition min_int : Z := - 2 ^ 31.
Definition max_int : Z := 2 ^ 31 - 1.

Definition wrap (z : Z) : Z := (z + 2 ^ 31) mod 2 ^ 32 - 2 ^ 31.

Definition add (a b : Z) : Z := wrap (a + b).
Definition sub (a b : Z) : Z := wrap (a - b).

End Int.

(** ** Floating point

    [float] is IEEE binary32 and [qreal] is IEEE binary64, both as
    [spec_float] values in the canonical form of their format. *)

Module Fp.

Definition float := spec_float.
Definition qreal := spec_float.

(** The implicit promotion of a [float] operand to [double]; exact. *)
Definition to_qreal (f : float) : qreal :=
  match f with
  | S754_finite s m e => binary_round 53 1024 s m e
  | _ => f
  end.

(** The narrowing conversion of a [double] argument to a [float]
    parameter; rounds to nearest, ties to even. *)
Definition to_float (d : qreal) : float :=
  match d with
  | S754_finite s m e => binary_round 24 128 s m e
  | _ => d
  end.

(** The operator [!=] on two doubles. *)
Definition ne (a b : qreal) : bool := negb (SFeqb a b).

End Fp.

(** ** Layers and the map that owns them *)

Inductive LayerType := TileLayerType | ObjectGroupType | ImageLayerType.

Record Layer := {
  name : string;
  isVisible : bool;
  opacity : Fp.float;
  type : LayerType
}.

Definition setVisible (v : bool) (l : Layer) : Layer :=
  {| name := name l; isVisible := v; opacity := opacity l; type := type l |}.

Definition setOpacity (o : Fp.float) (l : Layer) : Layer :=
  {| name := name l; isVisible := isVisible l; opacity := o; type := type l |}.

Definition setName (s : string) (l : Layer) : Layer :=
  {| name := s; isVisible := isVisible l; opacity := opacity l; type := type l |}.

(** Modelled from the spec: class [Map] (map.h) is not among the sources.
    The spec describes it as the owner of "an ordered sequence of layer
    objects" with "insert/remove/lookup operations"; the sequence is a
    [QList], whose [at] requires an index in range. *)
Module Map.

Definition layerCount (mLayers : list Layer) : Z :=
  Z.of_nat (length mLayers).

Definition in_range (mLayers : list Layer) (index : Z) : bool :=
  (0 <=? index) && (index <? layerCount mLayers).

Definition layerAt (mLayers : list Layer) (index : Z) : option Layer :=
  if in_range mLayers index then mLayers !! Z.to_nat index else None.

Definition takeLayerAt (mLayers : list Layer) (index : Z)
  : option (Layer * list Layer) :=
  match layerAt mLayers index with
  | Some l => Some (l, delete (Z.to_nat index) mLayers)
  | None => None
  end.

Definition insertLayer (mLayers : list Layer) (index : Z) (l : Layer)
  : list Layer :=
  if index <=? 0 then l :: mLayers
  else take (Z.to_nat index) mLayers ++ l :: drop (Z.to_nat index) mLayers.

Definition replaceLayerAt (mLayers : list Layer) (index : Z) (l : Layer)
  : list Layer :=
  <[Z.to_nat index := l]> mLayers.

End Map.

(** ** Pointers

    A pointer is an address; address 0 is the null pointer. *)

Definition ptr := N.
Definition null : ptr := 0%N.

Definition is_null (p : ptr) : bool := (p =? 0)%N.
Definition ptr_eq (p q : ptr) : bool := (p =? q)%N.

(** ** Values handed over by the view *)

Record QModelIndex := {
  row : Z;
  column : Z;
  model : ptr
}.

(** The default-constructed, invalid index [QModelIndex()]. *)
Definition QModelIndex_invalid : QModelIndex :=
  {| row := -1; column := -1; model := null |}.

Definition isValid (i : QModelIndex) : bool :=
  (0 <=? row i) && (0 <=? column i) && negb (is_null (model i)).

(** A [QVariant] is known here by what its three conversions give;
    [toDouble] comes with the flag it writes through its [bool *ok]
    argument. *)
Record QVariant := {
  toInt : Z;
  toDouble : Fp.qreal * bool;
  toString : string
}.

(** Item data roles ([Qt::ItemDataRole]); [OpacityRole] is the first user
    role. *)
Module Qt.
Definition DisplayRole : Z := 0.
Definition DecorationRole : Z := 1.
Definition EditRole : Z := 2.
Definition CheckStateRole : Z := 10.
Definition UserRole : Z := 32.
Definition Unchecked : Z := 0.
Definition PartiallyChecked : Z := 1.
Definition Checked : Z := 2.
End Qt.

Definition OpacityRole : Z := Qt.UserRole.

(** ** Undo commands: the data they hold

    [SetLayerVisible] and [SetLayerOpacity] are the classes of the anonymous
    namespace; [text] is the label given to [setText] by the constructor. *)

Module SetLayerVisible.
Record t := {
  text : string;
  mMapDocument : ptr;
  mLayerIndex : Z;
  mVisible : bool
}.
End SetLayerVisible.

Module SetLayerOpacity.
Record t := {
  text : string;
  mMapDocument : ptr;
  mLayerIndex : Z;
  mOldOpacity : Fp.float;
  mNewOpacity : Fp.float
}.
End SetLayerOpacity.

(** Modelled from the spec: class [RenameLayer] (renamelayer.h) is not among
    the sources.  The spec calls it "a rename command (external
    collaborator)" built from the document, the layer index and the new
    name, and has [renameLayer] "invoked BY the undo commands"; it is taken
    to swap the held name with the layer's, like [SetLayerVisible]. *)
Module RenameLayer.
Record t := {
  text : string;
  mMapDocument : ptr;
  mLayerIndex : Z;
  mName : string
}.
End RenameLayer.

(** A command on the undo stack: one of the three leaf commands or a macro,
    a plain [QUndoCommand] with a label and children. *)
#[warnings="-register-all"]
Inductive QUndoCommand :=
| VisibleCommand (c : SetLayerVisible.t)
| OpacityCommand (c : SetLayerOpacity.t)
| RenameCommand (c : RenameLayer.t)
| MacroCommand (text : string) (child_list : list QUndoCommand).

(** Modelled from the spec: the constant [Cmd_ChangeLayerOpacity]
    (undocommands.h) is not among the sources; it is the identifier the spec's
    merge of opacity commands goes by, and only has to differ from -1, the
    identifier of a command that never merges. *)
Definition Cmd_ChangeLayerOpacity : Z := 0.

Definition id (c : QUndoCommand) : Z :=
  match c with
  | OpacityCommand _ => Cmd_ChangeLayerOpacity
  | _ => -1
  end.

(** Modelled from the spec: the undo stack is Qt's [QUndoStack], "ordered
    history of reversible commands supporting push, undo, redo, and grouped
    macros".  The state is the command list, the index of the next command
    to redo, the clean index, and the macros that are open, innermost first,
    each with its label and the children it has so far. *)
Record QUndoStack := {
  d_command_list : list QUndoCommand;
  d_index : Z;
  d_clean_index : Z;
  d_macro_stack : list (string * list QUndoCommand)
}.

Definition QUndoStack_new : QUndoStack :=
  {| d_command_list := []; d_index := 0; d_clean_index := 0;
     d_macro_stack := [] |}.

(** ** The store *)

Module LayerModel.
Record t := {
  mMapDocument : ptr;
  mMap : ptr
}.
End LayerModel.

(** Modelled from the spec: class [MapDocument] (mapdocument.h) is not among
    the sources; it is "the document object that owns the map and the undo
    stack", and hands out its layer model.  The fields are named after the
    accessors [map()], [layerModel()] and [undoStack()]. *)
Module MapDocument.
Record t := {
  map : ptr;
  layerModel : ptr;
  undoStack : QUndoStack
}.
End MapDocument.

(** The signals of [LayerModel] and of the list model it derives from.
    [beginRemoveRows] announces itself as [rowsAboutToBeRemoved] and
    [endRemoveRows] as [rowsRemoved], likewise for insertion and reset. *)
Inductive Signal :=
| layerAdded (index : Z)
| layerAboutToBeRemoved (index : Z)
| layerRemoved (index : Z)
| layerAboutToBeRenamed (index : Z)
| layerRenamed (index : Z)
| layerChanged (index : Z)
| dataChanged (topLeft bottomRight : QModelIndex)
| rowsAboutToBeInserted (first last : Z)
| rowsInserted (first last : Z)
| rowsAboutToBeRemoved (first last : Z)
| rowsRemoved (first last : Z)
| modelAboutToBeReset
| modelReset.

(** An emitted signal, with the model that sent it and the layers a slot
    connected to it finds in that model's map when it is called. *)
Record Emission := {
  sender : ptr;
  signal : Signal;
  seen : list Layer
}.

Record World := {
  maps : gmap N (list Layer);
  documents : gmap N MapDocument.t;
  layerModels : gmap N LayerModel.t;
  emitted : list Emission
}.

Inductive Fault := NullPointer | DanglingPointer | IndexOutOfRange | OutOfFuel.

Inductive Outcome (A : Type) :=
| Returns (a : A) (w : World)
| Faults (f : Fault).
Arguments Returns {A} a w.
Arguments Faults {A} f.

Definition Run (A : Type) : Type := World -> Outcome A.

#[global] Instance Run_ret : MRet Run := fun A a w => Returns a w.

#[global] Instance Run_bind : MBind Run := fun A B k m w =>
  match m w with
  | Returns a w' => k a w'
  | Faults f => Faults f
  end.

Definition fault {A : Type} (f : Fault) : Run A := fun _ => Faults f.

Definition deref {A : Type} (heap : World -> gmap N A) (p : ptr) : Run A :=
  fun w =>
    if is_null p then Faults NullPointer
    else match heap w !! p with
         | Some a => Returns a w
         | None => Faults DanglingPointer
         end.

Definition store_maps (p : ptr) (mLayers : list Layer) (w : World) : World :=
  {| maps := <[p := mLayers]> (maps w);
     documents := documents w;
     layerModels := layerModels w;
     emitted := emitted w |}.

Definition store_documents (p : ptr) (d : MapDocument.t) (w : World)
  : World :=
  {| maps := maps w;
     documents := <[p := d]> (documents w);
     layerModels := layerModels w;
     emitted := emitted w |}.

Definition store_layerModels (p : ptr) (m : LayerModel.t) (w : World)
  : World :=
  {| maps := maps w;
     documents := documents w;
     layerModels := <[p := m]> (layerModels w);
     emitted := emitted w |}.

Definition observed (w : World) (this : ptr) : list Layer :=
  match layerModels w !! this with
  | Some self => default [] (maps w !! LayerModel.mMap self)
  | None => []
  end.

Definition record (this : ptr) (s : Signal) (w : World) : World :=
  {| maps := maps w;
     documents := documents w;
     layerModels := layerModels w;
     emitted := emitted w ++
       [ {| sender := this; signal := s; seen := observed w this |} ] |}.

Definition set_maps (p : ptr) (mLayers : list Layer) : Run unit :=
  fun w => Returns tt (store_maps p mLayers w).

Definition set_documents (p : ptr) (d : MapDocument.t) : Run unit :=
  fun w => Returns tt (store_documents p d w).

Definition set_layerModels (p : ptr) (m : LayerModel.t) : Run unit :=
  fun w => Returns tt (store_layerModels p m w).

Definition emit (this : ptr) (s : Signal) : Run unit :=
  fun w => Returns tt (record this s w).

(** [map->layerAt(index)], and a change made through the [Layer *] that it
    returns. *)
Definition layerAt (map : ptr) (index : Z) : Run Layer :=
  mLayers ← deref maps map;
  match Map.layerAt mLayers index with
  | Some l => mret l
  | None => fault IndexOutOfRange
  end.

Definition modifyLayerAt (map : ptr) (index : Z) (f : Layer -> Layer)
  : Run unit :=
  mLayers ← deref maps map;
  match Map.layerAt mLayers index with
  | Some l => set_maps map (Map.replaceLayerAt mLayers index (f l))
  | None => fault IndexOutOfRange
  end.

Definition layerCount (map : ptr) : Run Z :=
  mLayers ← deref maps map;
  mret (Map.layerCount mLayers).

(** ** LayerModel: rows, layer indices and direct mutators *)

(** The constructor: no document, no map. *)
Definition LayerModel_new : LayerModel.t :=
  {| LayerModel.mMapDocument := null; LayerModel.mMap := null |}.

Definition rowCount (this : ptr) (parent : QModelIndex) : Run Z :=
  self ← deref layerModels this;
  if isValid parent then mret 0
  else if negb (is_null (LayerModel.mMap self))
       then layerCount (LayerModel.mMap self)
       else mret 0.

Definition toLayerIndex (this : ptr) (index : QModelIndex) : Run Z :=
  if isValid index then
    self ← deref layerModels this;
    n ← layerCount (LayerModel.mMap self);
    mret (Int.sub (Int.sub n (row index)) 1)
  else mret (-1).

Definition layerIndexToRow (this : ptr) (layerIndex : Z) : Run Z :=
  self ← deref layerModels this;
  n ← layerCount (LayerModel.mMap self);
  mret (Int.sub (Int.sub n layerIndex) 1).

(** [QAbstractListModel::index(row, column)] with the default parent: the
    index of the cell when [hasIndex] holds, the invalid index otherwise. *)
Definition index (this : ptr) (r c : Z) : Run QModelIndex :=
  n ← rowCount this QModelIndex_invalid;
  if (0 <=? r) && (0 <=? c) && (r <? n) && (c <? 1)
  then mret {| row := r; column := c; model := this |}
  else mret QModelIndex_invalid.

Definition beginResetModel (this : ptr) : Run unit :=
  emit this modelAboutToBeReset.
Definition endResetModel (this : ptr) : Run unit :=
  emit this modelReset.
Definition beginInsertRows (this : ptr) (first last : Z) : Run unit :=
  emit this (rowsAboutToBeInserted first last).
(** Qt keeps the range given to [beginInsertRows] for [endInsertRows]; here
    it is passed again.  The same holds for removal. *)
Definition endInsertRows (this : ptr) (first last : Z) : Run unit :=
  emit this (rowsInserted first last).
Definition beginRemoveRows (this : ptr) (first last : Z) : Run unit :=
  emit this (rowsAboutToBeRemoved first last).
Definition endRemoveRows (this : ptr) (first last : Z) : Run unit :=
  emit this (rowsRemoved first last).

Definition setMapDocument (this : ptr) (mapDocument : ptr) : Run unit :=
  self ← deref layerModels this;
  if ptr_eq (LayerModel.mMapDocument self) mapDocument then mret tt
  else
    beginResetModel this;;
    set_layerModels this {| LayerModel.mMapDocument := mapDocument;
                            LayerModel.mMap := LayerModel.mMap self |};;
    doc ← deref documents mapDocument;
    set_layerModels this {| LayerModel.mMapDocument := mapDocument;
                            LayerModel.mMap := MapDocument.map doc |};;
    endResetModel this.

Definition insertLayer (this : ptr) (index : Z) (layer : Layer) : Run unit :=
  r ← layerIndexToRow this index;
  let row := Int.add r 1 in
  beginInsertRows this row row;;
  self ← deref layerModels this;
  mLayers ← deref maps (LayerModel.mMap self);
  set_maps (LayerModel.mMap self) (Map.insertLayer mLayers index layer);;
  endInsertRows this row row;;
  emit this (layerAdded index).

Definition takeLayerAt (this : ptr) (index : Z) : Run Layer :=
  emit this (layerAboutToBeRemoved index);;
  row ← layerIndexToRow this index;
  beginRemoveRows this row row;;
  self ← deref layerModels this;
  mLayers ← deref maps (LayerModel.mMap self);
  match Map.takeLayerAt mLayers index with
  | Some (layer, rest) =>
      set_maps (LayerModel.mMap self) rest;;
      endRemoveRows this row row;;
      emit this (layerRemoved index);;
      mret layer
  | None => fault IndexOutOfRange
  end.

Definition setLayerVisible (this : ptr) (layerIndex : Z) (visible : bool)
  : Run unit :=
  r ← layerIndexToRow this layerIndex;
  modelIndex ← index this r 0;
  self ← deref layerModels this;
  modifyLayerAt (LayerModel.mMap self) layerIndex (setVisible visible);;
  emit this (dataChanged modelIndex modelIndex);;
  emit this (layerChanged layerIndex).

Definition setLayerOpacity (this : ptr) (layerIndex : Z) (o : Fp.float)
  : Run unit :=
  self ← deref layerModels this;
  modifyLayerAt (LayerModel.mMap self) layerIndex (setOpacity o);;
  emit this (layerChanged layerIndex).

Definition renameLayer (this : ptr) (layerIndex : Z) (newName : string)
  : Run unit :=
  emit this (layerAboutToBeRenamed layerIndex);;
  r ← layerIndexToRow this layerIndex;
  modelIndex ← index this r 0;
  self ← deref layerModels this;
  modifyLayerAt (LayerModel.mMap self) layerIndex (setName newName);;
  emit this (layerRenamed layerIndex);;
  emit this (dataChanged modelIndex modelIndex);;
  emit this (layerChanged layerIndex).

(** ** The undo commands *)

(** [QCoreApplication::translate] and [tr], with no translation loaded. *)
Definition translate (context sourceText : string) : string := sourceText.
Definition tr (sourceText : string) : string := sourceText.

Definition new_SetLayerVisible (mapDocument : ptr) (layerIndex : Z)
  (visible : bool) : SetLayerVisible.t :=
  {| SetLayerVisible.text :=
       if visible then translate "Undo Commands" "Show Layer"
       else translate "Undo Commands" "Hide Layer";
     SetLayerVisible.mMapDocument := mapDocument;
     SetLayerVisible.mLayerIndex := layerIndex;
     SetLayerVisible.mVisible := visible |}.

Definition SetLayerVisible_swap (c : SetLayerVisible.t)
  : Run SetLayerVisible.t :=
  doc ← deref documents (SetLayerVisible.mMapDocument c);
  layer ← layerAt (MapDocument.map doc) (SetLayerVisible.mLayerIndex c);
  let previousVisible := isVisible layer in
  setLayerVisible (MapDocument.layerModel doc)
    (SetLayerVisible.mLayerIndex c) (SetLayerVisible.mVisible c);;
  mret {| SetLayerVisible.text := SetLayerVisible.text c;
          SetLayerVisible.mMapDocument := SetLayerVisible.mMapDocument c;
          SetLayerVisible.mLayerIndex := SetLayerVisible.mLayerIndex c;
          SetLayerVisible.mVisible := previousVisible |}.

Definition SetLayerVisible_undo (c : SetLayerVisible.t) := SetLayerVisible_swap c.
Definition SetLayerVisible_redo (c : SetLayerVisible.t) := SetLayerVisible_swap c.

Definition new_SetLayerOpacity (mapDocument : ptr) (layerIndex : Z)
  (o : Fp.float) : Run SetLayerOpacity.t :=
  doc ← deref documents mapDocument;
  layer ← layerAt (MapDocument.map doc) layerIndex;
  mret {| SetLayerOpacity.text :=
            translate "Undo Commands" "Change Layer Opacity";
          SetLayerOpacity.mMapDocument := mapDocument;
          SetLayerOpacity.mLayerIndex := layerIndex;
          SetLayerOpacity.mOldOpacity := opacity layer;
          SetLayerOpacity.mNewOpacity := o |}.

Definition SetLayerOpacity_setOpacity (c : SetLayerOpacity.t) (o : Fp.float)
  : Run unit :=
  doc ← deref documents (SetLayerOpacity.mMapDocument c);
  setLayerOpacity (MapDocument.layerModel doc)
    (SetLayerOpacity.mLayerIndex c) o.

Definition SetLayerOpacity_undo (c : SetLayerOpacity.t) : Run unit :=
  SetLayerOpacity_setOpacity c (SetLayerOpacity.mOldOpacity c).
Definition SetLayerOpacity_redo (c : SetLayerOpacity.t) : Run unit :=
  SetLayerOpacity_setOpacity c (SetLayerOpacity.mNewOpacity c).

(** [mergeWith]: the command after the call and the value returned. *)
Definition SetLayerOpacity_mergeWith (this o : SetLayerOpacity.t)
  : SetLayerOpacity.t * bool :=
  if negb (ptr_eq (SetLayerOpacity.mMapDocument this)
                  (SetLayerOpacity.mMapDocument o)
           && (SetLayerOpacity.mLayerIndex this
               =? SetLayerOpacity.mLayerIndex o))
  then (this, false)
  else ({| SetLayerOpacity.text := SetLayerOpacity.text this;
           SetLayerOpacity.mMapDocument := SetLayerOpacity.mMapDocument this;
           SetLayerOpacity.mLayerIndex := SetLayerOpacity.mLayerIndex this;
           SetLayerOpacity.mOldOpacity := SetLayerOpacity.mOldOpacity this;
           SetLayerOpacity.mNewOpacity := SetLayerOpacity.mNewOpacity o |},
        true).

Definition new_RenameLayer (mapDocument : ptr) (layerIndex : Z)
  (newName : string) : RenameLayer.t :=
  {| RenameLayer.text := translate "Undo Commands" "Rename Layer";
     RenameLayer.mMapDocument := mapDocument;
     RenameLayer.mLayerIndex := layerIndex;
     RenameLayer.mName := newName |}.

Definition RenameLayer_swapName (c : RenameLayer.t) : Run RenameLayer.t :=
  doc ← deref documents (RenameLayer.mMapDocument c);
  layer ← layerAt (MapDocument.map doc) (RenameLayer.mLayerIndex c);
  let previousName := name layer in
  renameLayer (MapDocument.layerModel doc)
    (RenameLayer.mLayerIndex c) (RenameLayer.mName c);;
  mret {| RenameLayer.text := RenameLayer.text c;
          RenameLayer.mMapDocument := RenameLayer.mMapDocument c;
          RenameLayer.mLayerIndex := RenameLayer.mLayerIndex c;
          RenameLayer.mName := previousName |}.

(** The virtual [redo] and [undo]: the command afterwards.  A macro redoes
    its children first to last and undoes them last to first. *)
Fixpoint redo (c : QUndoCommand) : Run QUndoCommand :=
  match c with
  | VisibleCommand v => v' ← SetLayerVisible_redo v; mret (VisibleCommand v')
  | OpacityCommand o => SetLayerOpacity_redo o;; mret (OpacityCommand o)
  | RenameCommand r => r' ← RenameLayer_swapName r; mret (RenameCommand r')
  | MacroCommand text child_list =>
      cs ← (fix each (l : list QUndoCommand) : Run (list QUndoCommand) :=
              match l with
              | [] => mret []
              | x :: xs => x' ← redo x; xs' ← each xs; mret (x' :: xs')
              end) child_list;
      mret (MacroCommand text cs)
  end.

Fixpoint undo (c : QUndoCommand) : Run QUndoCommand :=
  match c with
  | VisibleCommand v => v' ← SetLayerVisible_undo v; mret (VisibleCommand v')
  | OpacityCommand o => SetLayerOpacity_undo o;; mret (OpacityCommand o)
  | RenameCommand r => r' ← RenameLayer_swapName r; mret (RenameCommand r')
  | MacroCommand text child_list =>
      cs ← (fix each (l : list QUndoCommand) : Run (list QUndoCommand) :=
              match l with
              | [] => mret []
              | x :: xs => xs' ← each xs; x' ← undo x; mret (x' :: xs')
              end) child_list;
      mret (MacroCommand text cs)
  end.

(** The virtual [mergeWith]; Qt calls it only on two commands of one
    identifier, which is what the cast in [SetLayerOpacity::mergeWith]
    relies on.  The base class refuses. *)
Definition mergeWith (this other : QUndoCommand) : QUndoCommand * bool :=
  match this, other with
  | OpacityCommand a, OpacityCommand b =>
      let '(a', merged) := SetLayerOpacity_mergeWith a b in
      (OpacityCommand a', merged)
  | _, _ => (this, false)
  end.

(** ** The undo stack

    [QUndoStack::push], [beginMacro] and [endMacro] are Qt's.  A pointer to
    the undo stack of a document is kept as the address of the document. *)

Definition last_command (l : list QUndoCommand) : option QUndoCommand :=
  last l.

(** Modelled from the spec: what [QUndoStack::push] does to the stack once
    the command is executed.  The command is merged into the one before it
    when both have the same identifier other than -1 and the stack is not
    in its clean state, and is stored otherwise: as the last child of the
    innermost open macro, or as the last command of the list, cut at the
    index. *)
Definition QUndoStack_store (d : QUndoStack) (cmd : QUndoCommand)
  : QUndoStack :=
  let macro := negb (bool_decide (d_macro_stack d = [])) in
  let cur :=
    match d_macro_stack d with
    | (_, children) :: _ => last_command children
    | [] => if 0 <? d_index d
            then d_command_list d !! Z.to_nat (d_index d - 1)
            else None
    end in
  let command_list :=
    if macro then d_command_list d
    else take (Z.to_nat (d_index d)) (d_command_list d) in
  let clean_index :=
    if negb macro && (d_index d <? d_clean_index d) then -1
    else d_clean_index d in
  let try_merge :=
    match cur with
    | Some c => negb (id c =? -1) && (id c =? id cmd)
                && (macro || negb (d_index d =? d_clean_index d))
    | None => false
    end in
  let merged :=
    match cur with
    | Some c => if try_merge then
                  let '(c', ok) := mergeWith c cmd in
                  if ok then Some c' else None
                else None
    | None => None
    end in
  match merged, d_macro_stack d with
  | Some c', (text, children) :: outer =>
      {| d_command_list := command_list; d_index := d_index d;
         d_clean_index := clean_index;
         d_macro_stack :=
           (text, <[pred (length children) := c']> children) :: outer |}
  | Some c', [] =>
      {| d_command_list :=
           <[Z.to_nat (d_index d - 1) := c']> command_list;
         d_index := d_index d; d_clean_index := clean_index;
         d_macro_stack := [] |}
  | None, (text, children) :: outer =>
      {| d_command_list := command_list; d_index := d_index d;
         d_clean_index := clean_index;
         d_macro_stack := (text, children ++ [cmd]) :: outer |}
  | None, [] =>
      {| d_command_list := command_list ++ [cmd];
         d_index := Int.add (d_index d) 1; d_clean_index := clean_index;
         d_macro_stack := [] |}
  end.

(** Modelled from the spec: [QUndoStack::beginMacro] opens "a named group
    of commands undone/redone as a single step". *)
Definition QUndoStack_beginMacro (d : QUndoStack) (text : string)
  : QUndoStack :=
  match d_macro_stack d with
  | [] =>
      {| d_command_list := take (Z.to_nat (d_index d)) (d_command_list d);
         d_index := d_index d;
         d_clean_index :=
           if d_index d <? d_clean_index d then -1 else d_clean_index d;
         d_macro_stack := [(text, [])] |}
  | open =>
      {| d_command_list := d_command_list d; d_index := d_index d;
         d_clean_index := d_clean_index d;
         d_macro_stack := (text, []) :: open |}
  end.

(** Modelled from the spec: [QUndoStack::endMacro] closes the innermost
    macro and stores it where a pushed command would go; without an open
    macro it does nothing. *)
Definition QUndoStack_endMacro (d : QUndoStack) : QUndoStack :=
  match d_macro_stack d with
  | [] => d
  | [(text, children)] =>
      {| d_command_list := d_command_list d ++ [MacroCommand text children];
         d_index := Int.add (d_index d) 1;
         d_clean_index := d_clean_index d;
         d_macro_stack := [] |}
  | (text, children) :: (text', children') :: outer =>
      {| d_command_list := d_command_list d; d_index := d_index d;
         d_clean_index := d_clean_index d;
         d_macro_stack :=
           (text', children' ++ [MacroCommand text children]) :: outer |}
  end.

Definition with_undoStack (doc : MapDocument.t) (d : QUndoStack)
  : MapDocument.t :=
  {| MapDocument.map := MapDocument.map doc;
     MapDocument.layerModel := MapDocument.layerModel doc;
     MapDocument.undoStack := d |}.

(** Modelled from the spec: [mapDocument->undoStack()->push(cmd)] executes
    the command by its [redo] ("mutation happens when the command executes
    via the stack") and then stores it. *)
Definition push (mapDocument : ptr) (cmd : QUndoCommand) : Run unit :=
  _ ← deref documents mapDocument;
  cmd' ← redo cmd;
  doc ← deref documents mapDocument;
  set_documents mapDocument
    (with_undoStack doc (QUndoStack_store (MapDocument.undoStack doc) cmd')).

(** [mapDocument->undoStack()->beginMacro(text)] and [endMacro()]. *)
Definition beginMacro (mapDocument : ptr) (text : string) : Run unit :=
  doc ← deref documents mapDocument;
  set_documents mapDocument
    (with_undoStack doc (QUndoStack_beginMacro (MapDocument.undoStack doc) text)).

Definition endMacro (mapDocument : ptr) : Run unit :=
  doc ← deref documents mapDocument;
  set_documents mapDocument
    (with_undoStack doc (QUndoStack_endMacro (MapDocument.undoStack doc))).

(** ** LayerModel: edits coming from the view *)

Definition setData (this : ptr) (index : QModelIndex) (value : QVariant)
  (role : Z) : Run bool :=
  layerIndex ← toLayerIndex this index;
  if layerIndex <? 0 then mret false
  else
    self ← deref layerModels this;
    layer ← layerAt (LayerModel.mMap self) layerIndex;
    if role =? Qt.CheckStateRole then
      let c := toInt value in
      let visible := c =? Qt.Checked in
      (if negb (Bool.eqb visible (isVisible layer)) then
         let command :=
           new_SetLayerVisible (LayerModel.mMapDocument self)
             layerIndex visible in
         push (LayerModel.mMapDocument self) (VisibleCommand command)
       else mret tt);;
      mret true
    else if role =? OpacityRole then
      let '(o, ok) := toDouble value in
      if ok then
        (if Fp.ne (Fp.to_qreal (opacity layer)) o then
           command ← new_SetLayerOpacity (LayerModel.mMapDocument self)
                       layerIndex (Fp.to_float o);
           push (LayerModel.mMapDocument self) (OpacityCommand command)
         else mret tt);;
        mret true
      else mret false
    else if role =? Qt.EditRole then
      let newName := toString value in
      (if negb (String.eqb (name layer) newName) then
         let rename :=
           new_RenameLayer (LayerModel.mMapDocument self)
             layerIndex newName in
         push (LayerModel.mMapDocument self) (RenameCommand rename)
       else mret tt);;
      mret true
    else mret false.

(** The first loop of [toggleOtherLayers]: the value of [visibility] when
    the loop is left, started at [i] with [visibility] still [true]. *)
Fixpoint otherLayersHidden (fuel : nat) (this : ptr) (layerIndex i : Z)
  : Run bool :=
  match fuel with
  | O => fault OutOfFuel
  | S fuel' =>
      self ← deref layerModels this;
      n ← layerCount (LayerModel.mMap self);
      if i <? n then
        if i =? layerIndex
        then otherLayersHidden fuel' this layerIndex (Int.add i 1)
        else
          layer ← layerAt (LayerModel.mMap self) i;
          if isVisible layer then mret false
          else otherLayersHidden fuel' this layerIndex (Int.add i 1)
      else mret true
  end.

(** The second loop, started at [i]. *)
Fixpoint pushOtherLayers (fuel : nat) (this : ptr) (layerIndex : Z)
  (visibility : bool) (undoStack : ptr) (i : Z) : Run unit :=
  match fuel with
  | O => fault OutOfFuel
  | S fuel' =>
      self ← deref layerModels this;
      n ← layerCount (LayerModel.mMap self);
      if i <? n then
        if i =? layerIndex
        then pushOtherLayers fuel' this layerIndex visibility undoStack
               (Int.add i 1)
        else
          layer ← layerAt (LayerModel.mMap self) i;
          (if negb (Bool.eqb visibility (isVisible layer)) then
             push undoStack
               (VisibleCommand
                  (new_SetLayerVisible (LayerModel.mMapDocument self)
                     i visibility))
           else mret tt);;
          pushOtherLayers fuel' this layerIndex visibility undoStack
            (Int.add i 1)
      else mret tt
  end.

(** Both loops count [i] up to the layer count, so one more step than
    there are layers is enough to leave them. *)
Definition toggleOtherLayers (this : ptr) (layerIndex : Z) : Run unit :=
  self ← deref layerModels this;
  n ← layerCount (LayerModel.mMap self);
  if n <=? 1 then mret tt
  else
    let fuel := S (Z.to_nat n) in
    visibility ← otherLayersHidden fuel this layerIndex 0;
    _ ← deref documents (LayerModel.mMapDocument self);
    let undoStack := LayerModel.mMapDocument self in
    (if visibility
     then beginMacro undoStack (tr "Show Other Layers")
     else beginMacro undoStack (tr "Hide Other Layers"));;
    pushOtherLayers fuel this layerIndex visibility undoStack 0;;
    endMacro undoStack.

(** ** A store to run the model on

    One document at address 1 with its map at address 2 and its layer model
    at address 3, bound as the document's constructor leaves it; the map has
    three layers, the lowest one hidden. *)

Definition example_layer (s : string) (v : bool) (t : LayerType) : Layer :=
  {| name := s; isVisible := v; opacity := S754_finite false 8388608 (-23);
     type := t |}.

Definition example_layers : list Layer :=
  [ example_layer "ground" false TileLayerType;
    example_layer "objects" true ObjectGroupType;
    example_layer "sky" true ImageLayerType ].

Definition example_world : World :=
  {| maps := {[ 2%N := example_layers ]};
     documents :=
       {[ 1%N := {| MapDocument.map := 2%N;
                    MapDocument.layerModel := 3%N;
                    MapDocument.undoStack := QUndoStack_new |} ]};
     layerModels :=
       {[ 3%N := {| LayerModel.mMapDocument := 1%N;
                    LayerModel.mMap := 2%N |} ]};
     emitted := [] |}.

(** ** Predicates and values the properties are stated with *)

(** The model [this] is bound to document [doc] and shows the layers
    [mLayers] of the map at [map]. *)
Definition shows (w : World) (this doc map : ptr) (mLayers : list Layer)
  : Prop :=
  is_null this = false /\
  layerModels w !! this
    = Some {| LayerModel.mMapDocument := doc; LayerModel.mMap := map |} /\
  is_null map = false /\
  maps w !! map = Some mLayers /\
  Map.layerCount mLayers <= Int.max_int.

(** The document at [doc] is as its constructor leaves it: it owns the map
    with layers [mLayers] and its layer model is bound to it. *)
Definition constructed (w : World) (doc : ptr) (d : MapDocument.t)
  (mLayers : list Layer) : Prop :=
  is_null doc = false /\
  documents w !! doc = Some d /\
  shows w (MapDocument.layerModel d) doc (MapDocument.map d) mLayers.

Definition cell (this : ptr) (mLayers : list Layer) (i : Z) : QModelIndex :=
  {| row := Map.layerCount mLayers - i - 1; column := 0; model := this |}.

Definition with_mVisible (c : SetLayerVisible.t) (v : bool)
  : SetLayerVisible.t :=
  {| SetLayerVisible.text := SetLayerVisible.text c;
     SetLayerVisible.mMapDocument := SetLayerVisible.mMapDocument c;
     SetLayerVisible.mLayerIndex := SetLayerVisible.mLayerIndex c;
     SetLayerVisible.mVisible := v |}.

(** The store after [setLayerVisible] on the model [this] of a map with
    layers [mLayers]. *)
Definition made_visible (this map : ptr) (mLayers : list Layer) (i : Z)
  (v : bool) (layer : Layer) (w : World) : World :=
  record this (layerChanged i)
    (record this (dataChanged (cell this mLayers i) (cell this mLayers i))
       (store_maps map (Map.replaceLayerAt mLayers i (setVisible v layer)) w)).

(** [first] then [second], run on the command [c] in the store [w]: after
    [first] the layer has the visibility the command held and the command
    holds the layer's; after [second] the command and every layer of every
    map are as they were. *)
Definition swaps_back
  (first second : SetLayerVisible.t -> Run SetLayerVisible.t)
  (w : World) (c : SetLayerVisible.t) (map : ptr) (layer : Layer) : Prop :=
  exists (c1 : SetLayerVisible.t) (w1 w2 : World),
    first c w = Returns c1 w1 /\
    layerAt map (SetLayerVisible.mLayerIndex c) w1
      = Returns (setVisible (SetLayerVisible.mVisible c) layer) w1 /\
    SetLayerVisible.mVisible c1 = isVisible layer /\
    second c1 w1 = Returns c w2 /\
    maps w2 = maps w /\
    documents w2 = documents w /\
    layerModels w2 = layerModels w.

Definition executed_SetLayerVisible (mapDocument : ptr) (layerIndex : Z)
  (visible : bool) (layer : Layer) : QUndoCommand :=
  VisibleCommand
    (with_mVisible (new_SetLayerVisible mapDocument layerIndex visible)
       (isVisible layer)).

Definition example_document : MapDocument.t :=
  {| MapDocument.map := 2%N; MapDocument.layerModel := 3%N;
     MapDocument.undoStack := QUndoStack_new |}.


Definition with_mNewOpacity (c : SetLayerOpacity.t) (o : Fp.float)
  : SetLayerOpacity.t :=
  {| SetLayerOpacity.text := SetLayerOpacity.text c;
     SetLayerOpacity.mMapDocument := SetLayerOpacity.mMapDocument c;
     SetLayerOpacity.mLayerIndex := SetLayerOpacity.mLayerIndex c;
     SetLayerOpacity.mOldOpacity := SetLayerOpacity.mOldOpacity c;
     SetLayerOpacity.mNewOpacity := o |}.

(** The store after [setLayerOpacity] on the model [this] of a map with
    layers [mLayers]. *)
Definition made_opaque (this map : ptr) (mLayers : list Layer) (i : Z)
  (o : Fp.float) (layer : Layer) (w : World) : World :=
  record this (layerChanged i)
    (store_maps map (Map.replaceLayerAt mLayers i (setOpacity o layer)) w).

(** Two opacity commands aim at the same layer of the same document. *)
Definition same_target (a b : SetLayerOpacity.t) : Prop :=
  SetLayerOpacity.mMapDocument a = SetLayerOpacity.mMapDocument b /\
  SetLayerOpacity.mLayerIndex a = SetLayerOpacity.mLayerIndex b.

(** The binary32 values nearest to 0.2, 0.5 and 0.8. *)
Definition float_0_2 : Fp.float := S754_finite false 13421773 (-26).
Definition float_0_5 : Fp.float := S754_finite false 8388608 (-24).
Definition float_0_8 : Fp.float := S754_finite false 13421773 (-24).

Definition example_SetLayerOpacity (old new : Fp.float) : SetLayerOpacity.t :=
  {| SetLayerOpacity.text := "Change Layer Opacity";
     SetLayerOpacity.mMapDocument := 1%N;
     SetLayerOpacity.mLayerIndex := 0;
     SetLayerOpacity.mOldOpacity := old;
     SetLayerOpacity.mNewOpacity := new |}.

(** What [takeLayerAt] emits: the model [this], showing [mLayers], takes
    out the layer at [index] and is left with [rest]. *)
Definition removal_emissions (this : ptr) (mLayers rest : list Layer)
  (index : Z) : list Emission :=
  let row := Map.layerCount mLayers - index - 1 in
  [ {| sender := this; signal := layerAboutToBeRemoved index;
       seen := mLayers |};
    {| sender := this; signal := rowsAboutToBeRemoved row row;
       seen := mLayers |};
    {| sender := this; signal := rowsRemoved row row; seen := rest |};
    {| sender := this; signal := layerRemoved index; seen := rest |} ].

(** A model that no document was ever bound to, as the constructor leaves
    it. *)
Definition never_bound (self : LayerModel.t) : Prop :=
  LayerModel.mMapDocument self = null /\ LayerModel.mMap self = null.

(** The store with one model fresh from its constructor at address 3, next
    to the document at address 1. *)
Definition example_unbound_world : World :=
  store_layerModels 3%N LayerModel_new example_world.

(** The layer at [j], when there is one, is visible. *)
Definition visible_at (mLayers : list Layer) (j : Z) : bool :=
  match Map.layerAt mLayers j with
  | Some layer => isVisible layer
  | None => false
  end.

(** The layers at [j], [j + 1], ... are the layers [l]: no layer of [l]
    other than the one at [index] is visible. *)
Fixpoint others_hidden (index j : Z) (l : list Layer) : bool :=
  match l with
  | [] => true
  | x :: xs =>
      if j =? index then others_hidden index (j + 1) xs
      else if isVisible x then false
      else others_hidden index (j + 1) xs
  end.

(** The layers after [toggleOtherLayers]: every layer but the one at
    [index] has the visibility [target]. *)
Fixpoint toggle_layers (index : Z) (target : bool) (j : Z) (l : list Layer)
  : list Layer :=
  match l with
  | [] => []
  | x :: xs =>
      (if j =? index then x else setVisible target x)
      :: toggle_layers index target (j + 1) xs
  end.

(** The layer indices, in increasing order, of the layers other than
    [index] whose visibility is not [target]. *)
Definition layers_to_toggle (index : Z) (target : bool)
  (mLayers : list Layer) : list Z :=
  List.filter
    (fun j => negb (j =? index) && negb (Bool.eqb target (visible_at mLayers j)))
    (seqZ 0 (Map.layerCount mLayers)).

(** The command that [push] stores for [new SetLayerVisible(doc, j, target)]
    on a layer whose visibility was not [target]: executed, it holds the
    layer's previous visibility. *)
Definition toggled (doc : ptr) (target : bool) (j : Z) : QUndoCommand :=
  VisibleCommand
    (with_mVisible (new_SetLayerVisible doc j target) (negb target)).

Definition toggle_label (target : bool) : string :=
  if target then "Show Other Layers" else "Hide Other Layers".

(** The commands the second loop of [toggleOtherLayers] leaves in the open
    macro, for the layers [l] at [j], [j + 1], ... *)
Fixpoint toggle_commands (doc : ptr) (index : Z) (target : bool) (j : Z)
  (l : list Layer) : list QUndoCommand :=
  match l with
  | [] => []
  | x :: xs =>
      (if (j =? index) || Bool.eqb target (isVisible x) then []
       else [toggled doc target j])
      ++ toggle_commands doc index target (j + 1) xs
  end.

Definition example_single_world : World :=
  store_maps 2%N [example_layer "ground" true TileLayerType] example_world.


(** The store after [renameLayer] on the model [this] of a map with layers
    [mLayers]. *)
Definition made_renamed (this map : ptr) (mLayers : list Layer) (i : Z)
  (s : string) (layer : Layer) (w : World) : World :=
  record this (layerChanged i)
    (record this (dataChanged (cell this mLayers i) (cell this mLayers i))
       (record this (layerRenamed i)
          (store_maps map (Map.replaceLayerAt mLayers i (setName s layer))
             (record this (layerAboutToBeRenamed i) w)))).

(** The layer index that [toLayerIndex] gives for the row of [index]. *)
Definition layer_of_row (mLayers : list Layer) (index : QModelIndex) : Z :=
  Map.layerCount mLayers - row index - 1.

(** The store after [push] has executed a command and stored it. *)
Definition pushed (doc : ptr) (d : MapDocument.t) (cmd : QUndoCommand)
  (w : World) : World :=
  store_documents doc
    (with_undoStack d (QUndoStack_store (MapDocument.undoStack d) cmd)) w.

Definition example_index (r : Z) : QModelIndex :=
  {| row := r; column := 0; model := 3%N |}.

Definition example_variant_int (n : Z) : QVariant :=
  {| toInt := n; toDouble := (S754_zero false, true); toString := "" |}.

Definition example_variant_text (s : string) : QVariant :=
  {| toInt := 0; toDouble := (S754_zero false, false); toString := s |}.

Definition example_variant_number (x : Fp.qreal) : QVariant :=
  {| toInt := 0; toDouble := (x, true); toString := "" |}.

(** The command that [new SetLayerOpacity(doc, i, o)] builds while [layer]
    is the layer at [i]. *)
Definition created_SetLayerOpacity (doc : ptr) (i : Z) (o : Fp.float)
  (layer : Layer) : SetLayerOpacity.t :=
  {| SetLayerOpacity.text := "Change Layer Opacity";
     SetLayerOpacity.mMapDocument := doc;
     SetLayerOpacity.mLayerIndex := i;
     SetLayerOpacity.mOldOpacity := opacity layer;
     SetLayerOpacity.mNewOpacity := o |}.

(** The rename command as [push] stores it: executed, it holds the name
    the layer had. *)
Definition executed_RenameLayer (doc : ptr) (i : Z) (newName : string)
  (layer : Layer) : QUndoCommand :=
  RenameCommand
    {| RenameLayer.text := "Rename Layer";
       RenameLayer.mMapDocument := doc;
       RenameLayer.mLayerIndex := i;
       RenameLayer.mName := name layer |}.

(** The binary64 value nearest to 0.2, and the binary64 value of one. *)
Definition double_0_2 : Fp.qreal := S754_finite false 7205759403792794 (-55).
Definition double_1 : Fp.qreal := S754_finite false 4503599627370496 (-52).


(** ** LayerModel: what the view reads *)

(** A [QIcon], known by the resource it is loaded from.  The three icons
    are members the constructor sets and nothing changes. *)
Definition QIcon := string.
Definition mTileLayerIcon : QIcon := ":/images/16x16/layer-tile.png"%string.
Definition mObjectGroupIcon : QIcon := ":/images/16x16/layer-object.png"%string.
Definition mImageLayerIcon : QIcon := ":/images/16x16/layer-image.png"%string.

(** A [QVariant] as [data] builds it: by the constructor used. *)
Inductive Value :=
| Invalid
| OfString (s : string)
| OfIcon (icon : QIcon)
| OfInt (n : Z)
| OfFloat (f : Fp.float).

Definition data (this : ptr) (index : QModelIndex) (role : Z) : Run Value :=
  layerIndex ← toLayerIndex this index;
  if layerIndex <? 0 then mret Invalid
  else
    self ← deref layerModels this;
    layer ← layerAt (LayerModel.mMap self) layerIndex;
    if (role =? Qt.DisplayRole) || (role =? Qt.EditRole) then
      mret (OfString (name layer))
    else if role =? Qt.DecorationRole then
      match type layer with
      | TileLayerType => mret (OfIcon mTileLayerIcon)
      | ObjectGroupType => mret (OfIcon mObjectGroupIcon)
      | ImageLayerType => mret (OfIcon mImageLayerIcon)
      end
    else if role =? Qt.CheckStateRole then
      mret (OfInt (if isVisible layer then Qt.Checked else Qt.Unchecked))
    else if role =? OpacityRole then
      mret (OfFloat (opacity layer))
    else mret Invalid.

(** Item flags ([Qt::ItemFlag]), one bit each. *)
Module ItemFlag.
Definition ItemIsSelectable : Z := 1.
Definition ItemIsEditable : Z := 2.
Definition ItemIsDragEnabled : Z := 4.
Definition ItemIsDropEnabled : Z := 8.
Definition ItemIsUserCheckable : Z := 16.
Definition ItemIsEnabled : Z := 32.
End ItemFlag.

(** [flags]; [base] is what [QAbstractListModel::flags(index)] returns. *)
Definition flags (base : Z) (index : QModelIndex) : Z :=
  if column index =? 0
  then Z.lor base (Z.lor ItemFlag.ItemIsUserCheckable ItemFlag.ItemIsEditable)
  else base.

(** The children of a macro undone last to first, as [undo] does it. *)
Fixpoint undo_each (l : list QUndoCommand) : Run (list QUndoCommand) :=
  match l with
  | [] => mret []
  | x :: xs => xs' ← undo_each xs; x' ← undo x; mret (x' :: xs')
  end.

(** A run of opacity commands merged one after the other into [a]. *)
Definition merge_all (a : SetLayerOpacity.t) (bs : list SetLayerOpacity.t)
  : SetLayerOpacity.t :=
  fold_left (fun acc b => fst (SetLayerOpacity_mergeWith acc b)) bs a.

(** What [data] answers for [role] once it has found the layer. *)
Definition answer (role : Z) (layer : Layer) : Value :=
  if (role =? Qt.DisplayRole) || (role =? Qt.EditRole) then
    OfString (name layer)
  else if role =? Qt.DecorationRole then
    OfIcon match type layer with
           | TileLayerType => mTileLayerIcon
           | ObjectGroupType => mObjectGroupIcon
           | ImageLayerType => mImageLayerIcon
           end
  else if role =? Qt.CheckStateRole then
    OfInt (if isVisible layer then Qt.Checked else Qt.Unchecked)
  else if role =? OpacityRole then OfFloat (opacity layer)
  else Invalid.


(** The store after [insertLayer] on the model [this] of a map with layers
    [mLayers], and after [takeLayerAt]. *)
Definition made_inserted (this map : ptr) (mLayers : list Layer) (i : Z)
  (layer : Layer) (w : World) : World :=
  let r := Map.layerCount mLayers - i in
  record this (layerAdded i)
    (record this (rowsInserted r r)
       (store_maps map (Map.insertLayer mLayers i layer)
          (record this (rowsAboutToBeInserted r r) w))).

Definition made_taken (this map : ptr) (mLayers : list Layer) (i : Z)
  (w : World) : World :=
  let r := Map.layerCount mLayers - i - 1 in
  record this (layerRemoved i)
    (record this (rowsRemoved r r)
       (store_maps map (delete (Z.to_nat i) mLayers)
          (record this (rowsAboutToBeRemoved r r)
             (record this (layerAboutToBeRemoved i) w)))).

(** What [insertLayer] emits: the model [this], showing [mLayers], is left
    with [mLayers'] once a layer is put in at [index]. *)
Definition insertion_emissions (this : ptr) (mLayers mLayers' : list Layer)
  (index : Z) : list Emission :=
  let r := Map.layerCount mLayers - index in
  [ {| sender := this; signal := rowsAboutToBeInserted r r;
       seen := mLayers |};
    {| sender := this; signal := rowsInserted r r; seen := mLayers' |};
    {| sender := this; signal := layerAdded index; seen := mLayers' |} ].



(** A stack with no macro open whose index lies within its command list,
    with room for one more command. *)
Definition settled (s : QUndoStack) : Prop :=
  d_macro_stack s = [] /\
  0 <= d_index s <= Z.of_nat (length (d_command_list s)) /\
  d_index s < Int.max_int.

(** The stack ends, at its index, with the opacity command [a], and is not
    in its clean state. *)
Definition ends_with (s : QUndoStack) (a : SetLayerOpacity.t) : Prop :=
  d_macro_stack s = [] /\
  0 < d_index s /\
  Z.of_nat (length (d_command_list s)) = d_index s /\
  d_clean_index s < d_index s /\
  d_command_list s !! Z.to_nat (d_index s - 1) = Some (OpacityCommand a).

(** The stack [s] with its last command replaced. *)
Definition with_last (s : QUndoStack) (c : QUndoCommand) : QUndoStack :=
  {| d_command_list :=
       <[Z.to_nat (d_index s - 1) := c]> (d_command_list s);
     d_index := d_index s;
     d_clean_index := d_clean_index s;
     d_macro_stack := [] |}.

(** On a stack with no macro open: the command before the index with [cmd]
    merged into it, when [push] merges. *)
Definition merged_into_last (s : QUndoStack) (cmd : QUndoCommand)
  : option QUndoCommand :=
  if 0 <? d_index s then
    match d_command_list s !! Z.to_nat (d_index s - 1) with
    | Some c =>
        if negb (id c =? -1) && (id c =? id cmd)
           && negb (d_index s =? d_clean_index s)
        then let '(c', ok) := mergeWith c cmd in
             if ok then Some c' else None
        else None
    | None => None
    end
  else None.



(** What [setMapDocument] emits when it binds another document: the model
    [this] showed [before] and shows [after]. *)
Definition reset_emissions (this : ptr) (before after : list Layer)
  : list Emission :=
  [ {| sender := this; signal := modelAboutToBeReset; seen := before |};
    {| sender := this; signal := modelReset; seen := after |} ].

(** What [renameLayer] emits: the model [this] showed [before] and shows
    [after] once the layer at [index] has its new name. *)
Definition rename_emissions (this : ptr) (before after : list Layer)
  (index : Z) : list Emission :=
  [ {| sender := this; signal := layerAboutToBeRenamed index;
       seen := before |};
    {| sender := this; signal := layerRenamed index; seen := after |};
    {| sender := this;
       signal := dataChanged (cell this before index) (cell this before index);
       seen := after |};
    {| sender := this; signal := layerChanged index; seen := after |} ].

(** The store with a second document at address 4, which owns an empty map
    at address 5. *)
Definition example_two_documents : World :=
  store_maps 5%N []
    (store_documents 4%N
       {| MapDocument.map := 5%N; MapDocument.layerModel := 6%N;
          MapDocument.undoStack := QUndoStack_new |}
       example_world).


(** * Properties *)

Lemma wrap_small (z : Z) :
  Int.min_int <= z <= Int.max_int -> Int.wrap z = z.
Proof.
  unfold Int.wrap, Int.min_int, Int.max_int. intros Hz.
  rewrite Z.mod_small by lia. lia.
Qed.

(** Settles [b = (x <=? y)] and the like, for [b] a boolean constant. *)
Ltac cmp :=
  symmetry;
  first [ apply Z.leb_le; lia | apply Z.ltb_lt; lia | apply Z.ltb_ge; lia
        | apply Z.leb_gt; lia | apply Z.eqb_neq; lia | apply Z.eqb_eq; lia ].

(** ** Running the monad *)

Lemma bind_run {A B : Type} (m : Run A) (k : A -> Run B) (w : World) :
  (m ≫= k) w =
  match m w with Returns a w' => k a w' | Faults f => Faults f end.
Proof. reflexivity. Qed.

Lemma ret_run {A : Type} (a : A) (w : World) :
  (mret a : Run A) w = Returns a w.
Proof. reflexivity. Qed.

Lemma deref_run {A : Type} (heap : World -> gmap N A) (p : ptr) (a : A)
  (w : World) :
  is_null p = false -> heap w !! p = Some a -> deref heap p w = Returns a w.
Proof. intros Hp Ha. unfold deref. now rewrite Hp, Ha. Qed.

Lemma layerCount_run (w : World) (map : ptr) (mLayers : list Layer) :
  is_null map = false -> maps w !! map = Some mLayers ->
  layerCount map w = Returns (Map.layerCount mLayers) w.
Proof.
  intros Hp Hm. unfold layerCount.
  now rewrite bind_run, (deref_run maps map mLayers).
Qed.

Lemma layerIndexToRow_run (w : World) (this doc map : ptr)
  (mLayers : list Layer) (layerIndex : Z) :
  shows w this doc map mLayers ->
  layerIndexToRow this layerIndex w
  = Returns (Int.sub (Int.sub (Map.layerCount mLayers) layerIndex) 1) w.
Proof.
  intros (Hthis & Hself & Hmap & Hlayers & _). unfold layerIndexToRow.
  rewrite bind_run, (deref_run layerModels this _ w Hthis Hself). cbn.
  now rewrite bind_run, (layerCount_run w map mLayers).
Qed.

Lemma toLayerIndex_run (w : World) (this doc map : ptr)
  (mLayers : list Layer) (index : QModelIndex) :
  shows w this doc map mLayers ->
  isValid index = true ->
  toLayerIndex this index w
  = Returns (Int.sub (Int.sub (Map.layerCount mLayers) (row index)) 1) w.
Proof.
  intros (Hthis & Hself & Hmap & Hlayers & _) Hvalid. unfold toLayerIndex.
  rewrite Hvalid.
  rewrite bind_run, (deref_run layerModels this _ w Hthis Hself). cbn.
  now rewrite bind_run, (layerCount_run w map mLayers).
Qed.

Lemma sub_sub_1 (n r : Z) :
  0 <= n <= Int.max_int -> 0 <= r < n ->
  Int.sub (Int.sub n r) 1 = n - r - 1.
Proof.
  intros Hn Hr. unfold Int.sub, Int.max_int in *.
  rewrite (wrap_small (n - r)) by (unfold Int.min_int, Int.max_int; lia).
  apply wrap_small. unfold Int.min_int, Int.max_int; lia.
Qed.

(** C1: with [n] layers, [toLayerIndex] takes a valid row [r] to
    [n - r - 1] and [layerIndexToRow] takes that back to [r]; and
    [layerIndexToRow] takes a valid layer index [i] to the row [n - i - 1],
    which [toLayerIndex] takes back to [i]. *)
Theorem toLayerIndex_layerIndexToRow_inverse
  (w : World) (this doc map : ptr) (mLayers : list Layer) :
  shows w this doc map mLayers ->
  let n := Map.layerCount mLayers in
  (forall index : QModelIndex,
      isValid index = true -> 0 <= row index < n ->
      toLayerIndex this index w = Returns (n - row index - 1) w /\
      layerIndexToRow this (n - row index - 1) w = Returns (row index) w) /\
  (forall i : Z,
      0 <= i < n ->
      layerIndexToRow this i w = Returns (n - i - 1) w /\
      forall index : QModelIndex,
        isValid index = true -> row index = n - i - 1 ->
        toLayerIndex this index w = Returns i w).
Proof.
  intros Hshows n.
  assert (Hn : 0 <= n <= Int.max_int).
  { destruct Hshows as (_ & _ & _ & _ & Hmax). unfold n, Map.layerCount in *. lia. }
  split.
  - intros index Hvalid Hrow. split.
    + rewrite (toLayerIndex_run w this doc map mLayers) by assumption.
      fold n. now rewrite sub_sub_1.
    + rewrite (layerIndexToRow_run w this doc map mLayers) by assumption.
      fold n. rewrite sub_sub_1 by lia. f_equal. lia.
  - intros i Hi. split.
    + rewrite (layerIndexToRow_run w this doc map mLayers) by assumption.
      fold n. now rewrite sub_sub_1.
    + intros index Hvalid Hrow.
      rewrite (toLayerIndex_run w this doc map mLayers) by assumption.
      fold n. rewrite Hrow, sub_sub_1 by lia. f_equal. lia.
Qed.

Lemma example_world_shows : shows example_world 3%N 1%N 2%N example_layers.
Proof. repeat split; vm_compute; congruence. Qed.

Lemma toLayerIndex_layerIndexToRow_inverse_witness :
  toLayerIndex 3%N {| row := 0; column := 0; model := 3%N |} example_world
  = Returns 2 example_world /\
  layerIndexToRow 3%N 2 example_world = Returns 0 example_world.
Proof.
  apply (proj1 (toLayerIndex_layerIndexToRow_inverse
                  example_world 3%N 1%N 2%N example_layers
                  example_world_shows)
           {| row := 0; column := 0; model := 3%N |}).
  - reflexivity.
  - vm_compute. split; congruence.
Defined.


Lemma layerAt_in_range (mLayers : list Layer) (i : Z) (layer : Layer) :
  Map.layerAt mLayers i = Some layer ->
  0 <= i < Map.layerCount mLayers /\ mLayers !! Z.to_nat i = Some layer.
Proof.
  unfold Map.layerAt, Map.in_range. intros H.
  destruct (0 <=? i) eqn:H0; [|discriminate].
  destruct (i <? Map.layerCount mLayers) eqn:H1; [|discriminate].
  cbn in H. split; [lia | assumption].
Qed.

Lemma layerAt_run (w : World) (map : ptr) (mLayers : list Layer) (i : Z)
  (layer : Layer) :
  is_null map = false -> maps w !! map = Some mLayers ->
  Map.layerAt mLayers i = Some layer ->
  layerAt map i w = Returns layer w.
Proof.
  intros Hp Hm Hl. unfold layerAt.
  now rewrite bind_run, (deref_run maps map mLayers), Hl.
Qed.

Lemma modifyLayerAt_run (w : World) (map : ptr) (mLayers : list Layer)
  (i : Z) (layer : Layer) (f : Layer -> Layer) :
  is_null map = false -> maps w !! map = Some mLayers ->
  Map.layerAt mLayers i = Some layer ->
  modifyLayerAt map i f w
  = Returns tt (store_maps map (Map.replaceLayerAt mLayers i (f layer)) w).
Proof.
  intros Hp Hm Hl. unfold modifyLayerAt.
  now rewrite bind_run, (deref_run maps map mLayers), Hl.
Qed.

(** The index of a row that exists. *)
Lemma index_run (w : World) (this doc map : ptr) (mLayers : list Layer)
  (r : Z) :
  shows w this doc map mLayers ->
  0 <= r < Map.layerCount mLayers ->
  index this r 0 w = Returns {| row := r; column := 0; model := this |} w.
Proof.
  intros (Hthis & Hself & Hmap & Hlayers & _) Hr. unfold index, rowCount.
  rewrite !bind_run, (deref_run layerModels this _ w Hthis Hself).
  cbn. rewrite Hmap. cbn.
  rewrite (layerCount_run w map mLayers) by assumption.
  replace (0 <=? r) with true by lia.
  replace (r <? Map.layerCount mLayers) with true by lia.
  reflexivity.
Qed.

Lemma shows_record (w : World) (this doc map : ptr) (mLayers : list Layer)
  (that : ptr) (s : Signal) :
  shows w this doc map mLayers -> shows (record that s w) this doc map mLayers.
Proof. intros H. exact H. Qed.

Lemma replaceLayerAt_count (mLayers : list Layer) (i : Z) (l : Layer) :
  Map.layerCount (Map.replaceLayerAt mLayers i l) = Map.layerCount mLayers.
Proof.
  unfold Map.layerCount, Map.replaceLayerAt. now rewrite length_insert.
Qed.

Lemma setLayerVisible_run (w : World) (this doc map : ptr)
  (mLayers : list Layer) (i : Z) (v : bool) (layer : Layer) :
  shows w this doc map mLayers ->
  Map.layerAt mLayers i = Some layer ->
  setLayerVisible this i v w
  = Returns tt
      (record this (layerChanged i)
         (record this (dataChanged (cell this mLayers i) (cell this mLayers i))
            (store_maps map
               (Map.replaceLayerAt mLayers i (setVisible v layer)) w))).
Proof.
  intros Hshows Hlayer.
  pose proof Hshows as (Hthis & Hself & Hmap & Hlayers & Hmax).
  destruct (layerAt_in_range _ _ _ Hlayer) as [Hi _].
  unfold setLayerVisible.
  rewrite bind_run, (layerIndexToRow_run w this doc map mLayers) by assumption.
  rewrite sub_sub_1 by (unfold Map.layerCount in *; lia).
  rewrite bind_run, (index_run w this doc map mLayers) by (assumption || lia).
  rewrite bind_run, (deref_run layerModels this _ w Hthis Hself).
  rewrite bind_run. cbn [LayerModel.mMap].
  rewrite (modifyLayerAt_run w map mLayers i layer) by assumption.
  reflexivity.
Qed.

Lemma SetLayerVisible_swap_run (w : World) (d : MapDocument.t)
  (mLayers : list Layer) (c : SetLayerVisible.t) (layer : Layer) :
  constructed w (SetLayerVisible.mMapDocument c) d mLayers ->
  Map.layerAt mLayers (SetLayerVisible.mLayerIndex c) = Some layer ->
  SetLayerVisible_swap c w
  = Returns (with_mVisible c (isVisible layer))
      (made_visible (MapDocument.layerModel d) (MapDocument.map d) mLayers
         (SetLayerVisible.mLayerIndex c) (SetLayerVisible.mVisible c) layer w).
Proof.
  intros (Hdoc & Hd & Hshows) Hlayer.
  pose proof Hshows as (_ & _ & Hmap & Hlayers & _).
  unfold SetLayerVisible_swap.
  rewrite bind_run, (deref_run documents _ d w Hdoc Hd).
  rewrite bind_run, (layerAt_run w _ mLayers _ layer) by assumption.
  rewrite bind_run.
  rewrite (setLayerVisible_run w _ _ _ mLayers _ _ layer Hshows Hlayer).
  reflexivity.
Qed.

Lemma constructed_made_visible (w : World) (doc : ptr) (d : MapDocument.t)
  (mLayers : list Layer) (i : Z) (v : bool) (layer : Layer) :
  constructed w doc d mLayers ->
  constructed
    (made_visible (MapDocument.layerModel d) (MapDocument.map d) mLayers
       i v layer w)
    doc d (Map.replaceLayerAt mLayers i (setVisible v layer)).
Proof.
  intros (Hdoc & Hd & Hshows). repeat split; try assumption.
  - apply Hshows.
  - apply Hshows.
  - apply Hshows.
  - cbn. apply lookup_insert_eq.
  - rewrite replaceLayerAt_count. apply Hshows.
Qed.

Lemma layerAt_replaced (mLayers : list Layer) (i : Z) (layer l : Layer) :
  Map.layerAt mLayers i = Some layer ->
  Map.layerAt (Map.replaceLayerAt mLayers i l) i = Some l.
Proof.
  intros H. destruct (layerAt_in_range _ _ _ H) as [Hi Hl].
  unfold Map.layerAt, Map.in_range. rewrite replaceLayerAt_count.
  replace (0 <=? i) with true by lia.
  replace (i <? Map.layerCount mLayers) with true by lia. cbn.
  unfold Map.replaceLayerAt. apply list_lookup_insert_eq.
  unfold Map.layerCount in Hi. lia.
Qed.

Lemma replaceLayerAt_back (mLayers : list Layer) (i : Z) (layer l : Layer) :
  Map.layerAt mLayers i = Some layer ->
  Map.replaceLayerAt (Map.replaceLayerAt mLayers i l) i layer = mLayers.
Proof.
  intros H. destruct (layerAt_in_range _ _ _ H) as [Hi Hl].
  unfold Map.replaceLayerAt. rewrite list_insert_insert_eq.
  now apply list_insert_id.
Qed.

Lemma setVisible_back (v : bool) (layer : Layer) :
  setVisible (isVisible layer) (setVisible v layer) = layer.
Proof. now destruct layer. Qed.

Lemma swap_swaps_back (w : World) (d : MapDocument.t)
  (mLayers : list Layer) (c : SetLayerVisible.t) (layer : Layer) :
  constructed w (SetLayerVisible.mMapDocument c) d mLayers ->
  Map.layerAt mLayers (SetLayerVisible.mLayerIndex c) = Some layer ->
  swaps_back SetLayerVisible_swap SetLayerVisible_swap w c
    (MapDocument.map d) layer.
Proof.
  intros Hc Hlayer.
  pose proof (constructed_made_visible w _ d mLayers
                (SetLayerVisible.mLayerIndex c) (SetLayerVisible.mVisible c)
                layer Hc) as Hc1.
  pose proof (layerAt_replaced mLayers _ layer
                (setVisible (SetLayerVisible.mVisible c) layer) Hlayer) as Hl1.
  eexists _, _, _. split; [|split; [|split; [|split; [|split; [|split]]]]].
  - apply (SetLayerVisible_swap_run w d mLayers c layer Hc Hlayer).
  - apply (layerAt_run _ _ _ _ _ (proj1 (proj2 (proj2 (proj2 (proj2 Hc1)))))
             (proj1 (proj2 (proj2 (proj2 (proj2 (proj2 Hc1)))))) Hl1).
  - reflexivity.
  - rewrite (SetLayerVisible_swap_run _ d _ (with_mVisible c (isVisible layer))
               _ Hc1 Hl1).
    cbn [with_mVisible SetLayerVisible.mVisible SetLayerVisible.mLayerIndex
         SetLayerVisible.text SetLayerVisible.mMapDocument].
    unfold with_mVisible. cbn. now destruct c.
  - cbn. rewrite insert_insert_eq, setVisible_back.
    rewrite (replaceLayerAt_back mLayers _ layer _ Hlayer).
    apply insert_id. apply Hc.
  - reflexivity.
  - reflexivity.
Qed.

(** C2: [undo] and [redo] of a [SetLayerVisible] are the same swap.  From
    any visibility of the layer and any value held by the command, [redo]
    followed by [undo], and [undo] followed by [redo], leave the command and
    the visibility of every layer as they were; in between, the layer has
    the visibility the command held. *)
Theorem SetLayerVisible_undo_redo_identity (w : World) (d : MapDocument.t)
  (mLayers : list Layer) (c : SetLayerVisible.t) (layer : Layer) :
  constructed w (SetLayerVisible.mMapDocument c) d mLayers ->
  Map.layerAt mLayers (SetLayerVisible.mLayerIndex c) = Some layer ->
  SetLayerVisible_undo = SetLayerVisible_redo /\
  swaps_back SetLayerVisible_redo SetLayerVisible_undo w c
    (MapDocument.map d) layer /\
  swaps_back SetLayerVisible_undo SetLayerVisible_redo w c
    (MapDocument.map d) layer.
Proof.
  intros Hc Hlayer. split; [reflexivity|].
  split; exact (swap_swaps_back w d mLayers c layer Hc Hlayer).
Qed.

Lemma example_world_constructed :
  constructed example_world 1%N example_document example_layers.
Proof. repeat split; vm_compute; congruence. Qed.

Lemma SetLayerVisible_undo_redo_identity_witness :
  swaps_back SetLayerVisible_redo SetLayerVisible_undo example_world
    (new_SetLayerVisible 1%N 0 true) 2%N
    (example_layer "ground" false TileLayerType).
Proof.
  apply (SetLayerVisible_undo_redo_identity example_world example_document
           example_layers (new_SetLayerVisible 1%N 0 true)
           (example_layer "ground" false TileLayerType)).
  - exact example_world_constructed.
  - reflexivity.
Defined.

(** ** Pushing a visibility command *)

Lemma with_undoStack_id (d : MapDocument.t) :
  with_undoStack d (MapDocument.undoStack d) = d.
Proof. now destruct d. Qed.

Lemma push_VisibleCommand_run (w : World) (doc : ptr) (d : MapDocument.t)
  (mLayers : list Layer) (i : Z) (v : bool) (layer : Layer) :
  constructed w doc d mLayers ->
  Map.layerAt mLayers i = Some layer ->
  push doc (VisibleCommand (new_SetLayerVisible doc i v)) w
  = Returns tt
      (store_documents doc
         (with_undoStack d
            (QUndoStack_store (MapDocument.undoStack d)
               (executed_SetLayerVisible doc i v layer)))
         (made_visible (MapDocument.layerModel d) (MapDocument.map d)
            mLayers i v layer w)).
Proof.
  intros Hc Hlayer. pose proof Hc as (Hdoc & Hd & Hshows).
  unfold push.
  rewrite bind_run, (deref_run documents _ d w Hdoc Hd).
  rewrite bind_run. cbn [redo]. unfold SetLayerVisible_redo.
  rewrite bind_run.
  rewrite (SetLayerVisible_swap_run w d mLayers
             (new_SetLayerVisible doc i v) layer Hc Hlayer).
  rewrite ret_run, bind_run.
  rewrite (deref_run documents doc d) by assumption.
  reflexivity.
Qed.

(** ** Opacity commands *)

Lemma setLayerOpacity_run (w : World) (this doc map : ptr)
  (mLayers : list Layer) (i : Z) (o : Fp.float) (layer : Layer) :
  shows w this doc map mLayers ->
  Map.layerAt mLayers i = Some layer ->
  setLayerOpacity this i o w
  = Returns tt (made_opaque this map mLayers i o layer w).
Proof.
  intros (Hthis & Hself & Hmap & Hlayers & _) Hlayer.
  unfold setLayerOpacity.
  rewrite bind_run, (deref_run layerModels this _ w Hthis Hself).
  rewrite bind_run. cbn [LayerModel.mMap].
  now rewrite (modifyLayerAt_run w map mLayers i layer) by assumption.
Qed.

Lemma SetLayerOpacity_setOpacity_run (w : World) (d : MapDocument.t)
  (mLayers : list Layer) (c : SetLayerOpacity.t) (o : Fp.float)
  (layer : Layer) :
  constructed w (SetLayerOpacity.mMapDocument c) d mLayers ->
  Map.layerAt mLayers (SetLayerOpacity.mLayerIndex c) = Some layer ->
  SetLayerOpacity_setOpacity c o w
  = Returns tt
      (made_opaque (MapDocument.layerModel d) (MapDocument.map d) mLayers
         (SetLayerOpacity.mLayerIndex c) o layer w).
Proof.
  intros (Hdoc & Hd & Hshows) Hlayer. unfold SetLayerOpacity_setOpacity.
  rewrite bind_run, (deref_run documents _ d w Hdoc Hd).
  apply (setLayerOpacity_run w _ _ _ mLayers _ _ layer Hshows Hlayer).
Qed.

Lemma constructed_made_opaque (w : World) (doc : ptr) (d : MapDocument.t)
  (mLayers : list Layer) (i : Z) (o : Fp.float) (layer : Layer) :
  constructed w doc d mLayers ->
  constructed
    (made_opaque (MapDocument.layerModel d) (MapDocument.map d) mLayers
       i o layer w)
    doc d (Map.replaceLayerAt mLayers i (setOpacity o layer)).
Proof.
  intros (Hdoc & Hd & Hthis & Hself & Hmap & Hlayers & Hmax).
  repeat split; try assumption.
  - cbn. apply lookup_insert_eq.
  - now rewrite replaceLayerAt_count.
Qed.

Lemma same_target_dec (a b : SetLayerOpacity.t) :
  ptr_eq (SetLayerOpacity.mMapDocument a) (SetLayerOpacity.mMapDocument b)
  && (SetLayerOpacity.mLayerIndex a =? SetLayerOpacity.mLayerIndex b) = true
  <-> same_target a b.
Proof.
  unfold same_target, ptr_eq.
  rewrite andb_true_iff, N.eqb_eq, Z.eqb_eq. reflexivity.
Qed.

(** C3: when [b] aims at the document and layer index of [a], [mergeWith]
    succeeds, gives [a] the new opacity of [b] and leaves its old opacity
    alone, so that undoing the merged command puts the old opacity of [a]
    back on the layer; when [b] aims elsewhere, [mergeWith] leaves [a] as
    it is and answers false. *)
Theorem SetLayerOpacity_mergeWith_folds (a b : SetLayerOpacity.t) :
  (same_target a b ->
   SetLayerOpacity_mergeWith a b
     = (with_mNewOpacity a (SetLayerOpacity.mNewOpacity b), true) /\
   SetLayerOpacity.mOldOpacity (fst (SetLayerOpacity_mergeWith a b))
     = SetLayerOpacity.mOldOpacity a /\
   forall (w : World) (d : MapDocument.t) (mLayers : list Layer)
          (layer : Layer),
     constructed w (SetLayerOpacity.mMapDocument a) d mLayers ->
     Map.layerAt mLayers (SetLayerOpacity.mLayerIndex a) = Some layer ->
     exists w' : World,
       SetLayerOpacity_undo (fst (SetLayerOpacity_mergeWith a b)) w
         = Returns tt w' /\
       layerAt (MapDocument.map d) (SetLayerOpacity.mLayerIndex a) w'
         = Returns (setOpacity (SetLayerOpacity.mOldOpacity a) layer) w') /\
  (~ same_target a b -> SetLayerOpacity_mergeWith a b = (a, false)).
Proof.
  split.
  - intros Hsame. apply same_target_dec in Hsame.
    assert (Hmerge : SetLayerOpacity_mergeWith a b
                     = (with_mNewOpacity a (SetLayerOpacity.mNewOpacity b), true)).
    { unfold SetLayerOpacity_mergeWith. now rewrite Hsame. }
    rewrite Hmerge. split; [reflexivity|]. split; [reflexivity|].
    intros w d mLayers layer Hc Hlayer. cbn [fst].
    eexists. split.
    + unfold SetLayerOpacity_undo.
      apply (SetLayerOpacity_setOpacity_run w d mLayers
               (with_mNewOpacity a (SetLayerOpacity.mNewOpacity b)) _ layer);
        assumption.
    + pose proof (constructed_made_opaque w _ d mLayers
                    (SetLayerOpacity.mLayerIndex a)
                    (SetLayerOpacity.mOldOpacity a) layer Hc)
        as (_ & _ & _ & _ & Hmap & Hlayers & _).
      cbn [with_mNewOpacity SetLayerOpacity.mLayerIndex
           SetLayerOpacity.mOldOpacity].
      apply (layerAt_run _ _ _ _ _ Hmap Hlayers).
      now apply (layerAt_replaced mLayers _ layer).
  - intros Hdiff. unfold SetLayerOpacity_mergeWith.
    destruct (ptr_eq _ _ && (_ =? _)) eqn:E; [|reflexivity].
    apply same_target_dec in E. contradiction.
Qed.

Lemma SetLayerOpacity_mergeWith_folds_witness :
  SetLayerOpacity_mergeWith
    (example_SetLayerOpacity float_0_2 float_0_5)
    (example_SetLayerOpacity float_0_5 float_0_8)
  = (example_SetLayerOpacity float_0_2 float_0_8, true) /\
  exists w' : World,
    SetLayerOpacity_undo (example_SetLayerOpacity float_0_2 float_0_8)
      example_world = Returns tt w' /\
    layerAt 2%N 0 w'
    = Returns
        (setOpacity float_0_2 (example_layer "ground" false TileLayerType)) w'.
Proof.
  destruct (proj1 (SetLayerOpacity_mergeWith_folds
                     (example_SetLayerOpacity float_0_2 float_0_5)
                     (example_SetLayerOpacity float_0_5 float_0_8)))
    as (Hmerge & _ & Hundo).
  - split; reflexivity.
  - split; [exact Hmerge|].
    apply (Hundo example_world example_document example_layers
             (example_layer "ground" false TileLayerType)).
    + exact example_world_constructed.
    + reflexivity.
Defined.

(** ** Taking a layer out *)

Lemma observed_shows (w : World) (this doc map : ptr)
  (mLayers : list Layer) :
  shows w this doc map mLayers -> observed w this = mLayers.
Proof.
  intros (_ & Hself & _ & Hlayers & _). unfold observed.
  rewrite Hself. cbn. now rewrite Hlayers.
Qed.

Lemma observed_store_maps (w : World) (this doc map : ptr)
  (mLayers rest : list Layer) :
  shows w this doc map mLayers ->
  observed (store_maps map rest w) this = rest.
Proof.
  intros (_ & Hself & _ & _ & _). unfold observed. cbn.
  rewrite Hself. cbn. now rewrite lookup_insert_eq.
Qed.

(** C9: [takeLayerAt] on a valid layer index emits [layerAboutToBeRemoved]
    while the layer is still in the map, announces the removal of the one
    row [layerCount - index - 1], takes the layer at [index] out of the map,
    reports the row as removed, emits [layerRemoved], and returns the layer
    that was at [index]. *)
Theorem takeLayerAt_removes_and_notifies (w : World) (this doc map : ptr)
  (mLayers : list Layer) (index : Z) (layer : Layer) :
  shows w this doc map mLayers ->
  Map.layerAt mLayers index = Some layer ->
  exists w' : World,
    takeLayerAt this index w = Returns layer w' /\
    maps w' = <[map := delete (Z.to_nat index) mLayers]> (maps w) /\
    emitted w'
    = emitted w ++
      removal_emissions this mLayers (delete (Z.to_nat index) mLayers) index /\
    documents w' = documents w /\
    layerModels w' = layerModels w.
Proof.
  intros Hshows Hlayer.
  pose proof Hshows as (Hthis & Hself & Hmap & Hlayers & Hmax).
  destruct (layerAt_in_range _ _ _ Hlayer) as [Hi _].
  eexists. split.
  - unfold takeLayerAt, beginRemoveRows, endRemoveRows.
    rewrite bind_run. cbn [emit].
    rewrite bind_run, (layerIndexToRow_run _ this doc map mLayers)
      by exact Hshows.
    rewrite sub_sub_1 by (unfold Map.layerCount in *; lia).
    rewrite bind_run. cbn [emit].
    rewrite bind_run.
    erewrite (deref_run layerModels this) by first [exact Hthis | exact Hself].
    rewrite bind_run. cbn [LayerModel.mMap].
    erewrite (deref_run maps map) by first [exact Hmap | exact Hlayers].
    unfold Map.takeLayerAt. rewrite Hlayer.
    reflexivity.
  - cbn. rewrite !(observed_shows w this doc map mLayers Hshows).
    repeat split.
    rewrite <- !app_assoc. cbn. unfold removal_emissions.
    repeat f_equal.
    + apply (observed_shows _ this doc map). exact Hshows.
    + apply (observed_store_maps _ this doc map mLayers). exact Hshows.
    + apply (observed_store_maps _ this doc map mLayers). exact Hshows.
Qed.

Lemma takeLayerAt_removes_and_notifies_witness :
  exists w' : World,
    takeLayerAt 3%N 2 example_world
      = Returns (example_layer "sky" true ImageLayerType) w' /\
    maps w' = <[2%N := delete 2%nat example_layers]> (maps example_world) /\
    emitted w'
    = emitted example_world ++
      removal_emissions 3%N example_layers (delete 2%nat example_layers) 2 /\
    documents w' = documents example_world /\
    layerModels w' = layerModels example_world.
Proof.
  apply (takeLayerAt_removes_and_notifies example_world 3%N 1%N 2%N
           example_layers 2 (example_layer "sky" true ImageLayerType)).
  - exact example_world_shows.
  - reflexivity.
Defined.

(** ** Binding a document *)

Lemma setMapDocument_same (w : World) (this : ptr) (self : LayerModel.t) :
  is_null this = false ->
  layerModels w !! this = Some self ->
  setMapDocument this (LayerModel.mMapDocument self) w = Returns tt w.
Proof.
  intros Hthis Hself. unfold setMapDocument.
  rewrite bind_run, (deref_run layerModels this self w Hthis Hself).
  unfold ptr_eq. now rewrite N.eqb_refl.
Qed.

Lemma setMapDocument_other (w : World) (this : ptr) (self : LayerModel.t)
  (mapDocument : ptr) :
  is_null this = false ->
  layerModels w !! this = Some self ->
  LayerModel.mMapDocument self <> mapDocument ->
  setMapDocument this mapDocument w
  = (doc ← deref documents mapDocument;
     set_layerModels this {| LayerModel.mMapDocument := mapDocument;
                             LayerModel.mMap := MapDocument.map doc |};;
     endResetModel this)
      (store_layerModels this
         {| LayerModel.mMapDocument := mapDocument;
            LayerModel.mMap := LayerModel.mMap self |}
         (record this modelAboutToBeReset w)).
Proof.
  intros Hthis Hself Hne. unfold setMapDocument.
  rewrite bind_run, (deref_run layerModels this self w Hthis Hself).
  unfold ptr_eq. apply N.eqb_neq in Hne. rewrite Hne.
  reflexivity.
Qed.

(** C10: [setMapDocument] follows the pointer it has just stored without
    testing it.  Called with the null pointer on a model that has a
    document, it faults; called with a document, it returns with that
    document and the document's map stored in the model.  [rowCount] gives 0
    for a model whose map pointer is null, and a call of [setMapDocument]
    that returns leaves the document pointer null only when it was null
    before and the call changed nothing; the same holds of the map pointer
    when every document has a map.  So the null guard of [rowCount] answers
    only for a model that no document was bound to. *)
Theorem setMapDocument_null_unguarded (w : World) (this : ptr)
  (self : LayerModel.t) :
  is_null this = false ->
  layerModels w !! this = Some self ->
  (LayerModel.mMapDocument self <> null ->
   setMapDocument this null w = Faults NullPointer) /\
  (forall (mapDocument : ptr) (doc : MapDocument.t),
     LayerModel.mMapDocument self <> mapDocument ->
     is_null mapDocument = false ->
     documents w !! mapDocument = Some doc ->
     exists w' : World,
       setMapDocument this mapDocument w = Returns tt w' /\
       layerModels w' !! this
       = Some {| LayerModel.mMapDocument := mapDocument;
                 LayerModel.mMap := MapDocument.map doc |}) /\
  (forall parent : QModelIndex,
     LayerModel.mMap self = null -> rowCount this parent w = Returns 0 w) /\
  (forall (mapDocument : ptr) (w' : World) (self' : LayerModel.t),
     setMapDocument this mapDocument w = Returns tt w' ->
     layerModels w' !! this = Some self' ->
     LayerModel.mMapDocument self' = null ->
     LayerModel.mMapDocument self = null /\ w' = w) /\
  (forall (mapDocument : ptr) (w' : World) (self' : LayerModel.t),
     (forall (p : ptr) (doc : MapDocument.t),
        documents w !! p = Some doc -> MapDocument.map doc <> null) ->
     setMapDocument this mapDocument w = Returns tt w' ->
     layerModels w' !! this = Some self' ->
     LayerModel.mMap self' = null ->
     LayerModel.mMap self = null /\ w' = w).
Proof.
  intros Hthis Hself. split; [|split; [|split; [|split]]].
  - intros Hbound.
    now rewrite (setMapDocument_other w this self null Hthis Hself Hbound).
  - intros mapDocument doc Hne Hdoc Hd. eexists. split.
    + rewrite (setMapDocument_other w this self mapDocument Hthis Hself Hne).
      rewrite bind_run.
      erewrite (deref_run documents mapDocument) by first [exact Hdoc | exact Hd].
      reflexivity.
    + cbn. now rewrite lookup_insert_eq.
  - intros parent Hnull. unfold rowCount.
    rewrite bind_run, (deref_run layerModels this self w Hthis Hself).
    rewrite Hnull. now destruct (isValid parent).
  - intros mapDocument w' self' Hrun Hself' Hnull'.
    destruct (N.eq_dec (LayerModel.mMapDocument self) mapDocument) as [Heq|Hne].
    + subst mapDocument.
      rewrite (setMapDocument_same w this self Hthis Hself) in Hrun.
      injection Hrun as <-. rewrite Hself in Hself'. injection Hself' as <-.
      now split.
    + exfalso.
      rewrite (setMapDocument_other w this self mapDocument Hthis Hself Hne)
        in Hrun.
      rewrite bind_run in Hrun. unfold deref at 1 in Hrun.
      destruct (is_null mapDocument) eqn:Hn; [discriminate|].
      destruct (documents _ !! mapDocument) as [doc|]; [|discriminate].
      cbn in Hrun. injection Hrun as <-. cbn in Hself'.
      rewrite lookup_insert_eq in Hself'. injection Hself' as <-.
      cbn in Hnull'. unfold is_null, null in *. apply N.eqb_neq in Hn.
      contradiction.
  - intros mapDocument w' self' Hmaps Hrun Hself' Hnull'.
    destruct (N.eq_dec (LayerModel.mMapDocument self) mapDocument) as [Heq|Hne].
    + subst mapDocument.
      rewrite (setMapDocument_same w this self Hthis Hself) in Hrun.
      injection Hrun as <-. rewrite Hself in Hself'. injection Hself' as <-.
      now split.
    + exfalso.
      rewrite (setMapDocument_other w this self mapDocument Hthis Hself Hne)
        in Hrun.
      rewrite bind_run in Hrun. unfold deref at 1 in Hrun.
      destruct (is_null mapDocument) eqn:Hn; [discriminate|].
      destruct (documents _ !! mapDocument) as [doc|] eqn:Hd; [|discriminate].
      cbn in Hrun. injection Hrun as <-. cbn in Hself'.
      rewrite lookup_insert_eq in Hself'. injection Hself' as <-.
      cbn in Hnull'. exact (Hmaps mapDocument doc Hd Hnull').
Qed.

Lemma setMapDocument_null_unguarded_witness :
  setMapDocument 3%N null example_world = Faults NullPointer.
Proof.
  apply (proj1 (setMapDocument_null_unguarded example_world 3%N
                  {| LayerModel.mMapDocument := 1%N;
                     LayerModel.mMap := 2%N |}
                  eq_refl eq_refl)).
  discriminate.
Defined.

(** On a model that was never bound, the call with the null pointer is the
    rebinding of the pointer already held, and returns at once. *)
Lemma setMapDocument_null_never_bound (w : World) (this : ptr)
  (self : LayerModel.t) :
  is_null this = false ->
  layerModels w !! this = Some self ->
  never_bound self ->
  setMapDocument this null w = Returns tt w /\
  rowCount this QModelIndex_invalid w = Returns 0 w.
Proof.
  intros Hthis Hself [Hdoc Hmap]. split.
  - rewrite <- Hdoc. now apply setMapDocument_same.
  - unfold rowCount.
    rewrite bind_run, (deref_run layerModels this self w Hthis Hself).
    now rewrite Hmap.
Qed.

Example setMapDocument_null_example_unbound :
  setMapDocument 3%N null example_unbound_world
  = Returns tt example_unbound_world.
Proof. reflexivity. Qed.

(** ** Toggling the other layers *)

(** C5: with no layer or one layer in the map, [toggleOtherLayers] returns
    with the store as it was: no macro, no command, no layer touched. *)
Theorem toggleOtherLayers_single_layer_noop (w : World) (this doc map : ptr)
  (mLayers : list Layer) (layerIndex : Z) :
  shows w this doc map mLayers ->
  Map.layerCount mLayers < 2 ->
  toggleOtherLayers this layerIndex w = Returns tt w.
Proof.
  intros (Hthis & Hself & Hmap & Hlayers & _) Hfew. unfold toggleOtherLayers.
  rewrite bind_run, (deref_run layerModels this _ w Hthis Hself).
  rewrite bind_run. cbn [LayerModel.mMap].
  rewrite (layerCount_run w map mLayers Hmap Hlayers).
  now replace (Map.layerCount mLayers <=? 1) with true by cmp.
Qed.

Lemma toggleOtherLayers_single_layer_noop_witness :
  toggleOtherLayers 3%N 0 example_single_world
  = Returns tt example_single_world.
Proof.
  apply (toggleOtherLayers_single_layer_noop example_single_world
           3%N 1%N 2%N [example_layer "ground" true TileLayerType] 0).
  - repeat split; vm_compute; congruence.
  - reflexivity.
Defined.

Lemma layerAt_middle (pre : list Layer) (x : Layer) (xs : list Layer) :
  Map.layerAt (pre ++ x :: xs) (Z.of_nat (length pre)) = Some x.
Proof.
  unfold Map.layerAt, Map.in_range, Map.layerCount.
  rewrite length_app. cbn [length].
  replace (0 <=? Z.of_nat (length pre)) with true by cmp.
  replace (Z.of_nat (length pre) <? Z.of_nat (length pre + S (length xs)))
    with true by cmp.
  cbn. rewrite Nat2Z.id. now apply list_lookup_middle.
Qed.

Lemma replaceLayerAt_middle (pre : list Layer) (x y : Layer)
  (xs : list Layer) :
  Map.replaceLayerAt (pre ++ x :: xs) (Z.of_nat (length pre)) y
  = pre ++ y :: xs.
Proof.
  unfold Map.replaceLayerAt. rewrite Nat2Z.id.
  rewrite insert_app_r_alt by lia. now rewrite Nat.sub_diag.
Qed.

Lemma add_1 (i : Z) : 0 <= i < Int.max_int -> Int.add i 1 = i + 1.
Proof.
  intros Hi. unfold Int.add. apply wrap_small.
  unfold Int.min_int, Int.max_int in *. lia.
Qed.

Lemma snoc_length (pre : list Layer) (x : Layer) :
  Z.of_nat (length (pre ++ [x])) = Z.of_nat (length pre) + 1.
Proof. rewrite length_app. cbn. lia. Qed.

Lemma otherLayersHidden_run (w : World) (this doc map : ptr) (index : Z)
  (suf : list Layer) :
  forall (pre : list Layer) (fuel : nat),
    shows w this doc map (pre ++ suf) ->
    (length suf < fuel)%nat ->
    otherLayersHidden fuel this index (Z.of_nat (length pre)) w
    = Returns (others_hidden index (Z.of_nat (length pre)) suf) w.
Proof.
  induction suf as [|x xs IH]; intros pre fuel Hshows Hfuel;
    (destruct fuel as [|fuel]; [lia|]);
    pose proof Hshows as (Hthis & Hself & Hmap & Hlayers & Hmax);
    cbn [otherLayersHidden];
    rewrite bind_run, (deref_run layerModels this _ w Hthis Hself);
    rewrite bind_run; cbn [LayerModel.mMap];
    rewrite (layerCount_run w map _ Hmap Hlayers);
    unfold Map.layerCount in *; rewrite length_app in *; cbn [length] in *.
  - replace (Z.of_nat (length pre) <? Z.of_nat (length pre + 0))
      with false by cmp.
    reflexivity.
  - replace (Z.of_nat (length pre) <? Z.of_nat (length pre + S (length xs)))
      with true by cmp.
    cbn [others_hidden]. rewrite add_1 by lia.
    rewrite <- (snoc_length pre x).
    assert (Hnext : shows w this doc map ((pre ++ [x]) ++ xs))
      by now rewrite <- app_assoc.
    destruct (Z.of_nat (length pre) =? index) eqn:Hidx.
    + apply IH; [assumption | lia].
    + rewrite bind_run.
      rewrite (layerAt_run w map (pre ++ x :: xs) _ x Hmap Hlayers
                 (layerAt_middle pre x xs)).
      destruct (isVisible x); [reflexivity|].
      apply IH; [assumption | lia].
Qed.

Lemma others_hidden_spec (index : Z) (l : list Layer) :
  forall k : Z,
    others_hidden index k l = true <->
    (forall (m : nat) (layer : Layer),
        k + Z.of_nat m <> index -> l !! m = Some layer ->
        isVisible layer = false).
Proof.
  induction l as [|x xs IH]; intros k; cbn [others_hidden].
  - split; [|reflexivity]. intros _ m layer _ Hm. discriminate.
  - split.
    + intros H [|m] layer Hne Hm.
      * cbn in Hm. injection Hm as ->.
        replace (k =? index) with false in H by cmp.
        now destruct (isVisible layer).
      * cbn in Hm.
        assert (Hrest : others_hidden index (k + 1) xs = true).
        { destruct (k =? index); [assumption|].
          now destruct (isVisible x). }
        apply (proj1 (IH (k + 1)) Hrest m layer); [lia | assumption].
    + intros H.
      assert (Hrest : others_hidden index (k + 1) xs = true).
      { apply IH. intros m layer Hne Hm.
        apply (H (S m) layer); [lia | assumption]. }
      destruct (k =? index) eqn:Hk; [assumption|].
      rewrite (H 0%nat x); [assumption | lia | reflexivity].
Qed.

Lemma others_hidden_iff (index : Z) (mLayers : list Layer) :
  others_hidden index 0 mLayers = true <->
  (forall (j : Z) (layer : Layer),
      j <> index -> Map.layerAt mLayers j = Some layer ->
      isVisible layer = false).
Proof.
  rewrite others_hidden_spec. split.
  - intros H j layer Hne Hj.
    destruct (layerAt_in_range _ _ _ Hj) as [Hrange Hlookup].
    apply (H (Z.to_nat j) layer); [lia | assumption].
  - intros H m layer Hne Hm. apply (H (Z.of_nat m) layer); [lia|].
    unfold Map.layerAt, Map.in_range, Map.layerCount.
    apply lookup_lt_Some in Hm as Hlt.
    replace (0 <=? Z.of_nat m) with true by cmp.
    replace (Z.of_nat m <? Z.of_nat (length mLayers)) with true by cmp.
    cbn. now rewrite Nat2Z.id.
Qed.

Lemma setVisible_same (v : bool) (x : Layer) :
  isVisible x = v -> setVisible v x = x.
Proof. intros <-. now destruct x. Qed.

Lemma executed_toggled (doc : ptr) (j : Z) (target : bool) (x : Layer) :
  Bool.eqb target (isVisible x) = false ->
  executed_SetLayerVisible doc j target x = toggled doc target j.
Proof.
  intros H. unfold executed_SetLayerVisible, toggled.
  destruct target, (isVisible x); try discriminate; reflexivity.
Qed.

Lemma pushOtherLayers_run (this doc : ptr) (index : Z) (target : bool)
  (suf : list Layer) :
  forall (pre : list Layer) (w : World) (d : MapDocument.t) (fuel : nat),
    shows w this doc (MapDocument.map d) (pre ++ suf) ->
    constructed w doc d (pre ++ suf) ->
    (length suf < fuel)%nat ->
    exists w' : World,
      pushOtherLayers fuel this index target doc (Z.of_nat (length pre)) w
        = Returns tt w' /\
      maps w'
        = <[MapDocument.map d :=
              pre ++ toggle_layers index target (Z.of_nat (length pre)) suf]>
            (maps w) /\
      documents w'
        = <[doc :=
              with_undoStack d
                (foldl QUndoStack_store (MapDocument.undoStack d)
                   (toggle_commands doc index target
                      (Z.of_nat (length pre)) suf))]>
            (documents w) /\
      layerModels w' = layerModels w.
Proof.
  induction suf as [|x xs IH]; intros pre w d fuel Hshows Hc Hfuel;
    (destruct fuel as [|fuel]; [lia|]);
    pose proof Hshows as (Hthis & Hself & Hmap & Hlayers & Hmax);
    pose proof Hc as (Hdoc & Hd & _);
    cbn [pushOtherLayers];
    rewrite bind_run, (deref_run layerModels this _ w Hthis Hself);
    rewrite bind_run; cbn [LayerModel.mMap LayerModel.mMapDocument];
    rewrite (layerCount_run w _ _ Hmap Hlayers);
    unfold Map.layerCount in *; rewrite length_app in *; cbn [length] in *.
  - replace (Z.of_nat (length pre) <? Z.of_nat (length pre + 0))
      with false by cmp.
    exists w. cbn [toggle_layers toggle_commands foldl].
    rewrite app_nil_r in *. rewrite with_undoStack_id.
    repeat split; symmetry; now apply insert_id.
  - replace (Z.of_nat (length pre) <? Z.of_nat (length pre + S (length xs)))
      with true by cmp.
    cbn [toggle_layers toggle_commands]. rewrite add_1 by lia.
    rewrite <- (snoc_length pre x).
    destruct (Z.of_nat (length pre) =? index) eqn:Hidx.
    + cbn [orb app].
      destruct (IH (pre ++ [x]) w d fuel) as (w' & Hrun & Hm & Hdocs & Hlm).
      * now rewrite <- app_assoc.
      * now rewrite <- app_assoc.
      * lia.
      * exists w'. rewrite <- app_assoc in Hm. now repeat split.
    + cbn [orb]. rewrite bind_run.
      rewrite (layerAt_run w _ (pre ++ x :: xs) _ x Hmap Hlayers
                 (layerAt_middle pre x xs)).
      destruct (Bool.eqb target (isVisible x)) eqn:Hsame.
      * cbn [negb app]. rewrite bind_run, ret_run.
        apply Bool.eqb_prop in Hsame.
        rewrite (setVisible_same target x) by easy.
        destruct (IH (pre ++ [x]) w d fuel) as (w' & Hrun & Hm & Hdocs & Hlm).
        -- now rewrite <- app_assoc.
        -- now rewrite <- app_assoc.
        -- lia.
        -- exists w'. rewrite <- app_assoc in Hm. now repeat split.
      * cbn [negb app]. rewrite bind_run.
        rewrite (push_VisibleCommand_run w doc d (pre ++ x :: xs) _ target x
                   Hc (layerAt_middle pre x xs)).
        rewrite (executed_toggled doc _ target x Hsame).
        set (d1 := with_undoStack d
                     (QUndoStack_store (MapDocument.undoStack d)
                        (toggled doc target (Z.of_nat (length pre))))).
        set (x' := setVisible target x).
        set (w1 := store_documents doc d1 _).
        assert (Hmaps1 : maps w1 = <[MapDocument.map d := (pre ++ [x']) ++ xs]> (maps w)).
        { unfold w1. cbn. rewrite replaceLayerAt_middle.
          now rewrite <- app_assoc. }
        destruct (IH (pre ++ [x']) w1 d1 fuel) as (w' & Hrun & Hm & Hdocs & Hlm).
        -- repeat split; try assumption.
           ++ cbn [MapDocument.map d1 with_undoStack]. rewrite Hmaps1.
              apply lookup_insert_eq.
           ++ unfold Map.layerCount in *. rewrite !length_app in *.
              cbn [length] in *. lia.
        -- destruct Hc as (_ & _ & Hthis' & Hself' & _).
           repeat split; try assumption.
           ++ unfold w1. cbn. apply lookup_insert_eq.
           ++ cbn [MapDocument.map d1 with_undoStack]. rewrite Hmaps1.
              apply lookup_insert_eq.
           ++ unfold Map.layerCount in *. rewrite !length_app in *.
              cbn [length] in *. lia.
        -- lia.
        -- exists w'.
           rewrite length_app in Hrun, Hm, Hdocs. cbn [length] in Hrun, Hm, Hdocs.
           rewrite length_app. cbn [length].
           split; [exact Hrun|]. split; [|split].
           ++ rewrite Hm, Hmaps1. cbn [MapDocument.map d1 with_undoStack].
              rewrite insert_insert_eq. now rewrite <- app_assoc.
           ++ rewrite Hdocs. unfold w1. cbn. rewrite insert_insert_eq.
              replace (Z.of_nat (length pre + 1)) with (Z.of_nat (length pre) + 1) by lia.
              reflexivity.
           ++ rewrite Hlm. reflexivity.
Qed.

Lemma toggle_commands_filter (doc : ptr) (index : Z) (target : bool)
  (suf : list Layer) :
  forall pre : list Layer,
    toggle_commands doc index target (Z.of_nat (length pre)) suf
    = List.map (toggled doc target)
        (List.filter
           (fun j => negb (j =? index)
                     && negb (Bool.eqb target (visible_at (pre ++ suf) j)))
           (seqZ (Z.of_nat (length pre)) (Z.of_nat (length suf)))).
Proof.
  induction suf as [|x xs IH]; intros pre; [reflexivity|].
  cbn [toggle_commands length].
  rewrite seqZ_cons by lia. cbn [List.filter].
  unfold visible_at at 1. rewrite layerAt_middle.
  replace (Z.pred (Z.of_nat (S (length xs)))) with (Z.of_nat (length xs))
    by lia.
  replace (Z.succ (Z.of_nat (length pre)))
    with (Z.of_nat (length (pre ++ [x]))) by (rewrite snoc_length; lia).
  rewrite <- (snoc_length pre x), (IH (pre ++ [x])), <- app_assoc.
  cbn [app].
  destruct (Z.of_nat (length pre) =? index), (Bool.eqb target (isVisible x));
    reflexivity.
Qed.

Lemma QUndoStack_store_in_macro (s : QUndoStack) (text : string)
  (children : list QUndoCommand) (outer : list (string * list QUndoCommand))
  (cmd : QUndoCommand) :
  d_macro_stack s = (text, children) :: outer ->
  id cmd = -1 ->
  QUndoStack_store s cmd
  = {| d_command_list := d_command_list s; d_index := d_index s;
       d_clean_index := d_clean_index s;
       d_macro_stack := (text, children ++ [cmd]) :: outer |}.
Proof.
  intros Hopen Hid. unfold QUndoStack_store. rewrite Hopen, Hid.
  cbn [bool_decide decide_rel negb andb orb].
  destruct (last_command children) as [c|]; [|reflexivity].
  destruct (id c =? -1); reflexivity.
Qed.

Lemma toggled_id (doc : ptr) (target : bool) (j : Z) :
  id (toggled doc target j) = -1.
Proof. reflexivity. Qed.

Lemma QUndoStack_store_toggled (doc : ptr) (target : bool) (js : list Z) :
  forall (s : QUndoStack) (text : string) (children : list QUndoCommand)
         (outer : list (string * list QUndoCommand)),
    d_macro_stack s = (text, children) :: outer ->
    foldl QUndoStack_store s (List.map (toggled doc target) js)
    = {| d_command_list := d_command_list s; d_index := d_index s;
         d_clean_index := d_clean_index s;
         d_macro_stack :=
           (text, children ++ List.map (toggled doc target) js) :: outer |}.
Proof.
  induction js as [|j js IH]; intros s text children outer Hopen.
  - cbn. rewrite app_nil_r, <- Hopen. now destruct s.
  - cbn [List.map foldl].
    rewrite (QUndoStack_store_in_macro s text children outer _ Hopen
               (toggled_id doc target j)).
    erewrite IH by reflexivity.
    cbn. now rewrite <- app_assoc.
Qed.

(** One macro with the given children put on a stack that has no macro
    open: what is beyond the index is dropped and the macro is the last
    command. *)
Lemma QUndoStack_macro_closed (doc : ptr) (target : bool) (js : list Z)
  (s : QUndoStack) (text : string) :
  d_macro_stack s = [] ->
  QUndoStack_endMacro
    (foldl QUndoStack_store (QUndoStack_beginMacro s text)
       (List.map (toggled doc target) js))
  = {| d_command_list :=
         take (Z.to_nat (d_index s)) (d_command_list s)
         ++ [MacroCommand text (List.map (toggled doc target) js)];
       d_index := Int.add (d_index s) 1;
       d_clean_index :=
         if d_index s <? d_clean_index s then -1 else d_clean_index s;
       d_macro_stack := [] |}.
Proof.
  intros Hclosed.
  rewrite (QUndoStack_store_toggled doc target js _ text [] [])
    by (unfold QUndoStack_beginMacro; now rewrite Hclosed).
  unfold QUndoStack_beginMacro. rewrite Hclosed. reflexivity.
Qed.

Lemma beginMacro_run (w : World) (doc : ptr) (d : MapDocument.t)
  (text : string) :
  is_null doc = false -> documents w !! doc = Some d ->
  beginMacro doc text w
  = Returns tt
      (store_documents doc
         (with_undoStack d
            (QUndoStack_beginMacro (MapDocument.undoStack d) text)) w).
Proof.
  intros Hdoc Hd. unfold beginMacro.
  now rewrite bind_run, (deref_run documents doc d w Hdoc Hd).
Qed.

Lemma endMacro_run (w : World) (doc : ptr) (d : MapDocument.t) :
  is_null doc = false -> documents w !! doc = Some d ->
  endMacro doc w
  = Returns tt
      (store_documents doc
         (with_undoStack d (QUndoStack_endMacro (MapDocument.undoStack d))) w).
Proof.
  intros Hdoc Hd. unfold endMacro.
  now rewrite bind_run, (deref_run documents doc d w Hdoc Hd).
Qed.

(** C4: with two layers or more, [toggleOtherLayers] settles on one target
    visibility, true exactly when no layer other than the one at
    [layerIndex] is visible; it opens one macro, labelled "Show Other
    Layers" for the target true and "Hide Other Layers" for false, pushes
    into it one [SetLayerVisible] for each layer other than [layerIndex]
    whose visibility is not the target, in the order of the layer indices,
    and closes the macro; on a stack with no macro open, that macro is the
    command the stack ends with. *)
Theorem toggleOtherLayers_pushes_macro (w : World) (this doc : ptr)
  (d : MapDocument.t) (mLayers : list Layer) (layerIndex : Z) :
  shows w this doc (MapDocument.map d) mLayers ->
  constructed w doc d mLayers ->
  2 <= Map.layerCount mLayers ->
  exists (target : bool) (w' : World),
    (target = true <->
     forall (j : Z) (layer : Layer),
       j <> layerIndex -> Map.layerAt mLayers j = Some layer ->
       isVisible layer = false) /\
    toggleOtherLayers this layerIndex w = Returns tt w' /\
    documents w'
    = <[doc :=
          with_undoStack d
            (QUndoStack_endMacro
               (foldl QUndoStack_store
                  (QUndoStack_beginMacro (MapDocument.undoStack d)
                     (toggle_label target))
                  (List.map (toggled doc target)
                     (layers_to_toggle layerIndex target mLayers))))]>
        (documents w) /\
    (d_macro_stack (MapDocument.undoStack d) = [] ->
     exists d' : MapDocument.t,
       documents w' !! doc = Some d' /\
       d_command_list (MapDocument.undoStack d')
       = take (Z.to_nat (d_index (MapDocument.undoStack d)))
           (d_command_list (MapDocument.undoStack d))
         ++ [MacroCommand (toggle_label target)
               (List.map (toggled doc target)
                  (layers_to_toggle layerIndex target mLayers))] /\
       d_macro_stack (MapDocument.undoStack d') = []) /\
    maps w'
    = <[MapDocument.map d := toggle_layers layerIndex target 0 mLayers]>
        (maps w) /\
    layerModels w' = layerModels w.
Proof.
  intros Hshows Hc Hmany.
  pose proof Hshows as (Hthis & Hself & Hmap & Hlayers & Hmax).
  pose proof Hc as (Hdoc & Hd & Hlm).
  set (target := others_hidden layerIndex 0 mLayers).
  set (s1 := QUndoStack_beginMacro (MapDocument.undoStack d)
               (toggle_label target)).
  set (d1 := with_undoStack d s1).
  set (w1 := store_documents doc d1 w).
  destruct (pushOtherLayers_run this doc layerIndex target mLayers [] w1 d1
              (S (Z.to_nat (Map.layerCount mLayers))))
    as (w2 & Hrun & Hm2 & Hd2 & Hl2).
  { exact Hshows. }
  { repeat split; try assumption; try apply Hlm.
    unfold w1. cbn. apply lookup_insert_eq. }
  { unfold Map.layerCount. cbn [app]. lia. }
  cbn [length app] in Hrun, Hm2, Hd2.
  change (Z.of_nat 0) with 0 in Hrun, Hm2, Hd2.
  pose proof (toggle_commands_filter doc layerIndex target mLayers [])
    as Hfilter.
  cbn [length app] in Hfilter. change (Z.of_nat 0) with 0 in Hfilter.
  rewrite Hfilter in Hd2.
  clear Hfilter. fold (Map.layerCount mLayers) in Hd2.
  fold (layers_to_toggle layerIndex target mLayers) in Hd2.
  set (cmds := List.map (toggled doc target)
                 (layers_to_toggle layerIndex target mLayers)) in *.
  set (d2 := with_undoStack d1 (foldl QUndoStack_store
                                  (MapDocument.undoStack d1) cmds)) in *.
  exists target, (store_documents doc
                    (with_undoStack d2
                       (QUndoStack_endMacro (MapDocument.undoStack d2))) w2).
  split; [apply others_hidden_iff|]. split; [|split; [|split; [|split]]].
  - unfold toggleOtherLayers.
    rewrite bind_run, (deref_run layerModels this _ w Hthis Hself).
    rewrite bind_run. cbn [LayerModel.mMap LayerModel.mMapDocument].
    rewrite (layerCount_run w _ _ Hmap Hlayers).
    replace (Map.layerCount mLayers <=? 1) with false by cmp.
    rewrite bind_run.
    rewrite (otherLayersHidden_run w this doc _ layerIndex mLayers [])
      by (try exact Hshows; unfold Map.layerCount; cbn [app]; lia).
    cbn [length]. change (Z.of_nat 0) with 0. fold target.
    rewrite bind_run, (deref_run documents doc d w Hdoc Hd).
    rewrite bind_run.
    assert (Hbegin :
              (if target then beginMacro doc (tr "Show Other Layers")
               else beginMacro doc (tr "Hide Other Layers")) w
              = Returns tt w1).
    { unfold w1, d1, s1, toggle_label, tr.
      destruct target; now apply beginMacro_run. }
    rewrite Hbegin, bind_run, Hrun.
    apply endMacro_run; [assumption|].
    rewrite Hd2. apply lookup_insert_eq.
  - cbn. rewrite Hd2. unfold w1. cbn. now rewrite !insert_insert_eq.
  - intros Hclosed. eexists. split.
    + cbn. apply lookup_insert_eq.
    + cbn [MapDocument.undoStack with_undoStack d2 d1]. unfold cmds, s1.
      rewrite (QUndoStack_macro_closed doc target _ _ _ Hclosed).
      now split.
  - cbn. rewrite Hm2. reflexivity.
  - cbn. rewrite Hl2. reflexivity.
Qed.

Lemma toggleOtherLayers_pushes_macro_witness :
  exists w' : World,
    toggleOtherLayers 3%N 0 example_world = Returns tt w' /\
    (MapDocument.undoStack <$> documents w' !! 1%N)
    = Some {| d_command_list :=
                [MacroCommand "Hide Other Layers"
                   [toggled 1%N false 1; toggled 1%N false 2]];
              d_index := 1; d_clean_index := 0; d_macro_stack := [] |}.
Proof.
  destruct (toggleOtherLayers_pushes_macro example_world 3%N 1%N
              example_document example_layers 0)
    as (target & w' & Htarget & Hrun & Hdocs & _).
  - exact example_world_shows.
  - exact example_world_constructed.
  - vm_compute. congruence.
  - assert (Hfalse : target = false).
    { destruct target; [|reflexivity].
      discriminate (proj1 Htarget eq_refl 1
                      (example_layer "objects" true ObjectGroupType)
                      ltac:(lia) eq_refl). }
    subst target. exists w'. split; [exact Hrun|].
    rewrite Hdocs, lookup_insert_eq. reflexivity.
Defined.

(** ** Edits through [setData] *)

Lemma QUndoStack_store_closed (s : QUndoStack) (cmd : QUndoCommand) :
  d_macro_stack s = [] ->
  id cmd = -1 ->
  QUndoStack_store s cmd
  = {| d_command_list :=
         take (Z.to_nat (d_index s)) (d_command_list s) ++ [cmd];
       d_index := Int.add (d_index s) 1;
       d_clean_index :=
         if d_index s <? d_clean_index s then -1 else d_clean_index s;
       d_macro_stack := [] |}.
Proof.
  intros Hclosed Hid. unfold QUndoStack_store. rewrite Hclosed, Hid.
  cbn [bool_decide decide_rel negb andb orb].
  destruct (if 0 <? d_index s then _ else _) as [c|]; [|reflexivity].
  destruct (id c =? -1); reflexivity.
Qed.

(** What every branch of [setData] starts with, on a row that exists. *)
Lemma setData_layer (w : World) (this doc map : ptr) (mLayers : list Layer)
  (index : QModelIndex) (layer : Layer) :
  shows w this doc map mLayers ->
  isValid index = true ->
  Map.layerAt mLayers (layer_of_row mLayers index) = Some layer ->
  toLayerIndex this index w = Returns (layer_of_row mLayers index) w /\
  (layer_of_row mLayers index <? 0) = false /\
  deref layerModels this w
  = Returns {| LayerModel.mMapDocument := doc; LayerModel.mMap := map |} w /\
  layerAt map (layer_of_row mLayers index) w = Returns layer w.
Proof.
  intros Hshows Hvalid Hlayer.
  pose proof Hshows as (Hthis & Hself & Hmap & Hlayers & Hmax).
  destruct (layerAt_in_range _ _ _ Hlayer) as [Hi _].
  unfold layer_of_row in *. repeat split.
  - rewrite (toLayerIndex_run w this doc map mLayers index Hshows Hvalid).
    rewrite sub_sub_1; [reflexivity | unfold Map.layerCount in *; lia | lia].
  - apply Z.ltb_ge. lia.
  - now apply deref_run.
  - now apply (layerAt_run w map mLayers).
Qed.

(** C6: on a row that exists, [setData] with [Qt::CheckStateRole] returns
    true.  When the visibility asked for is the layer's, the store is left
    as it was.  Otherwise all [setData] does is one [push] of one
    [SetLayerVisible]; the layer changes when the stack executes the
    command, and the command is stored on the stack. *)
Theorem setData_CheckStateRole (w : World) (this doc : ptr)
  (d : MapDocument.t) (mLayers : list Layer) (index : QModelIndex)
  (value : QVariant) (layer : Layer) :
  shows w this doc (MapDocument.map d) mLayers ->
  constructed w doc d mLayers ->
  isValid index = true ->
  Map.layerAt mLayers (layer_of_row mLayers index) = Some layer ->
  let layerIndex := layer_of_row mLayers index in
  let visible := toInt value =? Qt.Checked in
  (visible = isVisible layer ->
   setData this index value Qt.CheckStateRole w = Returns true w) /\
  (visible <> isVisible layer ->
   setData this index value Qt.CheckStateRole w
   = (push doc (VisibleCommand (new_SetLayerVisible doc layerIndex visible));;
      mret true) w /\
   setData this index value Qt.CheckStateRole w
   = Returns true
       (pushed doc d (executed_SetLayerVisible doc layerIndex visible layer)
          (made_visible (MapDocument.layerModel d) (MapDocument.map d)
             mLayers layerIndex visible layer w)) /\
   (d_macro_stack (MapDocument.undoStack d) = [] ->
    d_command_list
      (QUndoStack_store (MapDocument.undoStack d)
         (executed_SetLayerVisible doc layerIndex visible layer))
    = take (Z.to_nat (d_index (MapDocument.undoStack d)))
        (d_command_list (MapDocument.undoStack d))
      ++ [executed_SetLayerVisible doc layerIndex visible layer])).
Proof.
  intros Hshows Hc Hvalid Hlayer layerIndex visible.
  destruct (setData_layer w this doc _ mLayers index layer Hshows Hvalid Hlayer)
    as (Hindex & Hpos & Hself & Hat).
  assert (Hstart :
            setData this index value Qt.CheckStateRole w
            = ((if negb (Bool.eqb visible (isVisible layer))
                then push doc
                       (VisibleCommand
                          (new_SetLayerVisible doc layerIndex visible))
                else mret tt);; mret true) w).
  { unfold setData. rewrite bind_run, Hindex, Hpos.
    rewrite bind_run, Hself, bind_run. cbn [LayerModel.mMap].
    rewrite Hat. reflexivity. }
  split.
  - intros Hsame. rewrite Hstart, Hsame, Bool.eqb_reflx. reflexivity.
  - intros Hdiff. apply Bool.eqb_false_iff in Hdiff.
    rewrite Hstart, Hdiff. cbn [negb]. split; [reflexivity|]. split.
    + rewrite bind_run.
      now rewrite (push_VisibleCommand_run w doc d mLayers layerIndex visible
                     layer Hc Hlayer).
    + intros Hclosed.
      now rewrite (QUndoStack_store_closed _
                     (executed_SetLayerVisible doc layerIndex visible layer)
                     Hclosed eq_refl).
Qed.

Lemma setData_CheckStateRole_witness :
  setData 3%N (example_index 0) (example_variant_int Qt.Checked)
    Qt.CheckStateRole example_world
  = Returns true example_world /\
  exists w' : World,
    setData 3%N (example_index 0) (example_variant_int Qt.Unchecked)
      Qt.CheckStateRole example_world
    = Returns true w' /\
    (MapDocument.undoStack <$> documents w' !! 1%N)
    = Some {| d_command_list :=
                [executed_SetLayerVisible 1%N 2 false
                   (example_layer "sky" true ImageLayerType)];
              d_index := 1; d_clean_index := 0; d_macro_stack := [] |}.
Proof.
  split.
  - apply (proj1 (setData_CheckStateRole example_world 3%N 1%N
                    example_document example_layers (example_index 0)
                    (example_variant_int Qt.Checked)
                    (example_layer "sky" true ImageLayerType)
                    example_world_shows example_world_constructed
                    eq_refl eq_refl)).
    reflexivity.
  - destruct (proj2 (setData_CheckStateRole example_world 3%N 1%N
                       example_document example_layers (example_index 0)
                       (example_variant_int Qt.Unchecked)
                       (example_layer "sky" true ImageLayerType)
                       example_world_shows example_world_constructed
                       eq_refl eq_refl))
      as (_ & Hrun & _).
    + discriminate.
    + eexists. split; [exact Hrun|]. reflexivity.
Defined.

Lemma push_OpacityCommand_run (w : World) (doc : ptr) (d : MapDocument.t)
  (mLayers : list Layer) (i : Z) (o : Fp.float) (layer : Layer) :
  constructed w doc d mLayers ->
  Map.layerAt mLayers i = Some layer ->
  (command ← new_SetLayerOpacity doc i o;
   push doc (OpacityCommand command)) w
  = Returns tt
      (pushed doc d (OpacityCommand (created_SetLayerOpacity doc i o layer))
         (made_opaque (MapDocument.layerModel d) (MapDocument.map d)
            mLayers i o layer w)).
Proof.
  intros Hc Hlayer. pose proof Hc as (Hdoc & Hd & Hshows).
  pose proof Hshows as (_ & _ & Hmap & Hlayers & _).
  rewrite bind_run. unfold new_SetLayerOpacity.
  rewrite bind_run, (deref_run documents doc d w Hdoc Hd).
  rewrite bind_run, (layerAt_run w _ mLayers i layer Hmap Hlayers Hlayer).
  rewrite ret_run. fold (created_SetLayerOpacity doc i o layer).
  unfold push.
  rewrite bind_run, (deref_run documents doc d w Hdoc Hd).
  rewrite bind_run. cbn [redo]. unfold SetLayerOpacity_redo.
  rewrite bind_run.
  rewrite (SetLayerOpacity_setOpacity_run w d mLayers
             (created_SetLayerOpacity doc i o layer) _ layer Hc Hlayer).
  rewrite ret_run, bind_run.
  erewrite (deref_run documents doc) by first [exact Hdoc | exact Hd].
  reflexivity.
Qed.

(** C7: on a row that exists, [setData] with [OpacityRole] and a value
    that [toDouble] cannot convert returns false and leaves the store as it
    was.  With a value that converts, it returns true, and all it does is
    one [push] of one [SetLayerOpacity], from the layer's opacity to the
    value, when the value differs from the layer's opacity, and nothing
    when it does not. *)
Theorem setData_OpacityRole (w : World) (this doc : ptr)
  (d : MapDocument.t) (mLayers : list Layer) (index : QModelIndex)
  (value : QVariant) (layer : Layer) :
  shows w this doc (MapDocument.map d) mLayers ->
  constructed w doc d mLayers ->
  isValid index = true ->
  Map.layerAt mLayers (layer_of_row mLayers index) = Some layer ->
  let layerIndex := layer_of_row mLayers index in
  let parsed := fst (toDouble value) in
  let ok := snd (toDouble value) in
  let differs := Fp.ne (Fp.to_qreal (opacity layer)) parsed in
  (ok = false -> setData this index value OpacityRole w = Returns false w) /\
  (ok = true -> differs = false ->
   setData this index value OpacityRole w = Returns true w) /\
  (ok = true -> differs = true ->
   setData this index value OpacityRole w
   = ((command ← new_SetLayerOpacity doc layerIndex (Fp.to_float parsed);
       push doc (OpacityCommand command));;
      mret true) w /\
   setData this index value OpacityRole w
   = Returns true
       (pushed doc d
          (OpacityCommand
             (created_SetLayerOpacity doc layerIndex (Fp.to_float parsed)
                layer))
          (made_opaque (MapDocument.layerModel d) (MapDocument.map d)
             mLayers layerIndex (Fp.to_float parsed) layer w))).
Proof.
  intros Hshows Hc Hvalid Hlayer layerIndex parsed ok differs.
  destruct (setData_layer w this doc _ mLayers index layer Hshows Hvalid Hlayer)
    as (Hindex & Hpos & Hself & Hat).
  assert (Hstart :
            setData this index value OpacityRole w
            = (if ok then
                 (if differs then
                    command ← new_SetLayerOpacity doc layerIndex
                                (Fp.to_float parsed);
                    push doc (OpacityCommand command)
                  else mret tt);;
                 mret true
               else mret false) w).
  { unfold setData. rewrite bind_run, Hindex, Hpos.
    rewrite bind_run, Hself, bind_run. cbn [LayerModel.mMap].
    rewrite Hat. unfold ok, differs, parsed.
    change (OpacityRole =? Qt.CheckStateRole) with false.
    change (OpacityRole =? OpacityRole) with true.
    cbn [LayerModel.mMapDocument]. now destruct (toDouble value). }
  split; [|split].
  - intros Hok. now rewrite Hstart, Hok.
  - intros Hok Hsame. now rewrite Hstart, Hok, Hsame.
  - intros Hok Hdiff. rewrite Hstart, Hok, Hdiff. split.
    + reflexivity.
    + rewrite bind_run.
      now rewrite (push_OpacityCommand_run w doc d mLayers layerIndex
                     (Fp.to_float parsed) layer Hc Hlayer).
Qed.

Lemma setData_OpacityRole_witness :
  setData 3%N (example_index 0) (example_variant_text "opaque")
    OpacityRole example_world
  = Returns false example_world /\
  setData 3%N (example_index 0) (example_variant_number double_1)
    OpacityRole example_world
  = Returns true example_world /\
  setData 3%N (example_index 0) (example_variant_number double_0_2)
    OpacityRole example_world
  = Returns true
      (pushed 1%N example_document
         (OpacityCommand
            (created_SetLayerOpacity 1%N 2 float_0_2
               (example_layer "sky" true ImageLayerType)))
         (made_opaque 3%N 2%N example_layers 2 float_0_2
            (example_layer "sky" true ImageLayerType) example_world)).
Proof.
  pose proof (fun value =>
                setData_OpacityRole example_world 3%N 1%N
                  example_document example_layers (example_index 0) value
                  (example_layer "sky" true ImageLayerType)
                  example_world_shows example_world_constructed
                  eq_refl eq_refl) as H.
  split; [|split].
  - apply (proj1 (H (example_variant_text "opaque"))). reflexivity.
  - apply (proj1 (proj2 (H (example_variant_number double_1))));
      reflexivity.
  - apply (proj2 (proj2 (H (example_variant_number double_0_2))));
      reflexivity.
Defined.

(** The binary32 value nearest to 0.2 is not the binary64 value nearest to
    0.2: an opacity of 0.2 asked for twice differs from the layer's both
    times. *)
Example float_0_2_differs :
  Fp.to_float double_0_2 = float_0_2 /\
  Fp.ne (Fp.to_qreal float_0_2) double_0_2 = true.
Proof. split; reflexivity. Qed.

Lemma renameLayer_run (w : World) (this doc map : ptr)
  (mLayers : list Layer) (i : Z) (s : string) (layer : Layer) :
  shows w this doc map mLayers ->
  Map.layerAt mLayers i = Some layer ->
  renameLayer this i s w
  = Returns tt (made_renamed this map mLayers i s layer w).
Proof.
  intros Hshows Hlayer.
  pose proof Hshows as (Hthis & Hself & Hmap & Hlayers & Hmax).
  destruct (layerAt_in_range _ _ _ Hlayer) as [Hi _].
  pose proof (shows_record w this doc map mLayers this
                (layerAboutToBeRenamed i) Hshows) as Hshows'.
  unfold renameLayer. rewrite bind_run. cbn [emit].
  rewrite bind_run, (layerIndexToRow_run _ this doc map mLayers _ Hshows').
  rewrite sub_sub_1 by (unfold Map.layerCount in *; lia).
  rewrite bind_run, (index_run _ this doc map mLayers _ Hshows') by lia.
  rewrite bind_run.
  erewrite (deref_run layerModels this) by first [exact Hthis | exact Hself].
  rewrite bind_run. cbn [LayerModel.mMap].
  erewrite (modifyLayerAt_run _ map mLayers i layer)
    by first [exact Hmap | exact Hlayers | exact Hlayer].
  reflexivity.
Qed.

Lemma push_RenameCommand_run (w : World) (doc : ptr) (d : MapDocument.t)
  (mLayers : list Layer) (i : Z) (s : string) (layer : Layer) :
  constructed w doc d mLayers ->
  Map.layerAt mLayers i = Some layer ->
  push doc (RenameCommand (new_RenameLayer doc i s)) w
  = Returns tt
      (pushed doc d (executed_RenameLayer doc i s layer)
         (made_renamed (MapDocument.layerModel d) (MapDocument.map d)
            mLayers i s layer w)).
Proof.
  intros Hc Hlayer. pose proof Hc as (Hdoc & Hd & Hshows).
  pose proof Hshows as (_ & _ & Hmap & Hlayers & _).
  unfold push.
  rewrite bind_run, (deref_run documents doc d w Hdoc Hd).
  rewrite bind_run. cbn [redo]. unfold RenameLayer_swapName.
  cbn [new_RenameLayer RenameLayer.mMapDocument RenameLayer.mLayerIndex
       RenameLayer.mName RenameLayer.text].
  rewrite bind_run, bind_run, (deref_run documents doc d w Hdoc Hd).
  rewrite bind_run, (layerAt_run w _ mLayers i layer Hmap Hlayers Hlayer).
  rewrite bind_run.
  rewrite (renameLayer_run w _ _ _ mLayers i s layer Hshows Hlayer).
  rewrite !ret_run, bind_run.
  erewrite (deref_run documents doc) by first [exact Hdoc | exact Hd].
  reflexivity.
Qed.

(** C8: on a row that exists, [setData] with [Qt::EditRole] returns true.
    With the name the layer has, it leaves the store as it was: nothing is
    pushed and nothing is emitted.  With another name, all it does is one
    [push] of one [RenameLayer], which the stack stores. *)
Theorem setData_EditRole (w : World) (this doc : ptr)
  (d : MapDocument.t) (mLayers : list Layer) (index : QModelIndex)
  (value : QVariant) (layer : Layer) :
  shows w this doc (MapDocument.map d) mLayers ->
  constructed w doc d mLayers ->
  isValid index = true ->
  Map.layerAt mLayers (layer_of_row mLayers index) = Some layer ->
  let layerIndex := layer_of_row mLayers index in
  let newName := toString value in
  (newName = name layer ->
   setData this index value Qt.EditRole w = Returns true w) /\
  (newName <> name layer ->
   setData this index value Qt.EditRole w
   = (push doc (RenameCommand (new_RenameLayer doc layerIndex newName));;
      mret true) w /\
   setData this index value Qt.EditRole w
   = Returns true
       (pushed doc d (executed_RenameLayer doc layerIndex newName layer)
          (made_renamed (MapDocument.layerModel d) (MapDocument.map d)
             mLayers layerIndex newName layer w)) /\
   (d_macro_stack (MapDocument.undoStack d) = [] ->
    d_command_list
      (QUndoStack_store (MapDocument.undoStack d)
         (executed_RenameLayer doc layerIndex newName layer))
    = take (Z.to_nat (d_index (MapDocument.undoStack d)))
        (d_command_list (MapDocument.undoStack d))
      ++ [executed_RenameLayer doc layerIndex newName layer])).
Proof.
  intros Hshows Hc Hvalid Hlayer layerIndex newName.
  destruct (setData_layer w this doc _ mLayers index layer Hshows Hvalid Hlayer)
    as (Hindex & Hpos & Hself & Hat).
  assert (Hstart :
            setData this index value Qt.EditRole w
            = ((if negb (String.eqb (name layer) newName)
                then push doc
                       (RenameCommand
                          (new_RenameLayer doc layerIndex newName))
                else mret tt);; mret true) w).
  { unfold setData. rewrite bind_run, Hindex, Hpos.
    rewrite bind_run, Hself, bind_run. cbn [LayerModel.mMap].
    rewrite Hat. reflexivity. }
  split.
  - intros Hsame. rewrite Hstart, Hsame, String.eqb_refl. reflexivity.
  - intros Hdiff.
    assert (Hne : String.eqb (name layer) newName = false)
      by (apply String.eqb_neq; congruence).
    rewrite Hstart, Hne. cbn [negb]. split; [reflexivity|]. split.
    + rewrite bind_run.
      now rewrite (push_RenameCommand_run w doc d mLayers layerIndex newName
                     layer Hc Hlayer).
    + intros Hclosed.
      now rewrite (QUndoStack_store_closed _
                     (executed_RenameLayer doc layerIndex newName layer)
                     Hclosed eq_refl).
Qed.

Lemma setData_EditRole_witness :
  setData 3%N (example_index 0) (example_variant_text "sky")
    Qt.EditRole example_world
  = Returns true example_world /\
  setData 3%N (example_index 0) (example_variant_text "clouds")
    Qt.EditRole example_world
  = Returns true
      (pushed 1%N example_document
         (executed_RenameLayer 1%N 2 "clouds"
            (example_layer "sky" true ImageLayerType))
         (made_renamed 3%N 2%N example_layers 2 "clouds"
            (example_layer "sky" true ImageLayerType) example_world)).
Proof.
  pose proof (fun value =>
                setData_EditRole example_world 3%N 1%N
                  example_document example_layers (example_index 0) value
                  (example_layer "sky" true ImageLayerType)
                  example_world_shows example_world_constructed
                  eq_refl eq_refl) as H.
  split.
  - apply (proj1 (H (example_variant_text "sky"))). reflexivity.
  - apply (proj2 (H (example_variant_text "clouds"))). discriminate.
Defined.

(** * Further properties *)

(** ** Rows that are not there *)

Lemma toLayerIndex_past_end (w : World) (this doc map : ptr)
  (mLayers : list Layer) (index : QModelIndex) :
  shows w this doc map mLayers ->
  isValid index = true ->
  Map.layerCount mLayers <= row index <= Int.max_int ->
  toLayerIndex this index w
  = Returns (Map.layerCount mLayers - row index - 1) w.
Proof.
  intros Hshows Hvalid Hrow.
  rewrite (toLayerIndex_run w this doc map mLayers index Hshows Hvalid).
  destruct Hshows as (_ & _ & _ & _ & Hmax).
  f_equal. unfold Int.sub.
  assert (Hn : 0 <= Map.layerCount mLayers)
    by (unfold Map.layerCount; lia).
  rewrite (wrap_small (Map.layerCount mLayers - row index))
    by (unfold Int.min_int, Int.max_int in *; lia).
  apply wrap_small. unfold Int.min_int, Int.max_int in *. lia.
Qed.

(** [setData] and [data] on an index that is not valid touch nothing, not
    even the model's own pointers; on a valid index whose row is past the
    last layer they find a negative layer index.  Either way [setData]
    returns false, [data] returns the empty variant, and the store is
    left as it was. *)
Theorem setData_data_no_such_row (w : World) (this : ptr)
  (index : QModelIndex) (value : QVariant) (role : Z) :
  (isValid index = false ->
   setData this index value role w = Returns false w /\
   data this index role w = Returns Invalid w) /\
  (forall (doc map : ptr) (mLayers : list Layer),
     shows w this doc map mLayers ->
     isValid index = true ->
     Map.layerCount mLayers <= row index <= Int.max_int ->
     setData this index value role w = Returns false w /\
     data this index role w = Returns Invalid w).
Proof.
  split.
  - intros Hinvalid. unfold setData, data, toLayerIndex.
    rewrite Hinvalid. split; reflexivity.
  - intros doc map mLayers Hshows Hvalid Hrow.
    pose proof (toLayerIndex_past_end w this doc map mLayers index
                  Hshows Hvalid Hrow) as Hindex.
    unfold setData, data. rewrite !bind_run, Hindex.
    replace (Map.layerCount mLayers - row index - 1 <? 0) with true by cmp.
    split; reflexivity.
Qed.

Lemma setData_data_no_such_row_witness :
  (setData 3%N QModelIndex_invalid (example_variant_int 2)
     Qt.CheckStateRole example_world = Returns false example_world /\
   data 3%N QModelIndex_invalid Qt.DisplayRole example_world
   = Returns Invalid example_world) /\
  (setData 3%N (example_index 3) (example_variant_int 2)
     Qt.CheckStateRole example_world = Returns false example_world /\
   data 3%N (example_index 3) Qt.CheckStateRole example_world
   = Returns Invalid example_world).
Proof.
  split.
  - apply (proj1 (setData_data_no_such_row example_world 3%N
                    QModelIndex_invalid (example_variant_int 2)
                    Qt.CheckStateRole)).
    reflexivity.
  - apply (proj2 (setData_data_no_such_row example_world 3%N
                    (example_index 3) (example_variant_int 2)
                    Qt.CheckStateRole)
             1%N 2%N example_layers example_world_shows).
    + reflexivity.
    + vm_compute. split; congruence.
Defined.

(** ** Roles [setData] does not know *)

(** On a row that exists, [setData] with a role other than
    [Qt::CheckStateRole], [OpacityRole] and [Qt::EditRole] returns false and
    leaves the store as it was; [Qt::DisplayRole], which [data] answers with
    the name, is such a role. *)
Theorem setData_other_role (w : World) (this doc map : ptr)
  (mLayers : list Layer) (index : QModelIndex) (value : QVariant)
  (role : Z) (layer : Layer) :
  shows w this doc map mLayers ->
  isValid index = true ->
  Map.layerAt mLayers (layer_of_row mLayers index) = Some layer ->
  role <> Qt.CheckStateRole -> role <> OpacityRole -> role <> Qt.EditRole ->
  setData this index value role w = Returns false w.
Proof.
  intros Hshows Hvalid Hlayer Hcheck Hopacity Hedit.
  destruct (setData_layer w this doc map mLayers index layer
              Hshows Hvalid Hlayer) as (Hindex & Hpos & Hself & Hat).
  unfold setData. rewrite bind_run, Hindex, Hpos.
  rewrite bind_run, Hself, bind_run. cbn [LayerModel.mMap]. rewrite Hat.
  replace (role =? Qt.CheckStateRole) with false by cmp.
  replace (role =? OpacityRole) with false by cmp.
  replace (role =? Qt.EditRole) with false by cmp.
  reflexivity.
Qed.

Lemma setData_other_role_witness :
  setData 3%N (example_index 0) (example_variant_text "clouds")
    Qt.DisplayRole example_world
  = Returns false example_world.
Proof.
  apply (setData_other_role example_world 3%N 1%N 2%N example_layers
           (example_index 0) (example_variant_text "clouds") Qt.DisplayRole
           (example_layer "sky" true ImageLayerType) example_world_shows);
    first [reflexivity | discriminate].
Defined.

(** ** Reading the model *)

Lemma layerAt_reverse (mLayers : list Layer) (r : nat) (layer : Layer) :
  reverse mLayers !! r = Some layer ->
  Map.layerAt mLayers (Map.layerCount mLayers - Z.of_nat r - 1) = Some layer.
Proof.
  intros H. apply reverse_lookup_Some in H as [Hl Hr].
  unfold Map.layerAt, Map.in_range, Map.layerCount.
  replace (0 <=? Z.of_nat (length mLayers) - Z.of_nat r - 1) with true by cmp.
  replace (Z.of_nat (length mLayers) - Z.of_nat r - 1
           <? Z.of_nat (length mLayers)) with true by cmp.
  cbn.
  replace (Z.to_nat (Z.of_nat (length mLayers) - Z.of_nat r - 1))
    with (length mLayers - S r)%nat by lia.
  exact Hl.
Qed.

Lemma rowCount_run (w : World) (this doc map : ptr) (mLayers : list Layer) :
  shows w this doc map mLayers ->
  rowCount this QModelIndex_invalid w
  = Returns (Map.layerCount mLayers) w.
Proof.
  intros (Hthis & Hself & Hmap & Hlayers & _). unfold rowCount.
  rewrite bind_run, (deref_run layerModels this _ w Hthis Hself).
  cbn. rewrite Hmap. cbn. now apply layerCount_run.
Qed.

Lemma data_run (w : World) (this doc map : ptr) (mLayers : list Layer)
  (index : QModelIndex) (role : Z) (layer : Layer) :
  shows w this doc map mLayers ->
  isValid index = true ->
  Map.layerAt mLayers (layer_of_row mLayers index) = Some layer ->
  data this index role w = Returns (answer role layer) w.
Proof.
  intros Hshows Hvalid Hlayer.
  destruct (setData_layer w this doc map mLayers index layer
              Hshows Hvalid Hlayer) as (Hindex & Hpos & Hself & Hat).
  unfold data, answer. rewrite bind_run, Hindex, Hpos.
  rewrite bind_run, Hself, bind_run. cbn [LayerModel.mMap]. rewrite Hat.
  destruct ((role =? Qt.DisplayRole) || (role =? Qt.EditRole));
    [reflexivity|].
  destruct (role =? Qt.DecorationRole); [now destruct (type layer)|].
  destruct (role =? Qt.CheckStateRole); [reflexivity|].
  now destruct (role =? OpacityRole).
Qed.

(** The model lists the layers top first: it has as many rows as the map
    has layers, and row [r] reads the [r]-th layer of the reversed layer
    list, its name for the display and edit roles, its visibility as a
    check state, its opacity, and the icon of its type; reading leaves the
    store as it was. *)
Theorem data_rows_top_first (w : World) (this doc map : ptr)
  (mLayers : list Layer) :
  shows w this doc map mLayers ->
  rowCount this QModelIndex_invalid w = Returns (Map.layerCount mLayers) w /\
  forall (r : nat) (layer : Layer) (index : QModelIndex),
    reverse mLayers !! r = Some layer ->
    isValid index = true ->
    row index = Z.of_nat r ->
    data this index Qt.DisplayRole w = Returns (OfString (name layer)) w /\
    data this index Qt.EditRole w = Returns (OfString (name layer)) w /\
    data this index Qt.CheckStateRole w
    = Returns (OfInt (if isVisible layer then Qt.Checked else Qt.Unchecked))
        w /\
    data this index OpacityRole w = Returns (OfFloat (opacity layer)) w /\
    data this index Qt.DecorationRole w
    = Returns (OfIcon match type layer with
                      | TileLayerType => mTileLayerIcon
                      | ObjectGroupType => mObjectGroupIcon
                      | ImageLayerType => mImageLayerIcon
                      end) w.
Proof.
  intros Hshows. split; [now apply (rowCount_run w this doc map)|].
  intros r layer index Hr Hvalid Hrow.
  assert (Hlayer : Map.layerAt mLayers (layer_of_row mLayers index)
                   = Some layer).
  { unfold layer_of_row. rewrite Hrow. now apply layerAt_reverse. }
  pose proof (fun role => data_run w this doc map mLayers index role layer
                            Hshows Hvalid Hlayer) as Hdata.
  repeat split; rewrite Hdata; reflexivity.
Qed.

Lemma data_rows_top_first_witness :
  rowCount 3%N QModelIndex_invalid example_world = Returns 3 example_world /\
  data 3%N (example_index 0) Qt.DisplayRole example_world
  = Returns (OfString "sky") example_world.
Proof.
  destruct (data_rows_top_first example_world 3%N 1%N 2%N example_layers
              example_world_shows) as [Hcount Hrows].
  split; [exact Hcount|].
  apply (Hrows 0%nat (example_layer "sky" true ImageLayerType)
           (example_index 0)); reflexivity.
Defined.

(** ** Writing, then reading *)

Lemma layer_of_row_replaced (mLayers : list Layer) (i : Z) (l : Layer)
  (index : QModelIndex) :
  layer_of_row (Map.replaceLayerAt mLayers i l) index
  = layer_of_row mLayers index.
Proof. unfold layer_of_row. now rewrite replaceLayerAt_count. Qed.

(** A model that showed the layers of the document's map shows the
    changed layers once a command has changed one and the stack has stored
    the command. *)
Lemma shows_pushed (w w1 : World) (this doc : ptr) (d : MapDocument.t)
  (mLayers : list Layer) (i : Z) (l : Layer) (cmd : QUndoCommand) :
  shows w this doc (MapDocument.map d) mLayers ->
  layerModels w1 = layerModels w ->
  maps w1
  = <[MapDocument.map d := Map.replaceLayerAt mLayers i l]> (maps w) ->
  shows (pushed doc d cmd w1) this doc (MapDocument.map d)
    (Map.replaceLayerAt mLayers i l).
Proof.
  intros (Hthis & Hself & Hmap & Hlayers & Hmax) Hmodels Hmaps.
  repeat split; try assumption.
  - cbn. now rewrite Hmodels.
  - cbn. rewrite Hmaps. apply lookup_insert_eq.
  - now rewrite replaceLayerAt_count.
Qed.

Lemma setData_CheckStateRole_run (w : World) (this doc : ptr)
  (d : MapDocument.t) (mLayers : list Layer) (index : QModelIndex)
  (value : QVariant) (layer : Layer) :
  shows w this doc (MapDocument.map d) mLayers ->
  constructed w doc d mLayers ->
  isValid index = true ->
  Map.layerAt mLayers (layer_of_row mLayers index) = Some layer ->
  setData this index value Qt.CheckStateRole w
  = if Bool.eqb (toInt value =? Qt.Checked) (isVisible layer)
    then Returns true w
    else Returns true
           (pushed doc d
              (executed_SetLayerVisible doc (layer_of_row mLayers index)
                 (toInt value =? Qt.Checked) layer)
              (made_visible (MapDocument.layerModel d) (MapDocument.map d)
                 mLayers (layer_of_row mLayers index)
                 (toInt value =? Qt.Checked) layer w)).
Proof.
  intros Hshows Hc Hvalid Hlayer.
  destruct (setData_layer w this doc _ mLayers index layer Hshows Hvalid Hlayer)
    as (Hindex & Hpos & Hself & Hat).
  unfold setData. rewrite bind_run, Hindex, Hpos.
  rewrite bind_run, Hself, bind_run. cbn [LayerModel.mMap]. rewrite Hat.
  change (Qt.CheckStateRole =? Qt.CheckStateRole) with true.
  cbn [LayerModel.mMapDocument].
  destruct (Bool.eqb (toInt value =? Qt.Checked) (isVisible layer));
    [reflexivity|].
  cbn [negb]. rewrite bind_run.
  now rewrite (push_VisibleCommand_run w doc d mLayers _ _ layer Hc Hlayer).
Qed.

(** After [setData] with [Qt::CheckStateRole] on a row that exists, [data]
    reads back [Qt::Checked] when [Qt::Checked] was written and
    [Qt::Unchecked] for every other value written, [Qt::PartiallyChecked]
    among them. *)
Theorem setData_data_CheckStateRole (w : World) (this doc : ptr)
  (d : MapDocument.t) (mLayers : list Layer) (index : QModelIndex)
  (value : QVariant) (layer : Layer) :
  shows w this doc (MapDocument.map d) mLayers ->
  constructed w doc d mLayers ->
  isValid index = true ->
  Map.layerAt mLayers (layer_of_row mLayers index) = Some layer ->
  exists w' : World,
    setData this index value Qt.CheckStateRole w = Returns true w' /\
    data this index Qt.CheckStateRole w'
    = Returns (OfInt (if toInt value =? Qt.Checked
                      then Qt.Checked else Qt.Unchecked)) w'.
Proof.
  intros Hshows Hc Hvalid Hlayer.
  rewrite (setData_CheckStateRole_run w this doc d mLayers index value layer
             Hshows Hc Hvalid Hlayer).
  destruct (Bool.eqb (toInt value =? Qt.Checked) (isVisible layer)) eqn:Hsame.
  - exists w. split; [reflexivity|].
    rewrite (data_run w this doc _ mLayers index _ layer Hshows Hvalid Hlayer).
    apply Bool.eqb_prop in Hsame. unfold answer. cbn. now rewrite Hsame.
  - eexists. split; [reflexivity|].
    rewrite (data_run _ this doc (MapDocument.map d)
               (Map.replaceLayerAt mLayers (layer_of_row mLayers index)
                  (setVisible (toInt value =? Qt.Checked) layer))
               index _ (setVisible (toInt value =? Qt.Checked) layer)).
    + reflexivity.
    + now apply (shows_pushed w).
    + exact Hvalid.
    + rewrite layer_of_row_replaced. now apply (layerAt_replaced _ _ layer).
Qed.

Lemma setData_data_CheckStateRole_witness :
  exists w' : World,
    setData 3%N (example_index 0) (example_variant_int Qt.PartiallyChecked)
      Qt.CheckStateRole example_world = Returns true w' /\
    data 3%N (example_index 0) Qt.CheckStateRole w'
    = Returns (OfInt Qt.Unchecked) w'.
Proof.
  apply (setData_data_CheckStateRole example_world 3%N 1%N example_document
           example_layers (example_index 0)
           (example_variant_int Qt.PartiallyChecked)
           (example_layer "sky" true ImageLayerType)
           example_world_shows example_world_constructed eq_refl eq_refl).
Defined.

Lemma setData_OpacityRole_run (w : World) (this doc : ptr)
  (d : MapDocument.t) (mLayers : list Layer) (index : QModelIndex)
  (value : QVariant) (layer : Layer) (o : Fp.qreal) :
  shows w this doc (MapDocument.map d) mLayers ->
  constructed w doc d mLayers ->
  isValid index = true ->
  Map.layerAt mLayers (layer_of_row mLayers index) = Some layer ->
  toDouble value = (o, true) ->
  setData this index value OpacityRole w
  = if Fp.ne (Fp.to_qreal (opacity layer)) o
    then Returns true
           (pushed doc d
              (OpacityCommand
                 (created_SetLayerOpacity doc (layer_of_row mLayers index)
                    (Fp.to_float o) layer))
              (made_opaque (MapDocument.layerModel d) (MapDocument.map d)
                 mLayers (layer_of_row mLayers index) (Fp.to_float o)
                 layer w))
    else Returns true w.
Proof.
  intros Hshows Hc Hvalid Hlayer Hvalue.
  destruct (setData_layer w this doc _ mLayers index layer Hshows Hvalid Hlayer)
    as (Hindex & Hpos & Hself & Hat).
  unfold setData. rewrite bind_run, Hindex, Hpos.
  rewrite bind_run, Hself, bind_run. cbn [LayerModel.mMap]. rewrite Hat.
  change (OpacityRole =? Qt.CheckStateRole) with false.
  change (OpacityRole =? OpacityRole) with true.
  cbn [LayerModel.mMapDocument]. rewrite Hvalue.
  destruct (Fp.ne (Fp.to_qreal (opacity layer)) o); [|reflexivity].
  rewrite bind_run.
  now rewrite (push_OpacityCommand_run w doc d mLayers _ _ layer Hc Hlayer).
Qed.

(** After [setData] with [OpacityRole] and a number that differs from the
    layer's opacity, [data] reads back the number rounded to a [float], not
    the number written; with a number that does not differ it reads back
    the opacity the layer had. *)
Theorem setData_data_OpacityRole (w : World) (this doc : ptr)
  (d : MapDocument.t) (mLayers : list Layer) (index : QModelIndex)
  (value : QVariant) (layer : Layer) (o : Fp.qreal) :
  shows w this doc (MapDocument.map d) mLayers ->
  constructed w doc d mLayers ->
  isValid index = true ->
  Map.layerAt mLayers (layer_of_row mLayers index) = Some layer ->
  toDouble value = (o, true) ->
  exists w' : World,
    setData this index value OpacityRole w = Returns true w' /\
    data this index OpacityRole w'
    = Returns (OfFloat (if Fp.ne (Fp.to_qreal (opacity layer)) o
                        then Fp.to_float o else opacity layer)) w'.
Proof.
  intros Hshows Hc Hvalid Hlayer Hvalue.
  rewrite (setData_OpacityRole_run w this doc d mLayers index value layer o
             Hshows Hc Hvalid Hlayer Hvalue).
  destruct (Fp.ne (Fp.to_qreal (opacity layer)) o).
  - eexists. split; [reflexivity|].
    rewrite (data_run _ this doc (MapDocument.map d)
               (Map.replaceLayerAt mLayers (layer_of_row mLayers index)
                  (setOpacity (Fp.to_float o) layer))
               index _ (setOpacity (Fp.to_float o) layer)).
    + reflexivity.
    + now apply (shows_pushed w).
    + exact Hvalid.
    + rewrite layer_of_row_replaced. now apply (layerAt_replaced _ _ layer).
  - exists w. split; [reflexivity|].
    now rewrite (data_run w this doc _ mLayers index _ layer Hshows Hvalid
                   Hlayer).
Qed.

Lemma setData_data_OpacityRole_witness :
  exists w' : World,
    setData 3%N (example_index 0) (example_variant_number double_0_2)
      OpacityRole example_world = Returns true w' /\
    data 3%N (example_index 0) OpacityRole w'
    = Returns (OfFloat float_0_2) w'.
Proof.
  apply (setData_data_OpacityRole example_world 3%N 1%N example_document
           example_layers (example_index 0)
           (example_variant_number double_0_2)
           (example_layer "sky" true ImageLayerType) double_0_2
           example_world_shows example_world_constructed
           eq_refl eq_refl eq_refl).
Defined.

(** ** Item flags *)

Lemma checkable_editable_bits (n : Z) :
  Z.testbit (Z.lor ItemFlag.ItemIsUserCheckable ItemFlag.ItemIsEditable) n
  = (n =? 1) || (n =? 4).
Proof.
  change (Z.lor ItemFlag.ItemIsUserCheckable ItemFlag.ItemIsEditable)
    with 18.
  destruct (Z.lt_ge_cases n 0) as [Hneg|Hpos].
  - rewrite Z.testbit_neg_r by assumption.
    replace (n =? 1) with false by cmp. now replace (n =? 4) with false by cmp.
  - destruct (Z.lt_ge_cases 4 n) as [Hbig|Hsmall].
    + rewrite Z.bits_above_log2 by (cbn; lia).
      replace (n =? 1) with false by cmp.
      now replace (n =? 4) with false by cmp.
    + assert (Hn : n = 0 \/ n = 1 \/ n = 2 \/ n = 3 \/ n = 4) by lia.
      destruct Hn as [->|[->|[->|[->| ->]]]]; reflexivity.
Qed.

(** [flags] adds the user-checkable and the editable bit to what the base
    class gives, for an index in column 0 and for no other; every other bit
    is the base class's. *)
Theorem flags_adds_two_bits_in_column_0 (base : Z) (index : QModelIndex)
  (n : Z) :
  Z.testbit (flags base index) n
  = Z.testbit base n || ((column index =? 0) && ((n =? 1) || (n =? 4))).
Proof.
  unfold flags. destruct (column index =? 0).
  - now rewrite Z.lor_spec, checkable_editable_bits.
  - cbn. now rewrite orb_false_r.
Qed.

(** ** Putting a layer in *)

Lemma row_of_new_layer (n i : Z) :
  0 <= n < Int.max_int -> 0 <= i <= n ->
  Int.add (Int.sub (Int.sub n i) 1) 1 = n - i.
Proof.
  intros Hn Hi. unfold Int.add, Int.sub.
  rewrite (wrap_small (n - i))
    by (unfold Int.min_int, Int.max_int in *; lia).
  rewrite (wrap_small (n - i - 1))
    by (unfold Int.min_int, Int.max_int in *; lia).
  rewrite wrap_small by (unfold Int.min_int, Int.max_int in *; lia).
  lia.
Qed.

Lemma insertLayer_run (w : World) (this doc map : ptr)
  (mLayers : list Layer) (i : Z) (layer : Layer) :
  shows w this doc map mLayers ->
  Map.layerCount mLayers < Int.max_int ->
  0 <= i <= Map.layerCount mLayers ->
  insertLayer this i layer w
  = Returns tt (made_inserted this map mLayers i layer w).
Proof.
  intros Hshows Hroom Hi.
  pose proof Hshows as (Hthis & Hself & Hmap & Hlayers & Hmax).
  unfold insertLayer, beginInsertRows, endInsertRows.
  rewrite bind_run, (layerIndexToRow_run w this doc map mLayers i Hshows).
  rewrite row_of_new_layer by (unfold Map.layerCount in *; lia).
  rewrite bind_run. cbn [emit]. rewrite bind_run.
  erewrite (deref_run layerModels this) by first [exact Hthis | exact Hself].
  rewrite bind_run. cbn [LayerModel.mMap].
  erewrite (deref_run maps map) by first [exact Hmap | exact Hlayers].
  reflexivity.
Qed.

Lemma insertLayer_count (mLayers : list Layer) (i : Z) (layer : Layer) :
  Map.layerCount (Map.insertLayer mLayers i layer)
  = Map.layerCount mLayers + 1.
Proof.
  unfold Map.layerCount, Map.insertLayer. destruct (i <=? 0).
  - cbn [length]. lia.
  - rewrite length_app. cbn [length]. rewrite length_take, length_drop. lia.
Qed.

Lemma insertLayer_split (mLayers : list Layer) (i : Z) (layer : Layer) :
  0 <= i <= Map.layerCount mLayers ->
  Map.insertLayer mLayers i layer
  = take (Z.to_nat i) mLayers ++ layer :: drop (Z.to_nat i) mLayers /\
  length (take (Z.to_nat i) mLayers) = Z.to_nat i.
Proof.
  intros Hi. unfold Map.layerCount in Hi. split.
  - unfold Map.insertLayer. destruct (i <=? 0) eqn:H0; [|reflexivity].
    assert (i = 0) as -> by lia. reflexivity.
  - rewrite length_take. lia.
Qed.

Lemma layerAt_inserted (mLayers : list Layer) (i : Z) (layer : Layer) :
  0 <= i <= Map.layerCount mLayers ->
  Map.layerAt (Map.insertLayer mLayers i layer) i = Some layer.
Proof.
  intros Hi. destruct (insertLayer_split mLayers i layer Hi) as [-> Hlen].
  replace i with (Z.of_nat (length (take (Z.to_nat i) mLayers))) at 3
    by (rewrite Hlen; lia).
  apply layerAt_middle.
Qed.

Lemma shows_made_inserted (w : World) (this doc map : ptr)
  (mLayers : list Layer) (i : Z) (layer : Layer) :
  shows w this doc map mLayers ->
  Map.layerCount mLayers < Int.max_int ->
  shows (made_inserted this map mLayers i layer w) this doc map
    (Map.insertLayer mLayers i layer).
Proof.
  intros (Hthis & Hself & Hmap & Hlayers & Hmax) Hroom.
  repeat split; try assumption.
  - cbn. apply lookup_insert_eq.
  - rewrite insertLayer_count. lia.
Qed.

(** [insertLayer] at a layer index from 0 to the layer count, on a map
    with room for one more layer: the row announced before the insertion
    and reported after it is the row at which the new layer is then read,
    observers of the announcement still see the old layers, and
    [layerAdded] comes last. *)
Theorem insertLayer_announces_its_row (w : World) (this doc map : ptr)
  (mLayers : list Layer) (i : Z) (layer : Layer) :
  shows w this doc map mLayers ->
  Map.layerCount mLayers < Int.max_int ->
  0 <= i <= Map.layerCount mLayers ->
  exists w' : World,
    insertLayer this i layer w = Returns tt w' /\
    maps w' = <[map := Map.insertLayer mLayers i layer]> (maps w) /\
    emitted w'
    = emitted w ++
      insertion_emissions this mLayers (Map.insertLayer mLayers i layer) i /\
    rowCount this QModelIndex_invalid w'
    = Returns (Map.layerCount mLayers + 1) w' /\
    forall index : QModelIndex,
      isValid index = true ->
      row index = Map.layerCount mLayers - i ->
      toLayerIndex this index w' = Returns i w' /\
      data this index Qt.DisplayRole w' = Returns (OfString (name layer)) w'.
Proof.
  intros Hshows Hroom Hi.
  pose proof (shows_made_inserted w this doc map mLayers i layer Hshows Hroom)
    as Hshows'.
  exists (made_inserted this map mLayers i layer w).
  split; [now apply (insertLayer_run w this doc map)|].
  split; [reflexivity|]. split; [|split].
  - cbn. rewrite <- !app_assoc. cbn. unfold insertion_emissions.
    rewrite (observed_shows w this doc map mLayers Hshows).
    repeat f_equal;
      apply (observed_store_maps _ this doc map mLayers); exact Hshows.
  - rewrite (rowCount_run _ this doc map _ Hshows').
    now rewrite insertLayer_count.
  - intros index Hvalid Hrow.
    assert (Hlayer :
              Map.layerAt (Map.insertLayer mLayers i layer)
                (layer_of_row (Map.insertLayer mLayers i layer) index)
              = Some layer).
    { unfold layer_of_row. rewrite insertLayer_count, Hrow.
      replace (Map.layerCount mLayers + 1 - (Map.layerCount mLayers - i) - 1)
        with i by lia.
      now apply layerAt_inserted. }
    destruct (setData_layer _ this doc map _ index layer Hshows' Hvalid Hlayer)
      as (Hindex & _).
    split.
    + rewrite Hindex. f_equal. unfold layer_of_row.
      rewrite insertLayer_count, Hrow. lia.
    + now rewrite (data_run _ this doc map _ index _ layer Hshows' Hvalid
                     Hlayer).
Qed.

Lemma insertLayer_announces_its_row_witness :
  exists w' : World,
    insertLayer 3%N 1 (example_layer "walls" true TileLayerType)
      example_world = Returns tt w' /\
    data 3%N (example_index 2) Qt.DisplayRole w'
    = Returns (OfString "walls") w'.
Proof.
  destruct (insertLayer_announces_its_row example_world 3%N 1%N 2%N
              example_layers 1 (example_layer "walls" true TileLayerType)
              example_world_shows)
    as (w' & Hrun & _ & _ & _ & Hrow).
  - vm_compute. reflexivity.
  - vm_compute. split; congruence.
  - exists w'. split; [exact Hrun|].
    apply (Hrow (example_index 2)); reflexivity.
Defined.

(** ** Putting in and taking out *)

Lemma takeLayerAt_run (w : World) (this doc map : ptr)
  (mLayers : list Layer) (i : Z) (layer : Layer) :
  shows w this doc map mLayers ->
  Map.layerAt mLayers i = Some layer ->
  takeLayerAt this i w = Returns layer (made_taken this map mLayers i w).
Proof.
  intros Hshows Hlayer.
  pose proof Hshows as (Hthis & Hself & Hmap & Hlayers & Hmax).
  destruct (layerAt_in_range _ _ _ Hlayer) as [Hi _].
  unfold takeLayerAt, beginRemoveRows, endRemoveRows.
  rewrite bind_run. cbn [emit].
  rewrite bind_run, (layerIndexToRow_run _ this doc map mLayers)
    by exact Hshows.
  rewrite sub_sub_1 by (unfold Map.layerCount in *; lia).
  rewrite bind_run. cbn [emit]. rewrite bind_run.
  erewrite (deref_run layerModels this) by first [exact Hthis | exact Hself].
  rewrite bind_run. cbn [LayerModel.mMap].
  erewrite (deref_run maps map) by first [exact Hmap | exact Hlayers].
  unfold Map.takeLayerAt. now rewrite Hlayer.
Qed.

Lemma shows_made_taken (w : World) (this doc map : ptr)
  (mLayers : list Layer) (i : Z) :
  shows w this doc map mLayers ->
  shows (made_taken this map mLayers i w) this doc map
    (delete (Z.to_nat i) mLayers).
Proof.
  intros (Hthis & Hself & Hmap & Hlayers & Hmax).
  repeat split; try assumption.
  - cbn. apply lookup_insert_eq.
  - unfold Map.layerCount in *.
    rewrite delete_take_drop, length_app, length_take, length_drop. lia.
Qed.

Lemma delete_inserted (mLayers : list Layer) (i : Z) (layer : Layer) :
  0 <= i <= Map.layerCount mLayers ->
  delete (Z.to_nat i) (Map.insertLayer mLayers i layer) = mLayers.
Proof.
  intros Hi. destruct (insertLayer_split mLayers i layer Hi) as [-> Hlen].
  rewrite <- Hlen at 1. rewrite delete_middle. apply take_drop.
Qed.

Lemma insert_deleted (mLayers : list Layer) (i : Z) (layer : Layer) :
  Map.layerAt mLayers i = Some layer ->
  Map.insertLayer (delete (Z.to_nat i) mLayers) i layer = mLayers.
Proof.
  intros Hlayer. destruct (layerAt_in_range _ _ _ Hlayer) as [Hi Hl].
  unfold Map.layerCount in Hi.
  assert (Hsplit : Map.insertLayer (delete (Z.to_nat i) mLayers) i layer
                   = take (Z.to_nat i) (delete (Z.to_nat i) mLayers)
                     ++ layer :: drop (Z.to_nat i) (delete (Z.to_nat i) mLayers)).
  { apply insertLayer_split. unfold Map.layerCount.
    pose proof (length_delete mLayers (Z.to_nat i) (mk_is_Some _ _ Hl))
      as Hlen.
    lia. }
  rewrite Hsplit, delete_take_drop.
  rewrite take_app_length' by (rewrite length_take; lia).
  rewrite drop_app_length' by (rewrite length_take; lia).
  now apply take_drop_middle.
Qed.

(** [insertLayer] and [takeLayerAt] undo each other on the layers: taking
    out at the index just inserted at returns the inserted layer and leaves
    every map as before the insertion, and inserting a layer back at the
    index it was taken from leaves every map as before the removal. *)
Theorem insertLayer_takeLayerAt_inverse (w : World) (this doc map : ptr)
  (mLayers : list Layer) (i : Z) (layer : Layer) :
  shows w this doc map mLayers ->
  (Map.layerCount mLayers < Int.max_int ->
   0 <= i <= Map.layerCount mLayers ->
   exists w1 w2 : World,
     insertLayer this i layer w = Returns tt w1 /\
     takeLayerAt this i w1 = Returns layer w2 /\
     maps w2 = maps w /\
     documents w2 = documents w /\
     layerModels w2 = layerModels w) /\
  (Map.layerAt mLayers i = Some layer ->
   exists w1 w2 : World,
     takeLayerAt this i w = Returns layer w1 /\
     insertLayer this i layer w1 = Returns tt w2 /\
     maps w2 = maps w /\
     documents w2 = documents w /\
     layerModels w2 = layerModels w).
Proof.
  intros Hshows.
  pose proof Hshows as (_ & _ & _ & Hlayers & Hmax).
  split.
  - intros Hroom Hi.
    pose proof (shows_made_inserted w this doc map mLayers i layer Hshows
                  Hroom) as Hshows1.
    eexists _, _.
    split; [apply (insertLayer_run w this doc map mLayers); assumption|].
    split.
    + apply (takeLayerAt_run _ this doc map _ i layer Hshows1).
      now apply layerAt_inserted.
    + cbn. rewrite insert_insert_eq, delete_inserted by assumption.
      repeat split. now apply insert_id.
  - intros Hlayer.
    destruct (layerAt_in_range _ _ _ Hlayer) as [Hi Hl].
    pose proof (shows_made_taken w this doc map mLayers i Hshows) as Hshows1.
    assert (Hcount : Map.layerCount (delete (Z.to_nat i) mLayers)
                     = Map.layerCount mLayers - 1).
    { unfold Map.layerCount.
      pose proof (length_delete mLayers (Z.to_nat i) (mk_is_Some _ _ Hl))
        as Hlen.
      unfold Map.layerCount in Hi. lia. }
    eexists _, _.
    split; [apply (takeLayerAt_run w this doc map mLayers); assumption|].
    split.
    + apply (insertLayer_run _ this doc map _ i layer Hshows1); lia.
    + cbn. rewrite insert_insert_eq, insert_deleted by assumption.
      repeat split. now apply insert_id.
Qed.

Lemma insertLayer_takeLayerAt_inverse_witness :
  exists w1 w2 : World,
    takeLayerAt 3%N 1 example_world
    = Returns (example_layer "objects" true ObjectGroupType) w1 /\
    insertLayer 3%N 1 (example_layer "objects" true ObjectGroupType) w1
    = Returns tt w2 /\
    maps w2 = maps example_world /\
    documents w2 = documents example_world /\
    layerModels w2 = layerModels example_world.
Proof.
  apply (proj2 (insertLayer_takeLayerAt_inverse example_world 3%N 1%N 2%N
                  example_layers 1
                  (example_layer "objects" true ObjectGroupType)
                  example_world_shows)).
  reflexivity.
Defined.

(** ** Opacity commands: redo, undo and merging *)

Lemma setOpacity_back (o : Fp.float) (layer : Layer) :
  setOpacity (opacity layer) (setOpacity o layer) = layer.
Proof. now destruct layer. Qed.

Lemma new_SetLayerOpacity_run (w : World) (doc : ptr) (d : MapDocument.t)
  (mLayers : list Layer) (i : Z) (o : Fp.float) (layer : Layer) :
  constructed w doc d mLayers ->
  Map.layerAt mLayers i = Some layer ->
  new_SetLayerOpacity doc i o w
  = Returns (created_SetLayerOpacity doc i o layer) w.
Proof.
  intros (Hdoc & Hd & _ & _ & Hmap & Hlayers & _) Hlayer.
  unfold new_SetLayerOpacity.
  rewrite bind_run, (deref_run documents doc d w Hdoc Hd).
  now rewrite bind_run, (layerAt_run w _ mLayers i layer Hmap Hlayers Hlayer).
Qed.

(** An opacity command built by its constructor remembers the opacity the
    layer has at that moment.  [redo] gives the layer the new opacity, a
    second [redo] changes no layer, and [undo] after [redo] leaves every
    layer of every map as it was when the command was built; the command
    itself never changes. *)
Theorem SetLayerOpacity_redo_undo (w : World) (doc : ptr)
  (d : MapDocument.t) (mLayers : list Layer) (i : Z) (o : Fp.float)
  (layer : Layer) :
  constructed w doc d mLayers ->
  Map.layerAt mLayers i = Some layer ->
  exists (c : SetLayerOpacity.t) (w1 w2 w3 : World),
    new_SetLayerOpacity doc i o w = Returns c w /\
    SetLayerOpacity.mOldOpacity c = opacity layer /\
    SetLayerOpacity_redo c w = Returns tt w1 /\
    layerAt (MapDocument.map d) i w1 = Returns (setOpacity o layer) w1 /\
    SetLayerOpacity_redo c w1 = Returns tt w2 /\
    maps w2 = maps w1 /\
    SetLayerOpacity_undo c w1 = Returns tt w3 /\
    maps w3 = maps w.
Proof.
  intros Hc Hlayer.
  set (c := created_SetLayerOpacity doc i o layer).
  pose proof (constructed_made_opaque w doc d mLayers i o layer Hc) as Hc1.
  pose proof (layerAt_replaced mLayers i layer (setOpacity o layer) Hlayer)
    as Hlayer1.
  pose proof Hc as (_ & _ & _ & _ & _ & Hlayers & _).
  pose proof Hc1 as (_ & _ & _ & _ & Hmap1 & Hlayers1 & _).
  exists c. eexists _, _, _.
  split; [now apply (new_SetLayerOpacity_run w doc d mLayers)|].
  split; [reflexivity|].
  split; [exact (SetLayerOpacity_setOpacity_run w d mLayers c _ layer Hc
                   Hlayer)|].
  split; [exact (layerAt_run _ _ _ _ _ Hmap1 Hlayers1 Hlayer1)|].
  split; [exact (SetLayerOpacity_setOpacity_run _ d _ c _ _ Hc1 Hlayer1)|].
  split.
  - cbn. rewrite insert_insert_eq. unfold Map.replaceLayerAt.
    now rewrite list_insert_insert_eq.
  - split; [exact (SetLayerOpacity_setOpacity_run _ d _ c _ _ Hc1 Hlayer1)|].
    cbn. rewrite insert_insert_eq, setOpacity_back.
    rewrite (replaceLayerAt_back mLayers i layer _ Hlayer).
    now apply insert_id.
Qed.

Lemma SetLayerOpacity_redo_undo_witness :
  exists (c : SetLayerOpacity.t) (w1 w2 w3 : World),
    new_SetLayerOpacity 1%N 0 float_0_5 example_world
    = Returns c example_world /\
    SetLayerOpacity.mOldOpacity c
    = opacity (example_layer "ground" false TileLayerType) /\
    SetLayerOpacity_redo c example_world = Returns tt w1 /\
    layerAt 2%N 0 w1
    = Returns (setOpacity float_0_5
                 (example_layer "ground" false TileLayerType)) w1 /\
    SetLayerOpacity_redo c w1 = Returns tt w2 /\
    maps w2 = maps w1 /\
    SetLayerOpacity_undo c w1 = Returns tt w3 /\
    maps w3 = maps example_world.
Proof.
  apply (SetLayerOpacity_redo_undo example_world 1%N example_document
           example_layers 0 float_0_5
           (example_layer "ground" false TileLayerType)).
  - exact example_world_constructed.
  - reflexivity.
Defined.

Lemma mergeWith_same_target (a b : SetLayerOpacity.t) :
  same_target a b ->
  SetLayerOpacity_mergeWith a b
  = (with_mNewOpacity a (SetLayerOpacity.mNewOpacity b), true).
Proof.
  intros Hsame. apply same_target_dec in Hsame.
  unfold SetLayerOpacity_mergeWith. now rewrite Hsame.
Qed.

Lemma merge_all_same_target (bs : list SetLayerOpacity.t) :
  forall (a : SetLayerOpacity.t) (b : SetLayerOpacity.t),
    Forall (same_target a) (bs ++ [b]) ->
    merge_all a (bs ++ [b])
    = with_mNewOpacity a (SetLayerOpacity.mNewOpacity b).
Proof.
  induction bs as [|x xs IH]; intros a b Hall.
  - apply Forall_inv in Hall. unfold merge_all. cbn.
    now rewrite mergeWith_same_target.
  - cbn [app] in Hall. apply Forall_cons in Hall as [Hx Hrest].
    unfold merge_all in *. cbn [app fold_left].
    rewrite (mergeWith_same_target a x Hx). cbn [fst].
    rewrite IH; [reflexivity|].
    eapply Forall_impl; [exact Hrest|]. intros c Hc. exact Hc.
Qed.

(** Merging a run of opacity commands that all aim at the layer of the
    first one, one after the other, gives the first command with the new
    opacity of the last: what lay in between is forgotten, and the old
    opacity, the label and the target stay those of the first. *)
Theorem SetLayerOpacity_mergeWith_run (a : SetLayerOpacity.t)
  (bs : list SetLayerOpacity.t) (b : SetLayerOpacity.t) :
  Forall (same_target a) (bs ++ [b]) ->
  merge_all a (bs ++ [b])
  = with_mNewOpacity a (SetLayerOpacity.mNewOpacity b) /\
  merge_all a (bs ++ [b]) = fst (SetLayerOpacity_mergeWith a b).
Proof.
  intros Hall. split; [now apply merge_all_same_target|].
  rewrite merge_all_same_target by assumption.
  rewrite mergeWith_same_target; [reflexivity|].
  apply Forall_app in Hall as [_ Hb]. now apply Forall_inv in Hb.
Qed.

Lemma SetLayerOpacity_mergeWith_run_witness :
  merge_all (example_SetLayerOpacity float_0_2 float_0_5)
    ([example_SetLayerOpacity float_0_5 float_0_8]
     ++ [example_SetLayerOpacity float_0_8 float_0_2])
  = with_mNewOpacity (example_SetLayerOpacity float_0_2 float_0_5) float_0_2.
Proof.
  destruct (SetLayerOpacity_mergeWith_run
              (example_SetLayerOpacity float_0_2 float_0_5)
              [example_SetLayerOpacity float_0_5 float_0_8]
              (example_SetLayerOpacity float_0_8 float_0_2)) as [Hrun _].
  - repeat constructor.
  - exact Hrun.
Defined.

(** ** Opacity edits in a row *)

Lemma same_target_trans (a b c : SetLayerOpacity.t) :
  same_target a b -> same_target b c -> same_target a c.
Proof. intros [H1 H2] [H3 H4]. split; congruence. Qed.

Lemma QUndoStack_store_no_macro (s : QUndoStack) (cmd : QUndoCommand) :
  d_macro_stack s = [] ->
  QUndoStack_store s cmd
  = match merged_into_last s cmd with
    | Some c' =>
        {| d_command_list :=
             <[Z.to_nat (d_index s - 1) := c']>
               (take (Z.to_nat (d_index s)) (d_command_list s));
           d_index := d_index s;
           d_clean_index :=
             if d_index s <? d_clean_index s then -1 else d_clean_index s;
           d_macro_stack := [] |}
    | None =>
        {| d_command_list :=
             take (Z.to_nat (d_index s)) (d_command_list s) ++ [cmd];
           d_index := Int.add (d_index s) 1;
           d_clean_index :=
             if d_index s <? d_clean_index s then -1 else d_clean_index s;
           d_macro_stack := [] |}
    end.
Proof.
  intros Hclosed. unfold QUndoStack_store, merged_into_last.
  rewrite Hclosed. rewrite bool_decide_eq_true_2 by reflexivity.
  cbn [negb andb orb].
  destruct (0 <? d_index s); [|reflexivity].
  destruct (d_command_list s !! Z.to_nat (d_index s - 1)) as [c|];
    [|reflexivity].
  destruct (negb (id c =? -1) && (id c =? id cmd)
            && negb (d_index s =? d_clean_index s)); [|reflexivity].
  destruct (mergeWith c cmd) as [c' ok]. now destruct ok.
Qed.

(** Storing an opacity command on a settled stack leaves a stack that ends
    with an opacity command of the same target and the same new opacity:
    the command itself, or an older one it was merged into. *)
Lemma QUndoStack_store_opacity (s : QUndoStack) (a : SetLayerOpacity.t) :
  settled s ->
  exists a' : SetLayerOpacity.t,
    ends_with (QUndoStack_store s (OpacityCommand a)) a' /\
    same_target a' a /\
    SetLayerOpacity.mNewOpacity a' = SetLayerOpacity.mNewOpacity a /\
    (d_index s = d_clean_index s -> a' = a).
Proof.
  intros (Hclosed & Hindex & Hroom).
  rewrite (QUndoStack_store_no_macro s _ Hclosed).
  destruct (merged_into_last s (OpacityCommand a)) as [c'|] eqn:Hmerged.
  - unfold merged_into_last in Hmerged.
    destruct (0 <? d_index s) eqn:Hpos; [|discriminate].
    destruct (d_command_list s !! Z.to_nat (d_index s - 1)) as [c|] eqn:Hcur;
      [|discriminate].
    destruct (negb (id c =? -1) && (id c =? id (OpacityCommand a))
              && negb (d_index s =? d_clean_index s)) eqn:Htry;
      [|discriminate].
    apply andb_true_iff in Htry as [Hid Hdirty].
    apply negb_true_iff, Z.eqb_neq in Hdirty.
    destruct c as [v|o|r|text children]; try discriminate Hid.
    unfold mergeWith in Hmerged.
    destruct (SetLayerOpacity_mergeWith o a) as [o' ok] eqn:Hmerge.
    destruct ok; [|discriminate]. injection Hmerged as <-.
    unfold SetLayerOpacity_mergeWith in Hmerge.
    destruct (ptr_eq _ _ && (_ =? _)) eqn:Hsame; [|discriminate Hmerge].
    apply same_target_dec in Hsame. cbn [negb] in Hmerge.
    injection Hmerge as <-.
    exists (with_mNewOpacity o (SetLayerOpacity.mNewOpacity a)).
    split; [|split; [exact Hsame|split; [reflexivity|]]].
    + unfold ends_with. cbn [d_command_list d_index d_clean_index
                              d_macro_stack].
      rewrite length_insert, length_take.
      repeat split; try lia.
      * destruct (d_index s <? d_clean_index s) eqn:E; lia.
      * apply list_lookup_insert_eq. rewrite length_take. lia.
    + intros Hclean. contradiction.
  - exists a. split; [|repeat split; reflexivity].
    unfold ends_with. cbn [d_command_list d_index d_clean_index
                            d_macro_stack].
    rewrite add_1 by lia. rewrite length_app, length_take. cbn [length].
    repeat split; try lia.
    + destruct (d_index s <? d_clean_index s) eqn:E; lia.
    + replace (Z.to_nat (d_index s + 1 - 1))
        with (length (take (Z.to_nat (d_index s)) (d_command_list s)))
        by (rewrite length_take; lia).
      now apply list_lookup_middle.
Qed.

(** On a stack that ends with an opacity command, an opacity command of
    the same target is merged into that command and adds none. *)
Lemma QUndoStack_store_merges (s : QUndoStack) (a b : SetLayerOpacity.t) :
  ends_with s a ->
  same_target a b ->
  QUndoStack_store s (OpacityCommand b)
  = with_last s
      (OpacityCommand (with_mNewOpacity a (SetLayerOpacity.mNewOpacity b))).
Proof.
  intros (Hclosed & Hpos & Hlen & Hclean & Hlast) Hsame.
  rewrite (QUndoStack_store_no_macro s _ Hclosed).
  unfold merged_into_last, with_last.
  replace (0 <? d_index s) with true by cmp. rewrite Hlast.
  replace (d_index s <? d_clean_index s) with false by cmp.
  replace (d_index s =? d_clean_index s) with false by cmp.
  cbn [id negb andb]. change (Cmd_ChangeLayerOpacity =? -1) with false.
  rewrite Z.eqb_refl. cbn [negb andb mergeWith].
  rewrite (mergeWith_same_target a b Hsame).
  now rewrite take_ge by lia.
Qed.

Lemma constructed_pushed (w : World) (doc : ptr) (d : MapDocument.t)
  (mLayers : list Layer) (cmd : QUndoCommand) :
  constructed w doc d mLayers ->
  constructed (pushed doc d cmd w) doc
    (with_undoStack d (QUndoStack_store (MapDocument.undoStack d) cmd))
    mLayers.
Proof.
  intros (Hdoc & Hd & Hthis & Hself & Hmap & Hlayers & Hmax).
  repeat split; try assumption.
  cbn. apply lookup_insert_eq.
Qed.

(** Two opacity edits of one row in a row, each with a number that differs
    from the opacity the layer then has, on a stack with no macro open:
    the second adds no undo step.  The stack keeps its index and its
    commands but the last, which keeps its old opacity and takes the second
    number as its new one; on a stack in its clean state that old opacity
    is the one the layer had before the first edit. *)
Theorem setData_OpacityRole_twice_one_step (w : World) (this doc : ptr)
  (d : MapDocument.t) (mLayers : list Layer) (index : QModelIndex)
  (v1 v2 : QVariant) (layer : Layer) (o1 o2 : Fp.qreal) :
  shows w this doc (MapDocument.map d) mLayers ->
  constructed w doc d mLayers ->
  isValid index = true ->
  Map.layerAt mLayers (layer_of_row mLayers index) = Some layer ->
  settled (MapDocument.undoStack d) ->
  toDouble v1 = (o1, true) ->
  toDouble v2 = (o2, true) ->
  Fp.ne (Fp.to_qreal (opacity layer)) o1 = true ->
  Fp.ne (Fp.to_qreal (Fp.to_float o1)) o2 = true ->
  exists (w1 w2 : World) (d1 d2 : MapDocument.t) (a : SetLayerOpacity.t),
    setData this index v1 OpacityRole w = Returns true w1 /\
    setData this index v2 OpacityRole w1 = Returns true w2 /\
    documents w1 !! doc = Some d1 /\
    documents w2 !! doc = Some d2 /\
    ends_with (MapDocument.undoStack d1) a /\
    SetLayerOpacity.mNewOpacity a = Fp.to_float o1 /\
    MapDocument.undoStack d2
    = with_last (MapDocument.undoStack d1)
        (OpacityCommand (with_mNewOpacity a (Fp.to_float o2))) /\
    (d_index (MapDocument.undoStack d) = d_clean_index (MapDocument.undoStack d)
     -> SetLayerOpacity.mOldOpacity a = opacity layer).
Proof.
  intros Hshows Hc Hvalid Hlayer Hsettled Hv1 Hv2 Hdiff1 Hdiff2.
  set (li := layer_of_row mLayers index) in *.
  set (c1 := created_SetLayerOpacity doc li (Fp.to_float o1) layer).
  set (layer1 := setOpacity (Fp.to_float o1) layer).
  set (mLayers1 := Map.replaceLayerAt mLayers li layer1).
  set (c2 := created_SetLayerOpacity doc li (Fp.to_float o2) layer1).
  set (w1 := pushed doc d (OpacityCommand c1)
               (made_opaque (MapDocument.layerModel d) (MapDocument.map d)
                  mLayers li (Fp.to_float o1) layer w)).
  set (d1 := with_undoStack d
               (QUndoStack_store (MapDocument.undoStack d)
                  (OpacityCommand c1))).
  assert (Hrun1 : setData this index v1 OpacityRole w = Returns true w1).
  { rewrite (setData_OpacityRole_run w this doc d mLayers index v1 layer o1
               Hshows Hc Hvalid Hlayer Hv1).
    fold li. now rewrite Hdiff1. }
  assert (Hshows1 : shows w1 this doc (MapDocument.map d1) mLayers1)
    by exact (shows_pushed w
                (made_opaque (MapDocument.layerModel d) (MapDocument.map d)
                   mLayers li (Fp.to_float o1) layer w)
                this doc d mLayers li layer1 (OpacityCommand c1) Hshows
                eq_refl eq_refl).
  assert (Hc1 : constructed w1 doc d1 mLayers1).
  { apply constructed_pushed. now apply constructed_made_opaque. }
  assert (Hlayer1 : Map.layerAt mLayers1 (layer_of_row mLayers1 index)
                    = Some layer1).
  { unfold mLayers1. rewrite layer_of_row_replaced.
    now apply (layerAt_replaced _ _ layer). }
  assert (Hrun2 :
            setData this index v2 OpacityRole w1
            = Returns true
                (pushed doc d1 (OpacityCommand c2)
                   (made_opaque (MapDocument.layerModel d1)
                      (MapDocument.map d1) mLayers1 li (Fp.to_float o2)
                      layer1 w1))).
  { rewrite (setData_OpacityRole_run w1 this doc d1 mLayers1 index v2 layer1
               o2 Hshows1 Hc1 Hvalid Hlayer1 Hv2).
    assert (Hli : layer_of_row mLayers1 index = li)
      by (unfold mLayers1; apply layer_of_row_replaced).
    rewrite Hli. change (opacity layer1) with (Fp.to_float o1).
    now rewrite Hdiff2. }
  destruct (QUndoStack_store_opacity (MapDocument.undoStack d) c1 Hsettled)
    as (a & Hends & Hsame & Hnew & Hclean).
  eexists w1, _, d1, _, a.
  split; [exact Hrun1|]. split; [exact Hrun2|].
  split; [cbn; apply lookup_insert_eq|].
  split; [cbn; apply lookup_insert_eq|].
  split; [exact Hends|]. split; [exact Hnew|]. split.
  - cbn [MapDocument.undoStack with_undoStack d1].
    apply (QUndoStack_store_merges _ a c2 Hends).
    apply (same_target_trans a c1 c2 Hsame). now split.
  - intros Hclean'. now rewrite (Hclean Hclean').
Qed.

Lemma setData_OpacityRole_twice_one_step_witness :
  exists (w1 w2 : World) (d2 : MapDocument.t),
    setData 3%N (example_index 0) (example_variant_number double_0_2)
      OpacityRole example_world = Returns true w1 /\
    setData 3%N (example_index 0) (example_variant_number (S754_zero false))
      OpacityRole w1 = Returns true w2 /\
    documents w2 !! 1%N = Some d2 /\
    MapDocument.undoStack d2
    = {| d_command_list :=
           [OpacityCommand
              (created_SetLayerOpacity 1%N 2 (S754_zero false)
                 (example_layer "sky" true ImageLayerType))];
         d_index := 1; d_clean_index := 0; d_macro_stack := [] |}.
Proof.
  destruct (setData_OpacityRole_twice_one_step example_world 3%N 1%N
              example_document example_layers (example_index 0)
              (example_variant_number double_0_2)
              (example_variant_number (S754_zero false))
              (example_layer "sky" true ImageLayerType)
              double_0_2 (S754_zero false)
              example_world_shows example_world_constructed
              eq_refl eq_refl)
    as (w1 & w2 & d1 & d2 & a & Hrun1 & Hrun2 & Hd1 & Hd2 & Hends & Hnew
        & Hstack & Hold).
  - repeat split; vm_compute; congruence.
  - reflexivity.
  - reflexivity.
  - reflexivity.
  - reflexivity.
  - exists w1, w2, d2. split; [exact Hrun1|]. split; [exact Hrun2|].
    split; [exact Hd2|].
    assert (Hw1 : Returns true w1
                  = setData 3%N (example_index 0)
                      (example_variant_number double_0_2) OpacityRole
                      example_world) by (symmetry; exact Hrun1).
    vm_compute in Hw1. injection Hw1 as ->.
    vm_compute in Hd1. injection Hd1 as <-.
    destruct Hends as (_ & _ & _ & _ & Hlast).
    vm_compute in Hlast. injection Hlast as <-.
    rewrite Hstack. reflexivity.
Defined.

(** ** The macro of [toggleOtherLayers] *)

Lemma toggleOtherLayers_run (w : World) (this doc : ptr)
  (d : MapDocument.t) (mLayers : list Layer) (layerIndex : Z) :
  shows w this doc (MapDocument.map d) mLayers ->
  constructed w doc d mLayers ->
  2 <= Map.layerCount mLayers ->
  exists w' : World,
    toggleOtherLayers this layerIndex w = Returns tt w' /\
    maps w'
    = <[MapDocument.map d :=
          toggle_layers layerIndex (others_hidden layerIndex 0 mLayers) 0
            mLayers]> (maps w) /\
    documents w'
    = <[doc :=
          with_undoStack d
            (QUndoStack_endMacro
               (foldl QUndoStack_store
                  (QUndoStack_beginMacro (MapDocument.undoStack d)
                     (toggle_label (others_hidden layerIndex 0 mLayers)))
                  (toggle_commands doc layerIndex
                     (others_hidden layerIndex 0 mLayers) 0 mLayers)))]>
        (documents w) /\
    layerModels w' = layerModels w.
Proof.
  intros Hshows Hc Hmany.
  pose proof Hshows as (Hthis & Hself & Hmap & Hlayers & Hmax).
  pose proof Hc as (Hdoc & Hd & Hlm).
  set (target := others_hidden layerIndex 0 mLayers).
  set (s1 := QUndoStack_beginMacro (MapDocument.undoStack d)
               (toggle_label target)).
  set (d1 := with_undoStack d s1).
  set (w1 := store_documents doc d1 w).
  destruct (pushOtherLayers_run this doc layerIndex target mLayers [] w1 d1
              (S (Z.to_nat (Map.layerCount mLayers))))
    as (w2 & Hrun & Hm2 & Hd2 & Hl2).
  { exact Hshows. }
  { repeat split; try assumption; try apply Hlm.
    unfold w1. cbn. apply lookup_insert_eq. }
  { unfold Map.layerCount. cbn [app]. lia. }
  cbn [length app] in Hrun, Hm2, Hd2.
  change (Z.of_nat 0) with 0 in Hrun, Hm2, Hd2.
  set (cmds := toggle_commands doc layerIndex target 0 mLayers) in *.
  set (d2 := with_undoStack d1 (foldl QUndoStack_store
                                  (MapDocument.undoStack d1) cmds)) in *.
  exists (store_documents doc
            (with_undoStack d2
               (QUndoStack_endMacro (MapDocument.undoStack d2))) w2).
  split; [|split; [|split]].
  - unfold toggleOtherLayers.
    rewrite bind_run, (deref_run layerModels this _ w Hthis Hself).
    rewrite bind_run. cbn [LayerModel.mMap LayerModel.mMapDocument].
    rewrite (layerCount_run w _ _ Hmap Hlayers).
    replace (Map.layerCount mLayers <=? 1) with false by cmp.
    rewrite bind_run.
    rewrite (otherLayersHidden_run w this doc _ layerIndex mLayers [])
      by (try exact Hshows; unfold Map.layerCount; cbn [app]; lia).
    cbn [length]. change (Z.of_nat 0) with 0. fold target.
    rewrite bind_run, (deref_run documents doc d w Hdoc Hd).
    rewrite bind_run.
    assert (Hbegin :
              (if target then beginMacro doc (tr "Show Other Layers")
               else beginMacro doc (tr "Hide Other Layers")) w
              = Returns tt w1).
    { unfold w1, d1, s1, toggle_label, tr.
      destruct target; now apply beginMacro_run. }
    rewrite Hbegin, bind_run, Hrun.
    apply endMacro_run; [assumption|].
    rewrite Hd2. apply lookup_insert_eq.
  - cbn. rewrite Hm2. reflexivity.
  - cbn. rewrite Hd2. unfold w1. cbn. now rewrite !insert_insert_eq.
  - cbn. rewrite Hl2. reflexivity.
Qed.


Lemma toggle_layers_length (index : Z) (target : bool) (l : list Layer) :
  forall k : Z, length (toggle_layers index target k l) = length l.
Proof.
  induction l as [|x xs IH]; intros k; [reflexivity|].
  cbn [toggle_layers length]. now rewrite IH.
Qed.







(** ** Undoing the macro *)

Lemma undo_MacroCommand (text : string) (cs : list QUndoCommand) (w : World) :
  undo (MacroCommand text cs) w
  = (cs' ← undo_each cs; mret (MacroCommand text cs')) w.
Proof.
  reflexivity.
Qed.

Lemma toggled_undo (w : World) (doc : ptr) (d : MapDocument.t)
  (pre : list Layer) (x : Layer) (xs : list Layer) (target : bool) :
  constructed w doc d (pre ++ setVisible target x :: xs) ->
  isVisible x = negb target ->
  exists (c' : QUndoCommand) (w' : World),
    undo (toggled doc target (Z.of_nat (length pre))) w = Returns c' w' /\
    constructed w' doc d (pre ++ x :: xs) /\
    maps w' = <[MapDocument.map d := pre ++ x :: xs]> (maps w) /\
    documents w' = documents w /\
    layerModels w' = layerModels w.
Proof.
  intros Hc Hx.
  pose proof (layerAt_middle pre (setVisible target x) xs) as Hlayer.
  pose proof (constructed_made_visible w doc d _ (Z.of_nat (length pre))
                (negb target) (setVisible target x) Hc) as Hc'.
  rewrite replaceLayerAt_middle in Hc'.
  assert (Hback : setVisible (negb target) (setVisible target x) = x)
    by (rewrite <- Hx; now destruct x).
  rewrite Hback in Hc'.
  eexists _, _. split.
  - unfold toggled. cbn [undo]. unfold SetLayerVisible_undo.
    rewrite bind_run.
    rewrite (SetLayerVisible_swap_run w d _
               (with_mVisible
                  (new_SetLayerVisible doc (Z.of_nat (length pre)) target)
                  (negb target))
               (setVisible target x) Hc Hlayer).
    reflexivity.
  - split; [exact Hc'|]. repeat split.
    cbn. now rewrite replaceLayerAt_middle, Hback.
Qed.

Lemma undo_each_toggle_commands (doc : ptr) (d : MapDocument.t)
  (index : Z) (target : bool) (suf : list Layer) :
  forall (pre : list Layer) (w : World),
    constructed w doc d
      (pre ++ toggle_layers index target (Z.of_nat (length pre)) suf) ->
    exists (cs' : list QUndoCommand) (w' : World),
      undo_each
        (toggle_commands doc index target (Z.of_nat (length pre)) suf) w
      = Returns cs' w' /\
      constructed w' doc d (pre ++ suf) /\
      maps w' = <[MapDocument.map d := pre ++ suf]> (maps w) /\
      documents w' = documents w /\
      layerModels w' = layerModels w.
Proof.
  induction suf as [|x xs IH]; intros pre w Hc.
  - exists [], w. cbn [toggle_layers] in Hc. split; [reflexivity|].
    split; [exact Hc|]. repeat split. symmetry. apply insert_id, Hc.
  - cbn [toggle_layers toggle_commands] in *.
    rewrite <- (snoc_length pre x) in *.
    destruct ((Z.of_nat (length pre) =? index)
              || Bool.eqb target (isVisible x)) eqn:Hskip.
    + assert (Hsame : (if Z.of_nat (length pre) =? index then x
                       else setVisible target x) = x).
      { destruct (Z.of_nat (length pre) =? index); [reflexivity|].
        cbn [orb] in Hskip. apply Bool.eqb_prop in Hskip.
        now apply setVisible_same. }
      rewrite Hsame in Hc. cbn [app].
      destruct (IH (pre ++ [x]) w) as (cs' & w' & Hrun & Hc' & Hm & Hd & Hl).
      { now rewrite <- app_assoc. }
      rewrite <- app_assoc in Hc', Hm. cbn [app] in Hc', Hm.
      exists cs', w'. split; [exact Hrun|]. split; [exact Hc'|].
      split; [exact Hm|]. split; assumption.
    + apply orb_false_iff in Hskip as [Hidx Hdiff].
      rewrite Hidx in Hc. cbn [app].
      assert (Hx : isVisible x = negb target)
        by (destruct target, (isVisible x); try discriminate; reflexivity).
      destruct (IH (pre ++ [setVisible target x]) w)
        as (cs' & w1 & Hrun & Hc1 & Hm1 & Hd1 & Hl1).
      { rewrite <- app_assoc. cbn [app].
        now rewrite (snoc_length pre (setVisible target x)),
          <- (snoc_length pre x). }
      rewrite <- app_assoc in Hc1, Hm1. cbn [app] in Hc1, Hm1.
      destruct (toggled_undo w1 doc d pre x xs target Hc1 Hx)
        as (c' & w2 & Hundo & Hc2 & Hm2 & Hd2 & Hl2).
      exists (c' :: cs'), w2. split.
      * cbn [undo_each]. rewrite bind_run.
        rewrite (snoc_length pre x), <- (snoc_length pre (setVisible target x)).
        rewrite Hrun, bind_run, Hundo. reflexivity.
      * split; [exact Hc2|]. split; [|split; congruence].
        rewrite Hm2, Hm1. apply insert_insert_eq.
Qed.

(** On a stack with no macro open, [toggleOtherLayers] leaves the macro as
    the last command of the stack, and undoing that one command gives every
    layer of every map the visibility it had before the call. *)
Theorem toggleOtherLayers_undone_in_one_step (w : World) (this doc : ptr)
  (d : MapDocument.t) (mLayers : list Layer) (layerIndex : Z) :
  shows w this doc (MapDocument.map d) mLayers ->
  constructed w doc d mLayers ->
  2 <= Map.layerCount mLayers ->
  d_macro_stack (MapDocument.undoStack d) = [] ->
  exists (w' w'' : World) (d' : MapDocument.t) (m m' : QUndoCommand),
    toggleOtherLayers this layerIndex w = Returns tt w' /\
    documents w' !! doc = Some d' /\
    last (d_command_list (MapDocument.undoStack d')) = Some m /\
    undo m w' = Returns m' w'' /\
    maps w'' = maps w.
Proof.
  intros Hshows Hc Hmany Hclosed.
  destruct (toggleOtherLayers_run w this doc d mLayers layerIndex
              Hshows Hc Hmany) as (w' & Hrun & Hmaps & Hdocs & Hmodels).
  set (target := others_hidden layerIndex 0 mLayers) in *.
  pose proof (toggle_commands_filter doc layerIndex target mLayers [])
    as Hfilter.
  cbn [length app] in Hfilter. change (Z.of_nat 0) with 0 in Hfilter.
  rewrite Hfilter in Hdocs.
  rewrite (QUndoStack_macro_closed doc target _ _ _ Hclosed) in Hdocs.
  rewrite <- Hfilter in Hdocs.
  set (cmds := toggle_commands doc layerIndex target 0 mLayers) in *.
  set (d' := with_undoStack d _) in Hdocs.
  assert (Hc' : constructed w' doc d'
                  ([] ++ toggle_layers layerIndex target
                           (Z.of_nat (length (@nil Layer))) mLayers)).
  { destruct Hc as (Hdoc & Hd & Hthis & Hself & Hmap & Hlayers & Hmax).
    repeat split; try assumption.
    - rewrite Hdocs. apply lookup_insert_eq.
    - now rewrite Hmodels.
    - rewrite Hmaps. apply lookup_insert_eq.
    - unfold Map.layerCount in *. cbn [app].
      now rewrite toggle_layers_length. }
  destruct (undo_each_toggle_commands doc d' layerIndex target mLayers [] w'
              Hc') as (cs' & w'' & Hundo & _ & Hmaps'' & _ & _).
  cbn [length app] in Hundo, Hmaps''.
  change (Z.of_nat 0) with 0 in Hundo.
  exists w', w'', d', (MacroCommand (toggle_label target) cmds),
    (MacroCommand (toggle_label target) cs').
  split; [exact Hrun|]. split; [rewrite Hdocs; apply lookup_insert_eq|].
  split; [cbn; apply last_snoc|]. split.
  - rewrite undo_MacroCommand, bind_run. fold cmds in Hundo.
    now rewrite Hundo.
  - rewrite Hmaps'', Hmaps. cbn [MapDocument.map d' with_undoStack].
    rewrite insert_insert_eq. apply insert_id, Hc.
Qed.

Lemma toggleOtherLayers_undone_in_one_step_witness :
  exists (w' w'' : World) (d' : MapDocument.t) (m m' : QUndoCommand),
    toggleOtherLayers 3%N 0 example_world = Returns tt w' /\
    documents w' !! 1%N = Some d' /\
    last (d_command_list (MapDocument.undoStack d')) = Some m /\
    undo m w' = Returns m' w'' /\
    maps w'' = maps example_world.
Proof.
  apply (toggleOtherLayers_undone_in_one_step example_world 3%N 1%N
           example_document example_layers 0).
  - exact example_world_shows.
  - exact example_world_constructed.
  - vm_compute. congruence.
  - reflexivity.
Defined.

(** ** Binding another document *)

(** [setMapDocument] with the document already bound returns at once and
    emits nothing.  With another document it resets the model: it emits
    [modelAboutToBeReset] while the model still shows the old layers, then
    stores the document and its map, then emits [modelReset], and from then
    on [rowCount] is the layer count of the new document's map.  Maps and
    documents are not touched. *)
Theorem setMapDocument_resets_the_model (w : World) (this : ptr)
  (self : LayerModel.t) (mapDocument : ptr) (doc : MapDocument.t) :
  is_null this = false ->
  layerModels w !! this = Some self ->
  is_null mapDocument = false ->
  documents w !! mapDocument = Some doc ->
  (LayerModel.mMapDocument self = mapDocument ->
   setMapDocument this mapDocument w = Returns tt w) /\
  (LayerModel.mMapDocument self <> mapDocument ->
   exists w' : World,
     setMapDocument this mapDocument w = Returns tt w' /\
     layerModels w'
     = <[this := {| LayerModel.mMapDocument := mapDocument;
                    LayerModel.mMap := MapDocument.map doc |}]>
         (layerModels w) /\
     maps w' = maps w /\
     documents w' = documents w /\
     emitted w'
     = emitted w ++
       reset_emissions this (observed w this)
         (default [] (maps w !! MapDocument.map doc)) /\
     forall mLayers : list Layer,
       is_null (MapDocument.map doc) = false ->
       maps w !! MapDocument.map doc = Some mLayers ->
       rowCount this QModelIndex_invalid w'
       = Returns (Map.layerCount mLayers) w').
Proof.
  intros Hthis Hself Hdoc Hd. split.
  - intros <-. now apply setMapDocument_same.
  - intros Hne. eexists. split.
    + rewrite (setMapDocument_other w this self mapDocument Hthis Hself Hne).
      rewrite bind_run.
      erewrite (deref_run documents mapDocument)
        by first [exact Hdoc | exact Hd].
      reflexivity.
    + cbn. rewrite insert_insert_eq. repeat split.
      * rewrite <- app_assoc. cbn. unfold reset_emissions. repeat f_equal.
        unfold observed. cbn. now rewrite lookup_insert_eq.
      * intros mLayers Hmap Hlayers. unfold rowCount.
        rewrite bind_run.
        erewrite (deref_run layerModels this)
          by first [exact Hthis | cbn; apply lookup_insert_eq].
        cbn. rewrite Hmap. cbn. unfold layerCount.
        rewrite bind_run.
        erewrite (deref_run maps (MapDocument.map doc))
          by first [exact Hmap | exact Hlayers].
        reflexivity.
Qed.

Lemma setMapDocument_resets_the_model_witness :
  exists w' : World,
    setMapDocument 3%N 4%N example_two_documents = Returns tt w' /\
    emitted w' = reset_emissions 3%N example_layers [] /\
    rowCount 3%N QModelIndex_invalid w' = Returns 0 w'.
Proof.
  destruct (proj2 (setMapDocument_resets_the_model example_two_documents
                     3%N
                     {| LayerModel.mMapDocument := 1%N;
                        LayerModel.mMap := 2%N |}
                     4%N
                     {| MapDocument.map := 5%N;
                        MapDocument.layerModel := 6%N;
                        MapDocument.undoStack := QUndoStack_new |}
                     eq_refl eq_refl eq_refl eq_refl))
    as (w' & Hrun & _ & _ & _ & Hemitted & Hrows).
  - discriminate.
  - exists w'. split; [exact Hrun|]. split; [exact Hemitted|].
    apply (Hrows []); reflexivity.
Defined.

(** ** The direct mutators *)

Lemma layerAt_replaced_other (mLayers : list Layer) (i j : Z) (l : Layer) :
  0 <= i -> i <> j ->
  Map.layerAt (Map.replaceLayerAt mLayers i l) j = Map.layerAt mLayers j.
Proof.
  intros Hpos Hne. unfold Map.layerAt, Map.in_range.
  rewrite replaceLayerAt_count.
  destruct ((0 <=? j) && (j <? Map.layerCount mLayers)) eqn:Hrange;
    [|reflexivity].
  apply andb_true_iff in Hrange as [H0 _].
  unfold Map.replaceLayerAt. apply list_lookup_insert_ne. lia.
Qed.

(** [renameLayer] on a layer index that exists emits
    [layerAboutToBeRenamed] while the layer still has its old name, then
    changes the name, and emits [layerRenamed], [dataChanged] for the
    layer's row and [layerChanged] with the new name in place.  No other
    layer changes, and the layer keeps its visibility, opacity and type. *)
Theorem renameLayer_notifies (w : World) (this doc map : ptr)
  (mLayers : list Layer) (i : Z) (s : string) (layer : Layer) :
  shows w this doc map mLayers ->
  Map.layerAt mLayers i = Some layer ->
  exists (w' : World) (mLayers' : list Layer),
    renameLayer this i s w = Returns tt w' /\
    maps w' = <[map := mLayers']> (maps w) /\
    emitted w' = emitted w ++ rename_emissions this mLayers mLayers' i /\
    Map.layerAt mLayers' i
    = Some {| name := s; isVisible := isVisible layer;
              opacity := opacity layer; type := type layer |} /\
    forall j : Z, j <> i -> Map.layerAt mLayers' j = Map.layerAt mLayers j.
Proof.
  intros Hshows Hlayer.
  exists (made_renamed this map mLayers i s layer w),
    (Map.replaceLayerAt mLayers i (setName s layer)).
  split; [now apply (renameLayer_run w this doc map)|].
  split; [reflexivity|]. split; [|split].
  - cbn. rewrite <- !app_assoc. cbn. unfold rename_emissions.
    rewrite (observed_shows w this doc map mLayers Hshows).
    repeat f_equal;
      apply (observed_store_maps _ this doc map mLayers); exact Hshows.
  - now apply (layerAt_replaced mLayers i layer).
  - intros j Hne. destruct (layerAt_in_range _ _ _ Hlayer) as [Hi _].
    apply layerAt_replaced_other; [lia | congruence].
Qed.

Lemma renameLayer_notifies_witness :
  exists (w' : World) (mLayers' : list Layer),
    renameLayer 3%N 0 "floor" example_world = Returns tt w' /\
    emitted w' = rename_emissions 3%N example_layers mLayers' 0 /\
    Map.layerAt mLayers' 0
    = Some (example_layer "floor" false TileLayerType).
Proof.
  destruct (renameLayer_notifies example_world 3%N 1%N 2%N example_layers
              0 "floor" (example_layer "ground" false TileLayerType)
              example_world_shows eq_refl)
    as (w' & mLayers' & Hrun & _ & Hemitted & Hlayer & _).
  exists w', mLayers'. split; [exact Hrun|]. split; [exact Hemitted|].
  exact Hlayer.
Defined.

(** [setLayerVisible] and [setLayerOpacity] on a layer index that exists
    change that one property of that one layer and nothing else in any map.
    [setLayerVisible] then emits [dataChanged] for the layer's row and
    [layerChanged]; [setLayerOpacity] emits [layerChanged] alone, so a
    change of opacity is never announced by [dataChanged]. *)
Theorem setLayerVisible_setLayerOpacity_notify (w : World)
  (this doc map : ptr) (mLayers : list Layer) (i : Z) (layer : Layer) :
  shows w this doc map mLayers ->
  Map.layerAt mLayers i = Some layer ->
  (forall v : bool,
     exists (w' : World) (mLayers' : list Layer),
       setLayerVisible this i v w = Returns tt w' /\
       maps w' = <[map := mLayers']> (maps w) /\
       emitted w'
       = emitted w ++
         [ {| sender := this;
              signal := dataChanged (cell this mLayers i) (cell this mLayers i);
              seen := mLayers' |};
           {| sender := this; signal := layerChanged i; seen := mLayers' |} ] /\
       Map.layerAt mLayers' i
       = Some {| name := name layer; isVisible := v;
                 opacity := opacity layer; type := type layer |} /\
       forall j : Z, j <> i -> Map.layerAt mLayers' j = Map.layerAt mLayers j) /\
  (forall o : Fp.float,
     exists (w' : World) (mLayers' : list Layer),
       setLayerOpacity this i o w = Returns tt w' /\
       maps w' = <[map := mLayers']> (maps w) /\
       emitted w'
       = emitted w ++
         [ {| sender := this; signal := layerChanged i; seen := mLayers' |} ] /\
       Map.layerAt mLayers' i
       = Some {| name := name layer; isVisible := isVisible layer;
                 opacity := o; type := type layer |} /\
       forall j : Z, j <> i -> Map.layerAt mLayers' j = Map.layerAt mLayers j).
Proof.
  intros Hshows Hlayer.
  destruct (layerAt_in_range _ _ _ Hlayer) as [Hi _].
  split.
  - intros v.
    exists (made_visible this map mLayers i v layer w),
      (Map.replaceLayerAt mLayers i (setVisible v layer)).
    split; [now apply (setLayerVisible_run w this doc map)|].
    split; [reflexivity|]. split; [|split].
    + cbn. rewrite <- !app_assoc. cbn.
      repeat f_equal;
        apply (observed_store_maps _ this doc map mLayers); exact Hshows.
    + now apply (layerAt_replaced mLayers i layer).
    + intros j Hne. apply layerAt_replaced_other; [lia | congruence].
  - intros o.
    exists (made_opaque this map mLayers i o layer w),
      (Map.replaceLayerAt mLayers i (setOpacity o layer)).
    split; [now apply (setLayerOpacity_run w this doc map)|].
    split; [reflexivity|]. split; [|split].
    + cbn. repeat f_equal.
      apply (observed_store_maps _ this doc map mLayers); exact Hshows.
    + now apply (layerAt_replaced mLayers i layer).
    + intros j Hne. apply layerAt_replaced_other; [lia | congruence].
Qed.

Lemma setLayerVisible_setLayerOpacity_notify_witness :
  exists (w' : World) (mLayers' : list Layer),
    setLayerOpacity 3%N 0 float_0_5 example_world = Returns tt w' /\
    emitted w'
    = [ {| sender := 3%N; signal := layerChanged 0; seen := mLayers' |} ].
Proof.
  destruct (proj2 (setLayerVisible_setLayerOpacity_notify example_world
                     3%N 1%N 2%N example_layers 0
                     (example_layer "ground" false TileLayerType)
                     example_world_shows eq_refl) float_0_5)
    as (w' & mLayers' & Hrun & _ & Hemitted & _).
  exists w', mLayers'. split; [exact Hrun | exact Hemitted].
Defined.

(** ** A model without a map *)

(** Only [rowCount] tests the map pointer.  On a model whose map pointer is
    null, [toLayerIndex], [data] and [setData] with a valid index,
    [layerIndexToRow], [insertLayer], [takeLayerAt], the direct mutators and
    [toggleOtherLayers] all follow the null pointer. *)
Theorem no_map_only_rowCount_is_safe (w : World) (this : ptr)
  (self : LayerModel.t) :
  is_null this = false ->
  layerModels w !! this = Some self ->
  LayerModel.mMap self = null ->
  rowCount this QModelIndex_invalid w = Returns 0 w /\
  (forall (index : QModelIndex) (value : QVariant) (role : Z),
     isValid index = true ->
     toLayerIndex this index w = Faults NullPointer /\
     data this index role w = Faults NullPointer /\
     setData this index value role w = Faults NullPointer) /\
  (forall (i : Z) (layer : Layer) (v : bool) (o : Fp.float) (s : string),
     layerIndexToRow this i w = Faults NullPointer /\
     insertLayer this i layer w = Faults NullPointer /\
     takeLayerAt this i w = Faults NullPointer /\
     setLayerVisible this i v w = Faults NullPointer /\
     setLayerOpacity this i o w = Faults NullPointer /\
     renameLayer this i s w = Faults NullPointer /\
     toggleOtherLayers this i w = Faults NullPointer).
Proof.
  intros Hthis Hself Hnull.
  assert (Hderef : forall w0 : World,
             layerModels w0 = layerModels w ->
             deref layerModels this w0 = Returns self w0).
  { intros w0 Hw0. apply deref_run; [exact Hthis | now rewrite Hw0]. }
  assert (Hcount : forall w0 : World,
             layerCount (LayerModel.mMap self) w0 = Faults NullPointer).
  { intros w0. rewrite Hnull. reflexivity. }
  assert (Hrow : forall (i : Z) (w0 : World),
             layerModels w0 = layerModels w ->
             layerIndexToRow this i w0 = Faults NullPointer).
  { intros i w0 Hw0. unfold layerIndexToRow.
    now rewrite bind_run, (Hderef w0 Hw0), bind_run, Hcount. }
  assert (Hindex : forall index : QModelIndex,
             isValid index = true ->
             toLayerIndex this index w = Faults NullPointer).
  { intros index Hvalid. unfold toLayerIndex. rewrite Hvalid.
    now rewrite bind_run, (Hderef w eq_refl), bind_run, Hcount. }
  split; [|split].
  - unfold rowCount. rewrite bind_run, (Hderef w eq_refl), Hnull.
    reflexivity.
  - intros index value role Hvalid. split; [now apply Hindex|].
    unfold data, setData. now rewrite !bind_run, (Hindex index Hvalid).
  - intros i layer v o s. split; [now apply Hrow|].
    split; [unfold insertLayer; now rewrite bind_run, Hrow|].
    split.
    { unfold takeLayerAt. rewrite bind_run. cbn [emit].
      now rewrite bind_run, Hrow. }
    split; [unfold setLayerVisible; now rewrite bind_run, Hrow|].
    split.
    { unfold setLayerOpacity, modifyLayerAt.
      rewrite bind_run, (Hderef w eq_refl), bind_run, bind_run.
      now rewrite Hnull. }
    split.
    { unfold renameLayer. rewrite bind_run. cbn [emit].
      now rewrite bind_run, Hrow. }
    unfold toggleOtherLayers.
    now rewrite bind_run, (Hderef w eq_refl), bind_run, Hcount.
Qed.

Lemma no_map_only_rowCount_is_safe_witness :
  rowCount 3%N QModelIndex_invalid example_unbound_world
  = Returns 0 example_unbound_world /\
  data 3%N (example_index 0) Qt.DisplayRole example_unbound_world
  = Faults NullPointer.
Proof.
  destruct (no_map_only_rowCount_is_safe example_unbound_world 3%N
              LayerModel_new eq_refl eq_refl eq_refl)
    as (Hcount & Haccess & _).
  split; [exact Hcount|].
  apply (Haccess (example_index 0) (example_variant_int 0) Qt.DisplayRole).
  reflexivity.
Defined.

(** ** Commands hold a layer index, not a layer *)

Lemma layerAt_above_inserted (mLayers : list Layer) (k i : Z)
  (new layer : Layer) :
  0 <= k <= i ->
  Map.layerAt mLayers i = Some layer ->
  Map.layerAt (Map.insertLayer mLayers k new) (i + 1) = Some layer.
Proof.
  intros Hk Hlayer. destruct (layerAt_in_range _ _ _ Hlayer) as [Hi Hl].
  unfold Map.layerAt, Map.in_range. rewrite insertLayer_count.
  replace (0 <=? i + 1) with true by cmp.
  replace (i + 1 <? Map.layerCount mLayers + 1) with true by cmp. cbn.
  destruct (insertLayer_split mLayers k new) as [-> Hlen]; [lia|].
  rewrite lookup_app_r by lia. rewrite Hlen.
  replace (Z.to_nat (i + 1) - Z.to_nat k)%nat
    with (S (Z.to_nat i - Z.to_nat k)) by lia.
  change ((new :: drop (Z.to_nat k) mLayers)
          !! S (Z.to_nat i - Z.to_nat k))
    with (drop (Z.to_nat k) mLayers !! (Z.to_nat i - Z.to_nat k)%nat).
  rewrite lookup_drop.
  now replace (Z.to_nat k + (Z.to_nat i - Z.to_nat k))%nat
    with (Z.to_nat i) by lia.
Qed.

(** A [SetLayerVisible] built for the layer at index [i] is not told when a
    layer is inserted at or below [i].  Redone afterwards, it changes
    whatever layer is then at [i]; the layer it was built for is at
    [i + 1] and keeps its visibility. *)
Theorem SetLayerVisible_after_insertLayer (w : World) (d : MapDocument.t)
  (mLayers : list Layer) (c : SetLayerVisible.t) (k : Z)
  (new layer : Layer) :
  constructed w (SetLayerVisible.mMapDocument c) d mLayers ->
  Map.layerAt mLayers (SetLayerVisible.mLayerIndex c) = Some layer ->
  0 <= k <= SetLayerVisible.mLayerIndex c ->
  Map.layerCount mLayers < Int.max_int ->
  exists (w1 w2 : World) (c' : SetLayerVisible.t) (other : Layer),
    insertLayer (MapDocument.layerModel d) k new w = Returns tt w1 /\
    Map.layerAt (Map.insertLayer mLayers k new) (SetLayerVisible.mLayerIndex c)
    = Some other /\
    SetLayerVisible_redo c w1 = Returns c' w2 /\
    layerAt (MapDocument.map d) (SetLayerVisible.mLayerIndex c) w2
    = Returns (setVisible (SetLayerVisible.mVisible c) other) w2 /\
    layerAt (MapDocument.map d) (SetLayerVisible.mLayerIndex c + 1) w2
    = Returns layer w2.
Proof.
  intros Hc Hlayer Hk Hroom.
  set (i := SetLayerVisible.mLayerIndex c) in *.
  set (doc := SetLayerVisible.mMapDocument c) in *.
  pose proof Hc as (Hdoc & Hd & Hshows).
  destruct (layerAt_in_range _ _ _ Hlayer) as [Hi _].
  set (mLayers1 := Map.insertLayer mLayers k new).
  set (w1 := made_inserted (MapDocument.layerModel d) (MapDocument.map d)
               mLayers k new w).
  assert (Hshows1 : shows w1 (MapDocument.layerModel d) doc
                      (MapDocument.map d) mLayers1)
    by now apply shows_made_inserted.
  assert (Hc1 : constructed w1 doc d mLayers1)
    by (split; [exact Hdoc | split; [exact Hd | exact Hshows1]]).
  assert (Hmoved : Map.layerAt mLayers1 (i + 1) = Some layer)
    by now apply layerAt_above_inserted.
  destruct (lookup_lt_is_Some_2 mLayers1 (Z.to_nat i)) as [other Hother].
  { apply layerAt_in_range in Hmoved as [Hrange _].
    unfold Map.layerCount in Hrange. lia. }
  assert (Hat : Map.layerAt mLayers1 i = Some other).
  { unfold Map.layerAt, Map.in_range.
    apply layerAt_in_range in Hmoved as [Hrange _].
    replace (0 <=? i) with true by cmp.
    now replace (i <? Map.layerCount mLayers1) with true by cmp. }
  pose proof (constructed_made_visible w1 doc d mLayers1 i
                (SetLayerVisible.mVisible c) other Hc1)
    as (_ & _ & _ & _ & Hmap2 & Hlayers2 & _).
  exists w1. eexists _, _, other.
  split; [apply (insertLayer_run w _ doc _ mLayers); [assumption|lia|lia]|].
  split; [exact Hat|].
  split; [exact (SetLayerVisible_swap_run w1 d mLayers1 c other Hc1 Hat)|].
  split.
  - apply (layerAt_run _ _ _ _ _ Hmap2 Hlayers2).
    now apply (layerAt_replaced mLayers1 i other).
  - apply (layerAt_run _ _ _ _ _ Hmap2 Hlayers2).
    rewrite layerAt_replaced_other by lia. exact Hmoved.
Qed.

Lemma SetLayerVisible_after_insertLayer_witness :
  exists (w1 w2 : World) (c' : SetLayerVisible.t) (other : Layer),
    insertLayer 3%N 0 (example_layer "water" true TileLayerType)
      example_world = Returns tt w1 /\
    Map.layerAt
      (Map.insertLayer example_layers 0
         (example_layer "water" true TileLayerType)) 0 = Some other /\
    SetLayerVisible_redo (new_SetLayerVisible 1%N 0 true) w1
    = Returns c' w2 /\
    layerAt 2%N 0 w2 = Returns (setVisible true other) w2 /\
    layerAt 2%N (0 + 1) w2
    = Returns (example_layer "ground" false TileLayerType) w2.
Proof.
  apply (SetLayerVisible_after_insertLayer example_world example_document
           example_layers (new_SetLayerVisible 1%N 0 true) 0
           (example_layer "water" true TileLayerType)
           (example_layer "ground" false TileLayerType)).
  - exact example_world_constructed.
  - reflexivity.
  - vm_compute. split; congruence.
  - vm_compute. reflexivity.
Defined.
